(** * Goshala storefront backend: reviews, rating aggregation, migration

    A shallow embedding of [server.js]: the three Mongoose collections
    (Product, Comment, Order) as lists of records, every request handler as a
    function from a store to a store and a response, and the start-up
    pipeline [migrateAndSeed] / [startServer] as store transformers.

    Modelling conventions.
    - JavaScript strings are Stdlib strings: sequences of code units below
      256 (Latin-1), on which [toLowerCase] and [trim] are the ECMAScript
      functions.
    - Numbers that the code only ever uses as whole numbers (legacy ids, star
      ratings stored on comments, counts, timestamps) are [Z]; numbers that
      arrive from JSON and may be fractional (the rating of a request body,
      prices, the cached product rating copied from the legacy file) are [Q].
      The mean of whole ratings between 1 and 5 is a double that lies on
      the same side of every tie [k + 1/2] as the exact quotient (a tie is
      representable, division is correctly rounded, and a quotient that is
      not a tie is at least [1/(2n)] away from one, more than half an ulp
      for [n < 2^49] comments), so the rational model of [$avg] and
      [Math.round] agrees with the running code.
    - The one sum of the server that can leave the range of exact doubles,
      [lastProduct.legacyId + 1], is rounded to the nearest double
      ([JS.plus]).
    - A Mongoose save that fails schema validation or hits a unique index
      throws; the handlers catch it. Generated [_id]s come from a counter
      that stays above every [_id] of the store. Loss of the database
      connection during a request is not modelled. *)

From Stdlib Require Import ZArith QArith Qround List String Ascii Bool Lia.
From Stdlib Require Import DecimalString Permutation Sorted.
Import ListNotations.

(** ** JavaScript primitives used by the server *)

Module JS.

Open Scope string_scope.

(** Upper-case letters among the code units below 256: A-Z, and the
    Latin-1 letters U+00C0-U+00DE without the multiplication sign U+00D7. *)
Definition isUpper (c : ascii) : bool :=
  let n := nat_of_ascii c in
  ((65 <=? n)%nat && (n <=? 90)%nat)
  || ((192 <=? n)%nat && (n <=? 222)%nat && negb (n =? 215)%nat).

Definition lowerChar (c : ascii) : ascii :=
  if isUpper c then ascii_of_nat (nat_of_ascii c + 32) else c.

(** [String.prototype.toLowerCase]. *)
Fixpoint toLowerCase (s : string) : string :=
  match s with
  | EmptyString => EmptyString
  | String c s' => String (lowerChar c) (toLowerCase s')
  end.

(** WhiteSpace and LineTerminator code points below 256:
    TAB, LF, VT, FF, CR, SPACE and NO-BREAK SPACE. *)
Definition isWhiteSpace (c : ascii) : bool :=
  let n := nat_of_ascii c in
  ((9 <=? n)%nat && (n <=? 13)%nat) || (n =? 32)%nat || (n =? 160)%nat.

Fixpoint trimStart (s : string) : string :=
  match s with
  | EmptyString => EmptyString
  | String c s' => if isWhiteSpace c then trimStart s' else s
  end.

Fixpoint trimEnd (s : string) : string :=
  match s with
  | EmptyString => EmptyString
  | String c s' =>
      match trimEnd s' with
      | EmptyString => if isWhiteSpace c then EmptyString else String c EmptyString
      | t => String c t
      end
  end.

(** [String.prototype.trim]. *)
Definition trim (s : string) : string := trimEnd (trimStart s).

(** [String.prototype.includes]: [t] occurs in [s] at some position. *)
Fixpoint includes (s t : string) : bool :=
  String.prefix t s ||
  match s with
  | EmptyString => false
  | String _ s' => includes s' t
  end.

(** Truthiness of a string: only the empty string is falsy. *)
Definition truthyString (s : string) : bool :=
  match s with EmptyString => false | _ => true end.

(** [s || ''] for a string [s]. *)
Definition orEmpty (s : string) : string :=
  if truthyString s then s else EmptyString.

(** Truthiness of a (finite) number: only zero is falsy. *)
Definition truthyNumber (q : Q) : bool := negb (Qeq_bool q 0).

Definition ltNumber (a b : Q) : bool := negb (Qle_bool b a).
Definition gtNumber (a b : Q) : bool := negb (Qle_bool a b).

(** [parseInt] of a number: the digits before the decimal point of its
    decimal rendering, i.e. truncation toward zero. (Exact for
    [1e-6 <= |q| < 1e21]; the server only calls it on [1 <= q <= 5].) *)
Definition parseInt (q : Q) : Z := Z.quot (Qnum q) (Zpos (Qden q)).

(** [ToNumber] of a value that is a number or [null]: [null] is [+0]. *)
Definition ToNumber (v : option Q) : Q :=
  match v with Some q => q | None => 0 end.

(** [Math.round]: nearest integer, ties toward plus infinity. *)
Definition Math_round (q : Q) : Z := Qfloor (q + (1 # 2)).

(** Truthiness of a whole number: only zero is falsy. *)
Definition truthyInteger (z : Z) : bool := negb (z =? 0)%Z.

(** The double nearest to a whole number, ties to the even significand.
    Every whole number up to [2^53] in absolute value is a double; beyond,
    neighbouring doubles are [2^(log2 |z| - 52)] apart. (No whole number
    the server computes reaches the overflow threshold.) *)
Definition toDouble (z : Z) : Z :=
  let a := Z.abs z in
  if (a <=? 2 ^ 53)%Z then z
  else
    let u := (2 ^ (Z.log2 a - 52))%Z in
    let q := (a / u)%Z in
    let r := (a mod u)%Z in
    let q' :=
      if (2 * r <? u)%Z then q
      else if (u <? 2 * r)%Z then (q + 1)%Z
      else if Z.even q then q else (q + 1)%Z in
    (Z.sgn z * (q' * u))%Z.

(** [a + b] on numbers with whole values: the exact sum, rounded to a
    double. *)
Definition plus (a b : Z) : Z := toDouble (a + b).

End JS.

(** ** Mongoose schemas *)

(** Document ids ([_id]): generated from a counter, or chosen by the body
    of a product creation. *)
Definition ObjectId := N.

(** Dates are milliseconds since the epoch. *)
Definition Date := Z.

Module Product.

(** A stored Product document (ProductSchema). *)
Record t := mk {
  _id : ObjectId;
  legacyId : Z;
  name : string;
  dateAdded : Date;
  category : list string;
  images : list string;
  description : option string;
  rating : Q;
  reviewsCount : Z;
  sellerTag : option string;
  price : Q;
  originalPrice : option Q;
  deliveryDate : option string
}.

(** The object literal handed to [new Product(...)]: [legacyId] and
    [dateAdded] are always supplied by the callers, every other property
    may be [undefined]. An [_id] in the literal becomes the document's
    [_id]; without one the driver generates it. *)
Record init := mkInit {
  i_id : option ObjectId;
  i_legacyId : Z;
  i_name : option string;
  i_dateAdded : Date;
  i_category : list string;
  i_images : list string;
  i_description : option string;
  i_rating : option Q;
  i_reviewsCount : option Z;
  i_sellerTag : option string;
  i_price : option Q;
  i_originalPrice : option Q;
  i_deliveryDate : option string
}.

Definition lengthBetween (lo hi : nat) (s : string) : bool :=
  (lo <=? String.length s)%nat && (String.length s <=? hi)%nat.

(** [new Product(o)] followed by validation: the [trim] setters and the
    defaults are applied, then [required], [minlength], [maxlength] and
    [min] are checked. [None] is a ValidationError. *)
Definition create (oid : ObjectId) (o : init) : option t :=
  match i_name o, i_price o with
  | Some n, Some pr =>
      let n' := JS.trim n in
      let d' := option_map JS.trim (i_description o) in
      if JS.truthyString n' && lengthBetween 3 150 n'
         && match d' with Some d => lengthBetween 0 2000 d | None => true end
         && Qle_bool 0 pr
      then Some {| _id := oid;
                   legacyId := i_legacyId o;
                   name := n';
                   dateAdded := i_dateAdded o;
                   category := i_category o;
                   images := i_images o;
                   description := d';
                   rating := match i_rating o with Some r => r | None => 0 end;
                   reviewsCount := match i_reviewsCount o with Some c => c | None => 0%Z end;
                   sellerTag := i_sellerTag o;
                   price := pr;
                   originalPrice := i_originalPrice o;
                   deliveryDate := i_deliveryDate o |}
      else None
  | _, _ => None
  end.

(** [product.rating = r; product.reviewsCount = c]. *)
Definition setStats (r : Q) (c : Z) (p : t) : t :=
  {| _id := _id p; legacyId := legacyId p; name := name p;
     dateAdded := dateAdded p; category := category p; images := images p;
     description := description p; rating := r; reviewsCount := c;
     sellerTag := sellerTag p; price := price p;
     originalPrice := originalPrice p; deliveryDate := deliveryDate p |}.

End Product.

Module Comment.

(** A stored Comment document (CommentSchema); [rating] is optional. *)
Record t := mk {
  productId : ObjectId;
  username : string;
  comment : string;
  rating : option Z;
  createdAt : Date;
  verifiedPurchase : bool
}.

(** The object literal handed to [new Comment(...)]. *)
Record init := mkInit {
  i_productId : ObjectId;
  i_username : string;
  i_comment : string;
  i_rating : option Z;
  i_createdAt : option Date;
  i_verifiedPurchase : option bool
}.

(** [new Comment(o)]: [trim] setters, [createdAt] defaults to [Date.now],
    [verifiedPurchase] defaults to [false]. *)
Definition make (now : Date) (o : init) : t :=
  {| productId := i_productId o;
     username := JS.trim (i_username o);
     comment := JS.trim (i_comment o);
     rating := i_rating o;
     createdAt := match i_createdAt o with Some d => d | None => now end;
     verifiedPurchase :=
       match i_verifiedPurchase o with Some b => b | None => false end |}.

(** Schema validation: [required] strings are non-empty, a rating that is
    set lies between [min: 1] and [max: 5]. *)
Definition validate (c : t) : bool :=
  JS.truthyString (username c) && JS.truthyString (comment c)
  && match rating c with
     | Some r => (1 <=? r)%Z && (r <=? 5)%Z
     | None => true
     end.

End Comment.

Module Item.
Record t := mk { id : Z; name : string; quantity : Z; price : Q }.
End Item.

Module Customer.
Record t := mk {
  firstname : string; lastname : string; email : string; phone : string;
  address1 : string; address2 : option string;
  city : string; state : string; zip : string
}.
End Customer.

Module Order.
Record t := mk {
  orderId : string;
  date : Date;
  user : Customer.t;
  total : Q;
  items : list Item.t
}.
End Order.

(** Records of [products.json], the legacy flat file: products, each with
    its embedded reviews. Star ratings of embedded reviews are whole numbers;
    [dateAdded] and [createdAt] are numbers of milliseconds, [None] when the
    property is missing. *)
Module LegacyReview.
Record t := mk {
  user : string;
  rating : Z;
  comment : string;
  createdAt : option Date
}.
End LegacyReview.

Module LegacyProduct.
Record t := mk {
  id : Z;
  name : option string;
  dateAdded : option Date;
  category : list string;
  images : list string;
  description : option string;
  rating : option Q;
  reviewsCount : option Z;
  sellerTag : option string;
  price : option Q;
  originalPrice : option Q;
  deliveryDate : option string;
  reviews : list LegacyReview.t
}.
End LegacyProduct.

(** ** The document store *)

Record Store := mkStore {
  products : list Product.t;
  comments : list Comment.t;
  orders : list Order.t;
  nextId : ObjectId
}.

Definition withProducts (ps : list Product.t) (st : Store) : Store :=
  {| products := ps; comments := comments st; orders := orders st;
     nextId := nextId st |}.

Definition withComments (cs : list Comment.t) (st : Store) : Store :=
  {| products := products st; comments := cs; orders := orders st;
     nextId := nextId st |}.

(** [Product.findOne({ legacyId })]. *)
Definition Product_findOne (legacyId : Z) (ps : list Product.t)
  : option Product.t :=
  find (fun p => (Product.legacyId p =? legacyId)%Z) ps.

(** [Product.findById(id)]. *)
Definition Product_findById (oid : ObjectId) (ps : list Product.t)
  : option Product.t :=
  find (fun p => (Product._id p =? oid)%N) ps.

(** [Product.findOne().sort({ legacyId: ... })]: the first document in the
    requested order; [before a b] says that key [a] sorts strictly before
    [b]. *)
Fixpoint Product_findOne_sort (before : Z -> Z -> bool) (ps : list Product.t)
  : option Product.t :=
  match ps with
  | [] => None
  | p :: ps' =>
      match Product_findOne_sort before ps' with
      | None => Some p
      | Some q =>
          if before (Product.legacyId q) (Product.legacyId p)
          then Some q else Some p
      end
  end.

(** [newProduct.save()] of a freshly constructed document: validation, then
    insertion. The document goes under the [_id] of the literal if it has
    one, and under a generated [_id] otherwise; generated ids differ from
    every id already seen, so the counter moves past a chosen id. The
    insertion is refused with a duplicate-key error (a throw, like a failed
    validation) when the [unique] index on [legacyId] already holds the
    document's [legacyId], or when a chosen [_id] is in use. *)
Definition Product_save (o : Product.init) (st : Store)
  : option (Product.t * Store) :=
  let oid :=
    match Product.i_id o with
    | Some chosen => chosen
    | None => nextId st
    end in
  match Product.create oid o with
  | Some p =>
      match Product_findOne (Product.legacyId p) (products st),
            match Product.i_id o with
            | Some chosen => Product_findById chosen (products st)
            | None => None
            end with
      | None, None =>
          Some (p, {| products := products st ++ [p]; comments := comments st;
                      orders := orders st;
                      nextId := N.max (nextId st) (N.succ oid) |})
      | _, _ => None
      end
  | None => None
  end.

(** [product.save()] of a loaded document whose [rating] and [reviewsCount]
    were assigned: an update of those two paths of the document with that
    [_id]. *)
Definition Product_update (p : Product.t) (st : Store) : Store :=
  withProducts
    (map (fun q =>
            if (Product._id q =? Product._id p)%N
            then Product.setStats (Product.rating p) (Product.reviewsCount p) q
            else q)
         (products st))
    st.

(** [newComment.save()]. *)
Definition Comment_save (c : Comment.t) (st : Store) : option Store :=
  if Comment.validate c then Some (withComments (comments st ++ [c]) st)
  else None.

(** [Comment.insertMany(docs)]: every document is validated first; one
    invalid document rejects the whole batch. *)
Definition Comment_insertMany (cs : list Comment.t) (st : Store)
  : option Store :=
  if forallb Comment.validate cs
  then Some (withComments (comments st ++ cs) st)
  else None.

(** [Comment.create([...])]: the documents are saved one after the other. *)
Fixpoint Comment_create (cs : list Comment.t) (st : Store) : option Store :=
  match cs with
  | [] => Some st
  | c :: cs' =>
      match Comment_save c st with
      | Some st' => Comment_create cs' st'
      | None => None
      end
  end.

(** [Order.find({ 'items.id': legacyId })]. *)
Definition Order_find (legacyId : Z) (os : list Order.t) : list Order.t :=
  filter (fun o => existsb (fun it => (Item.id it =? legacyId)%Z)
                           (Order.items o)) os.

(** One result row of the [$group] stage. [avgRating] is [null] when no
    matched comment carries a numeric rating. *)
Record Stats := mkStats { avgRating : option Q; count : Z }.

Definition ratings (cs : list Comment.t) : list Z :=
  flat_map (fun c => match Comment.rating c with
                     | Some r => [r]
                     | None => []
                     end) cs.

Definition sum (rs : list Z) : Z := fold_right Z.add 0%Z rs.

(** [$avg]: the mean of the numeric values, [null] if there are none. *)
Definition avg (rs : list Z) : option Q :=
  match rs with
  | [] => None
  | _ => Some (inject_Z (sum rs) / inject_Z (Z.of_nat (List.length rs)))
  end.

Definition matchProductId (oid : ObjectId) (cs : list Comment.t)
  : list Comment.t :=
  filter (fun c => (Comment.productId c =? oid)%N) cs.

(** [Comment.aggregate([{ $match: { productId } },
      { $group: { _id: '$productId', avgRating: { $avg: '$rating' },
                  count: { $sum: 1 } } }])]:
    one row if some comment matches, none otherwise. *)
Definition Comment_aggregate (oid : ObjectId) (cs : list Comment.t)
  : list Stats :=
  match matchProductId oid cs with
  | [] => []
  | m => [ {| avgRating := avg (ratings m);
              count := Z.of_nat (List.length m) |} ]
  end.

(** ** Request handlers *)

Inductive Response (A : Type) : Type :=
| Status201 (payload : A)
| Status400
| Status401
| Status404
| Status500.

Arguments Status201 {A} payload.
Arguments Status400 {A}.
Arguments Status401 {A}.
Arguments Status404 {A}.
Arguments Status500 {A}.

(** *** Purchase verification (inlined twice in [server.js]) *)

Definition customerName (order : Order.t) : string :=
  JS.trim (JS.toLowerCase
             (JS.orEmpty (Customer.firstname (Order.user order)) ++ " "
              ++ JS.orEmpty (Customer.lastname (Order.user order)))%string).

Definition isVerified (ordersWithProduct : list Order.t) (user : string)
  : bool :=
  if (0 <? List.length ordersWithProduct)%nat then
    let reviewerName := JS.trim (JS.toLowerCase user) in
    existsb (fun order => JS.includes (customerName order) reviewerName)
            ordersWithProduct
  else false.

(** The Purchase Matcher over the whole Orders collection. *)
Definition isVerifiedPurchase (os : list Order.t) (productLegacyId : Z)
  (reviewerName : string) : bool :=
  isVerified (Order_find productLegacyId os) reviewerName.

(** *** POST /api/products/:id/reviews *)

Module ReviewBody.
(** [req.body] as the JSON body parser delivers it: [user] and [comment]
    are strings, [rating] is a number (its exact value); an absent (or
    [null]) property is [None]. *)
Record t := mk {
  user : option string;
  rating : option Q;
  comment : option string
}.
End ReviewBody.

Record ReviewResult := mkReviewResult {
  newComment : Comment.t;
  newRating : Q;
  newReviewsCount : Z
}.

(** The rating and count written back from one [$group] row. *)
Definition applyStats (s : Stats) (product : Product.t) : Product.t :=
  Product.setStats (inject_Z (JS.Math_round (JS.ToNumber (avgRating s))))
                   (count s) product.

(** [id] is [parseInt(req.params.id)]; [None] stands for [NaN], which the
    query cast rejects. *)
Definition submitReview (now : Date) (id : option Z) (body : ReviewBody.t)
  (st : Store) : Store * Response ReviewResult :=
  match ReviewBody.user body, ReviewBody.rating body, ReviewBody.comment body with
  | Some user, Some rating, Some comment =>
      if negb (JS.truthyString user) || negb (JS.truthyNumber rating)
         || negb (JS.truthyString comment)
         || JS.ltNumber rating 1 || JS.gtNumber rating 5
      then (st, Status400)
      else
        match id with
        | None => (st, Status500)
        | Some legacyId =>
            match Product_findOne legacyId (products st) with
            | None => (st, Status404)
            | Some product =>
                let ordersWithProduct := Order_find legacyId (orders st) in
                let verified := isVerified ordersWithProduct user in
                let newComment :=
                  Comment.make now
                    {| Comment.i_productId := Product._id product;
                       Comment.i_username := user;
                       Comment.i_rating := Some (JS.parseInt rating);
                       Comment.i_comment := comment;
                       Comment.i_createdAt := None;
                       Comment.i_verifiedPurchase := Some verified |} in
                match Comment_save newComment st with
                | None => (st, Status500)
                | Some st1 =>
                    match Comment_aggregate (Product._id product) (comments st1) with
                    | s :: _ =>
                        let product' := applyStats s product in
                        (Product_update product' st1,
                         Status201 {| newComment := newComment;
                                      newRating := Product.rating product';
                                      newReviewsCount := Product.reviewsCount product' |})
                    | [] =>
                        (st1,
                         Status201 {| newComment := newComment;
                                      newRating := Product.rating product;
                                      newReviewsCount := Product.reviewsCount product |})
                    end
                end
            end
        end
  | _, _, _ => (st, Status400)
  end.

(** *** POST /product/:id/comment *)

Module CommentBody.
(** [req.body]; only [username] and [comment] are destructured, a
    [rating] property may be present and is not read. *)
Record t := mk {
  username : option string;
  comment : option string;
  rating : option Q
}.
End CommentBody.

(** [id] is [Some oid] when [req.params.id] is a well-formed ObjectId. *)
Definition postComment (now : Date) (id : option ObjectId)
  (body : CommentBody.t) (st : Store) : Store * Response Comment.t :=
  match CommentBody.username body, CommentBody.comment body with
  | Some username, Some comment =>
      if negb (JS.truthyString username) || negb (JS.truthyString comment)
      then (st, Status400)
      else
        match id with
        | None => (st, Status400)
        | Some productId =>
            match Product_findById productId (products st) with
            | None => (st, Status404)
            | Some _ =>
                let newComment :=
                  Comment.make now
                    {| Comment.i_productId := productId;
                       Comment.i_username := username;
                       Comment.i_comment := comment;
                       Comment.i_rating := None;
                       Comment.i_createdAt := None;
                       Comment.i_verifiedPurchase := None |} in
                match Comment_save newComment st with
                | Some st' => (st', Status201 newComment)
                | None => (st, Status500)
                end
            end
        end
  | _, _ => (st, Status400)
  end.

(** *** POST /api/products (admin) *)

Definition ADMIN_SECRET : string := "goshala_admin_123".

(** [header] is [req.headers['x-admin-secret']], [query] is
    [req.query.secret]. *)
Definition adminAuth (header query : option string) : bool :=
  let secret :=
    match header with
    | Some h => if JS.truthyString h then Some h else query
    | None => query
    end in
  match secret with
  | Some s => String.eqb s ADMIN_SECRET
  | None => false
  end.

Module ProductBody.
(** [req.body] of a product creation. A [legacyId] or [dateAdded] in the
    body is overwritten by the handler and therefore not represented; an
    [_id] in the body is spread into the new document ([None]: the body
    has none). *)
Record t := mk {
  _id : option ObjectId;
  name : option string;
  category : list string;
  images : list string;
  description : option string;
  rating : option Q;
  reviewsCount : option Z;
  sellerTag : option string;
  price : option Q;
  originalPrice : option Q;
  deliveryDate : option string
}.
End ProductBody.

(** [lastProduct ? lastProduct.legacyId + 1 : 1]. *)
Definition newLegacyId (ps : list Product.t) : Z :=
  match Product_findOne_sort Z.gtb ps with
  | Some lastProduct => JS.plus (Product.legacyId lastProduct) 1
  | None => 1%Z
  end.

Definition createProduct (now : Date) (header query : option string)
  (body : ProductBody.t) (st : Store) : Store * Response Product.t :=
  if negb (adminAuth header query) then (st, Status401)
  else
    match Product_save
            {| Product.i_id := ProductBody._id body;
               Product.i_legacyId := newLegacyId (products st);
               Product.i_name := ProductBody.name body;
               Product.i_dateAdded := now;
               Product.i_category := ProductBody.category body;
               Product.i_images := ProductBody.images body;
               Product.i_description := ProductBody.description body;
               Product.i_rating := ProductBody.rating body;
               Product.i_reviewsCount := ProductBody.reviewsCount body;
               Product.i_sellerTag := ProductBody.sellerTag body;
               Product.i_price := ProductBody.price body;
               Product.i_originalPrice := ProductBody.originalPrice body;
               Product.i_deliveryDate := ProductBody.deliveryDate body |}
            st with
    | Some (newProduct, st') => (st', Status201 newProduct)
    | None => (st, Status400)
    end.

(** ** Data migration and seeding on start-up *)

(** How a block of the pipeline ended: normally, or by a thrown error that
    the enclosing [try] catches. The store keeps what was written before the
    throw. *)
Inductive Completion := Normal | Threw.

Definition commentsToCreate (now : Date) (newProduct : Product.t)
  (ordersWithProduct : list Order.t) (reviews : list LegacyReview.t)
  : list Comment.t :=
  map (fun review =>
         Comment.make now
           {| Comment.i_productId := Product._id newProduct;
              Comment.i_username := LegacyReview.user review;
              Comment.i_rating := Some (LegacyReview.rating review);
              Comment.i_comment := LegacyReview.comment review;
              Comment.i_createdAt :=
                Some (match LegacyReview.createdAt review with
                      | Some d => if JS.truthyInteger d then d else now
                      | None => now
                      end);
              Comment.i_verifiedPurchase :=
                Some (isVerified ordersWithProduct (LegacyReview.user review)) |})
      reviews.

(** The [for (const p of productsFromJson)] loop. *)
Fixpoint migrateProducts (now : Date) (ps : list LegacyProduct.t) (st : Store)
  : Store * Completion :=
  match ps with
  | [] => (st, Normal)
  | p :: rest =>
      match Product_findOne (LegacyProduct.id p) (products st) with
      | Some _ => migrateProducts now rest st
      | None =>
          match Product_save
                  {| Product.i_id := None;
                     Product.i_legacyId := LegacyProduct.id p;
                     Product.i_name := LegacyProduct.name p;
                     Product.i_dateAdded :=
                       match LegacyProduct.dateAdded p with
                       | Some d => if JS.truthyInteger d then d else now
                       | None => now
                       end;
                     Product.i_category := LegacyProduct.category p;
                     Product.i_images := LegacyProduct.images p;
                     Product.i_description := LegacyProduct.description p;
                     Product.i_rating := LegacyProduct.rating p;
                     Product.i_reviewsCount := LegacyProduct.reviewsCount p;
                     Product.i_sellerTag := LegacyProduct.sellerTag p;
                     Product.i_price := LegacyProduct.price p;
                     Product.i_originalPrice := LegacyProduct.originalPrice p;
                     Product.i_deliveryDate := LegacyProduct.deliveryDate p |}
                  st with
          | None => (st, Threw)
          | Some (newProduct, st1) =>
              match LegacyProduct.reviews p with
              | [] => migrateProducts now rest st1
              | reviews =>
                  let ordersWithProduct :=
                    Order_find (LegacyProduct.id p) (orders st1) in
                  match Comment_insertMany
                          (commentsToCreate now newProduct ordersWithProduct reviews)
                          st1 with
                  | Some st2 => migrateProducts now rest st2
                  | None => (st1, Threw)
                  end
              end
          end
      end
  end.

(** Step 1 of [migrateAndSeed], behind its gate on the product count. *)
Definition migrateStep (now : Date) (productsFromJson : list LegacyProduct.t)
  (st : Store) : Store * Completion :=
  if (List.length (products st) <? List.length productsFromJson)%nat
  then migrateProducts now productsFromJson st
  else (st, Normal).

Definition seedDocs (now : Date) (productToCommentOn : Product.t)
  : list Comment.t :=
  [ Comment.make now
      {| Comment.i_productId := Product._id productToCommentOn;
         Comment.i_username := "Radha";
         Comment.i_rating := Some 5%Z;
         Comment.i_comment :=
           "This is the best ghee I have ever tasted! So pure and aromatic.";
         Comment.i_createdAt := None;
         Comment.i_verifiedPurchase := None |};
    Comment.make now
      {| Comment.i_productId := Product._id productToCommentOn;
         Comment.i_username := "Krishna";
         Comment.i_rating := Some 4%Z;
         Comment.i_comment :=
           "Excellent quality and fast delivery. Highly recommended.";
         Comment.i_createdAt := None;
         Comment.i_verifiedPurchase := None |} ].

(** Step 2 of [migrateAndSeed]. *)
Definition seedStep (now : Date) (st : Store) : Store * Completion :=
  if (List.length (comments st) =? 0)%nat then
    match Product_findOne_sort Z.ltb (products st) with
    | Some productToCommentOn =>
        match Comment_create (seedDocs now productToCommentOn) st with
        | Some st' => (st', Normal)
        | None => (st, Threw)
        end
    | None => (st, Normal)
    end
  else (st, Normal).

(** [migrateAndSeed]: a throw in either step is caught and logged; a throw
    during migration skips the seeding. *)
Definition migrateAndSeed (now : Date) (productsFromJson : list LegacyProduct.t)
  (st : Store) : Store :=
  match migrateStep now productsFromJson st with
  | (st1, Normal) => fst (seedStep now st1)
  | (st1, Threw) => st1
  end.

(** ** Server start-up *)

Inductive Startup :=
| Listening (st : Store)   (** [app.listen] was reached *)
| Exit1.                   (** [process.exit(1)] *)

(** What [products.json] holds. *)
Inductive LegacyFile :=
| Unreadable                                (** reading or parsing it throws *)
| JsonNull                                  (** it parses to [null] *)
| JsonNoLength                              (** it parses to a number, a boolean or an object without [length] *)
| JsonRecords (data : list LegacyProduct.t). (** it parses to an array of product records *)

(** The value of the global [productsFromJson]. *)
Inductive ProductsFromJson :=
| Null
| NoLength
| Records (data : list LegacyProduct.t).

(** The first [try] of [startServer]: the global starts as the empty array
    and is assigned once the file is parsed; the log line that follows reads
    [productsFromJson.length], which throws on [null] after the assignment. *)
Definition loadLegacyFile (file : LegacyFile) : ProductsFromJson :=
  match file with
  | Unreadable => Records []
  | JsonNull => Null
  | JsonNoLength => NoLength
  | JsonRecords data => Records data
  end.

(** [migrateAndSeed] on any value of the global: reading [.length] of [null]
    throws before anything is written and the [catch] skips both steps; a
    value without [length] makes the gate compare with [undefined], which is
    false, so that only the seeding runs. *)
Definition migrateAndSeedGlobal (now : Date) (productsFromJson : ProductsFromJson)
  (st : Store) : Store :=
  match productsFromJson with
  | Null => st
  | NoLength => fst (seedStep now st)
  | Records data => migrateAndSeed now data st
  end.

(** [connected] tells whether [mongoose.connect] resolved. *)
Definition startServer (now : Date) (file : LegacyFile)
  (connected : bool) (st : Store) : Startup :=
  let productsFromJson := loadLegacyFile file in
  if connected then Listening (migrateAndSeedGlobal now productsFromJson st)
  else Exit1.

(** ** Further request handlers *)

(** *** DELETE /api/products/:id (admin) *)

Inductive DeleteResponse :=
| Deleted200
| Delete401
| Delete404
| Delete500.

(** Removal of the first document with the given [_id]. *)
Fixpoint Product_remove (oid : ObjectId) (ps : list Product.t)
  : option (Product.t * list Product.t) :=
  match ps with
  | [] => None
  | p :: ps' =>
      if (Product._id p =? oid)%N then Some (p, ps')
      else match Product_remove oid ps' with
           | Some (d, rest) => Some (d, p :: rest)
           | None => None
           end
  end.

(** [Product.findByIdAndDelete(id)]. *)
Definition Product_findByIdAndDelete (oid : ObjectId) (st : Store)
  : option (Product.t * Store) :=
  match Product_remove oid (products st) with
  | Some (deletedProduct, rest) => Some (deletedProduct, withProducts rest st)
  | None => None
  end.

(** [id] is [Some oid] when [req.params.id] can be cast to an ObjectId; the
    handler does not test the format, so an id that cannot be cast makes the
    query throw. *)
Definition deleteProduct (header query : option string)
  (id : option ObjectId) (st : Store) : Store * DeleteResponse :=
  if negb (adminAuth header query) then (st, Delete401)
  else
    match id with
    | None => (st, Delete500)
    | Some oid =>
        match Product_findByIdAndDelete oid st with
        | Some (_, st') => (st', Deleted200)
        | None => (st, Delete404)
        end
    end.

(** *** POST /api/orders *)

Module OrderItemBody.
Record t := mk {
  id : option Z;
  name : option string;
  quantity : option Z;
  price : option Q
}.
End OrderItemBody.

Module CustomerBody.
Record t := mk {
  firstname : option string; lastname : option string;
  email : option string; phone : option string;
  address1 : option string; address2 : option string;
  city : option string; state : option string; zip : option string
}.
End CustomerBody.

Module OrderBody.
(** [req.body]: [items], when present, is an array. *)
Record t := mk {
  items : option (list OrderItemBody.t);
  total : option Q;
  user : option CustomerBody.t
}.
End OrderBody.

(** Line terminators among the code units below 256: LF and CR. The dot of
    a regular expression matches every other character. *)
Definition isLineTerminator (c : ascii) : bool :=
  let n := nat_of_ascii c in (n =? 10)%nat || (n =? 13)%nat.

Definition startsWithDotChar (s : string) : bool :=
  match s with
  | EmptyString => false
  | String c _ => negb (isLineTerminator c)
  end.

(** The rest [.+\..+] of the e-mail pattern, read from just after the [@];
    [seen] tells that the first [.+] has consumed a character. *)
Fixpoint matchAfterAt (s : string) (seen : bool) : bool :=
  match s with
  | EmptyString => false
  | String c s' =>
      if isLineTerminator c then false
      else (seen && Ascii.eqb c "."%char && startsWithDotChar s')
           || matchAfterAt s' true
  end.

(** [/.+@.+\..+/.test(s)], scanning for the [@]; [prev] tells that the
    character before the current position exists and is matched by a dot. *)
Fixpoint matchEmailFrom (s : string) (prev : bool) : bool :=
  match s with
  | EmptyString => false
  | String c s' =>
      (prev && Ascii.eqb c "@"%char && matchAfterAt s' false)
      || matchEmailFrom s' (negb (isLineTerminator c))
  end.

Definition matchEmail (s : string) : bool := matchEmailFrom s false.

(** A [required] String path with [trim: true]: the trimmed value, which
    must not be empty. *)
Definition requiredTrimmed (v : option string) : option string :=
  match v with
  | Some s => if JS.truthyString (JS.trim s) then Some (JS.trim s) else None
  | None => None
  end.

(** Casting and validation of one element of [items]. *)
Definition Item_create (i : OrderItemBody.t) : option Item.t :=
  match OrderItemBody.id i, OrderItemBody.name i,
        OrderItemBody.quantity i, OrderItemBody.price i with
  | Some id, Some name, Some quantity, Some price =>
      if JS.truthyString name && (1 <=? quantity)%Z && Qle_bool 0 price
      then Some (Item.mk id name quantity price)
      else None
  | _, _, _, _ => None
  end.

Fixpoint Items_create (items : list OrderItemBody.t) : option (list Item.t) :=
  match items with
  | [] => Some []
  | i :: rest =>
      match Item_create i, Items_create rest with
      | Some it, Some its => Some (it :: its)
      | _, _ => None
      end
  end.

(** Casting and validation of the [user] sub-document. *)
Definition Customer_create (u : CustomerBody.t) : option Customer.t :=
  match requiredTrimmed (CustomerBody.firstname u),
        requiredTrimmed (CustomerBody.lastname u),
        requiredTrimmed (CustomerBody.email u),
        requiredTrimmed (CustomerBody.phone u),
        requiredTrimmed (CustomerBody.address1 u),
        requiredTrimmed (CustomerBody.city u),
        requiredTrimmed (CustomerBody.state u),
        requiredTrimmed (CustomerBody.zip u) with
  | Some firstname, Some lastname, Some email, Some phone, Some address1,
    Some city, Some state, Some zip =>
      if matchEmail email
      then Some (Customer.mk firstname lastname email phone address1
                             (option_map JS.trim (CustomerBody.address2 u))
                             city state zip)
      else None
  | _, _, _, _, _, _, _, _ => None
  end.

Definition withOrders (os : list Order.t) (st : Store) : Store :=
  {| products := products st; comments := comments st; orders := os;
     nextId := nextId st |}.

(** The decimal rendering of a whole number, as a template literal
    produces it. *)
Definition decimal (n : Z) : string := NilZero.string_of_int (Z.to_int n).

(** [`ORD-${Date.now()}`]. *)
Definition makeOrderId (now : Date) : string := ("ORD-" ++ decimal now)%string.

(** [new Order({ orderId, user, total, items })] and its validation;
    [date] defaults to [Date.now]. *)
Definition Order_create (now : Date) (orderId : string) (user : CustomerBody.t)
  (total : Q) (items : list OrderItemBody.t) : option Order.t :=
  match Customer_create user, Items_create items with
  | Some u, Some its =>
      if Qle_bool 0 total && (0 <? List.length its)%nat
      then Some (Order.mk orderId now u total its)
      else None
  | _, _ => None
  end.

(** [newOrder.save()]: [orderId] carries a unique index. *)
Definition Order_save (o : Order.t) (st : Store) : option Store :=
  if existsb (fun o' => String.eqb (Order.orderId o') (Order.orderId o))
             (orders st)
  then None
  else Some (withOrders (orders st ++ [o]) st).

Definition createOrder (now : Date) (body : OrderBody.t) (st : Store)
  : Store * Response string :=
  match OrderBody.items body, OrderBody.total body, OrderBody.user body with
  | Some items, Some total, Some user =>
      if (List.length items =? 0)%nat || negb (JS.truthyNumber total)
      then (st, Status400)
      else
        match Order_create now (makeOrderId now) user total items with
        | Some newOrder =>
            match Order_save newOrder st with
            | Some st' => (st', Status201 (Order.orderId newOrder))
            | None => (st, Status500)
            end
        | None => (st, Status500)
        end
  | _, _, _ => (st, Status400)
  end.

(** *** GET /api/products *)

Module ApiProduct.
(** A product as the frontend receives it: [legacyId] renamed to [id]. *)
Record t := mk {
  _id : ObjectId;
  id : Z;
  name : string;
  dateAdded : Date;
  category : list string;
  images : list string;
  description : option string;
  rating : Q;
  reviewsCount : Z;
  sellerTag : option string;
  price : Q;
  originalPrice : option Q;
  deliveryDate : option string
}.
End ApiProduct.

Definition formatProduct (p : Product.t) : ApiProduct.t :=
  ApiProduct.mk (Product._id p) (Product.legacyId p) (Product.name p)
                (Product.dateAdded p) (Product.category p) (Product.images p)
                (Product.description p) (Product.rating p)
                (Product.reviewsCount p) (Product.sellerTag p)
                (Product.price p) (Product.originalPrice p)
                (Product.deliveryDate p).

Definition listProducts (st : Store) : list ApiProduct.t :=
  map formatProduct (products st).

(** *** GET /api/comments/:productId *)

Inductive SortOrder := Newest | Oldest | Highest | Lowest.

(** Sort keys: a missing rating sorts before every number. *)
Definition ratingLe (a b : option Z) : bool :=
  match a, b with
  | None, _ => true
  | Some _, None => false
  | Some x, Some y => (x <=? y)%Z
  end.

Definition ratingEq (a b : option Z) : bool := ratingLe a b && ratingLe b a.

(** [before sort a b]: [a] may stand before [b] in the requested order. *)
Definition before (sort : SortOrder) (a b : Comment.t) : bool :=
  match sort with
  | Newest => (Comment.createdAt b <=? Comment.createdAt a)%Z
  | Oldest => (Comment.createdAt a <=? Comment.createdAt b)%Z
  | Highest =>
      if ratingEq (Comment.rating a) (Comment.rating b)
      then (Comment.createdAt b <=? Comment.createdAt a)%Z
      else ratingLe (Comment.rating b) (Comment.rating a)
  | Lowest =>
      if ratingEq (Comment.rating a) (Comment.rating b)
      then (Comment.createdAt b <=? Comment.createdAt a)%Z
      else ratingLe (Comment.rating a) (Comment.rating b)
  end.

Fixpoint insertSorted (sort : SortOrder) (c : Comment.t) (cs : list Comment.t)
  : list Comment.t :=
  match cs with
  | [] => [c]
  | d :: cs' =>
      if before sort c d then c :: cs else d :: insertSorted sort c cs'
  end.

(** [.sort(sortOptions)]; documents with equal keys keep their order. *)
Definition sortComments (sort : SortOrder) (cs : list Comment.t)
  : list Comment.t :=
  fold_right (insertSorted sort) [] cs.

(** [starFilters]: the numbers between 1 and 5 among the parsed values of
    the [stars] parameter ([None] is [NaN]). *)
Definition starFilters (parsed : list (option Q)) : list Q :=
  flat_map (fun v =>
              match v with
              | Some n => if Qle_bool 1 n && Qle_bool n 5 then [n] else []
              | None => []
              end) parsed.

(** [{ rating: { $in: starFilters } }]. *)
Definition ratingIn (filters : list Q) (c : Comment.t) : bool :=
  match Comment.rating c with
  | Some r => existsb (fun n => Qeq_bool (inject_Z r) n) filters
  | None => false
  end.

(** [id] is [Some oid] for a well-formed ObjectId. [stars] is [None] when
    the parameter is absent or empty, and otherwise the values of
    [stars.split(',').map(Number)]. The answer is [None] for status 400. *)
Definition listComments (id : option ObjectId) (sort : SortOrder)
  (stars : option (list (option Q))) (st : Store) : option (list Comment.t) :=
  match id with
  | None => None
  | Some productId =>
      let byProduct := matchProductId productId (comments st) in
      let matched :=
        match stars with
        | Some parsed =>
            match starFilters parsed with
            | [] => byProduct
            | filters => filter (ratingIn filters) byProduct
            end
        | None => byProduct
        end in
      Some (sortComments sort matched)
  end.

(** ** Traffic: requests applied one after the other *)

(** The requests that write to the store, and a restart of the server. The
    admin update of a product (PUT /api/products/:id) and the image upload
    are not among them. *)

Inductive Request :=
| PostReview (now : Date) (id : option Z) (body : ReviewBody.t)
| PostComment (now : Date) (id : option ObjectId) (body : CommentBody.t)
| PostProduct (now : Date) (header query : option string)
              (body : ProductBody.t)
| DeleteProduct (header query : option string) (id : option ObjectId)
| PostOrder (now : Date) (body : OrderBody.t)
| Restart (now : Date) (productsFromJson : list LegacyProduct.t).

Definition handle (req : Request) (st : Store) : Store :=
  match req with
  | PostReview now id body => fst (submitReview now id body st)
  | PostComment now id body => fst (postComment now id body st)
  | PostProduct now header query body =>
      fst (createProduct now header query body st)
  | DeleteProduct header query id => fst (deleteProduct header query id st)
  | PostOrder now body => fst (createOrder now body st)
  | Restart now productsFromJson => migrateAndSeed now productsFromJson st
  end.

Definition run (reqs : list Request) (st : Store) : Store :=
  fold_left (fun st req => handle req st) reqs st.

Definition isDelete (req : Request) : bool :=
  match req with
  | DeleteProduct _ _ _ => true
  | _ => false
  end.

(** ** CSV export of orders (GET /api/admin/orders/export) *)

Module Csv.

Definition quote : ascii := ascii_of_nat 34.
Definition comma : ascii := ascii_of_nat 44.
Definition newline : ascii := ascii_of_nat 10.

Definition single (c : ascii) : string := String c EmptyString.

(** The [replace] call of [escapeCsvCell]: every double-quote character is
    doubled. *)
Fixpoint doubleQuotes (s : string) : string :=
  match s with
  | EmptyString => EmptyString
  | String c s' =>
      if Ascii.eqb c quote then String quote (String quote (doubleQuotes s'))
      else String c (doubleQuotes s')
  end.

(** [escapeCsvCell]; the argument is [None] for [null] or [undefined] and
    otherwise [String(cell)]. *)
Definition escapeCsvCell (cell : option string) : string :=
  match cell with
  | None => EmptyString
  | Some str =>
      if JS.includes str (single comma) || JS.includes str (single quote)
         || JS.includes str (single newline)
      then (String quote (doubleQuotes str) ++ single quote)%string
      else str
  end.

(** [Array.prototype.join]. *)
Fixpoint join (sep : string) (parts : list string) : string :=
  match parts with
  | [] => EmptyString
  | [s] => s
  | s :: rest => (s ++ sep ++ join sep rest)%string
  end.

(** One data row: [row.map(escapeCsvCell).join(',')]. *)
Definition csvRow (cells : list (option string)) : string :=
  join (single comma) (map escapeCsvCell cells).

(** The whole file: the header row, joined as it is, then the data rows,
    all joined by line feeds. *)
Definition csvFile (headers : list string) (rows : list (list (option string)))
  : string :=
  join (single newline) (join (single comma) headers :: map csvRow rows).

Definition headers : list string :=
  [ "OrderID"; "Date"; "CustomerName"; "Email"; "Phone"; "Address"; "Total";
    "Items" ]%string.

Section OrderExport.

(** [Date.prototype.toISOString] and the rendering of a number by
    [String(...)] are taken as given. *)
Variable toISOString : Date -> string.
Variable numberToString : Q -> string.

Definition address (u : Customer.t) : string :=
  (Customer.address1 u
   ++ match Customer.address2 u with
      | Some a2 => if JS.truthyString a2 then ", " ++ a2 else ""
      | None => ""
      end
   ++ ", " ++ Customer.city u ++ ", " ++ Customer.state u ++ " "
   ++ Customer.zip u)%string.

Definition itemsCell (items : list Item.t) : string :=
  join "; " (map (fun item =>
                    (decimal (Item.quantity item) ++ " x " ++ Item.name item)%string)
                 items).

Definition orderRow (order : Order.t) : list (option string) :=
  [ Some (Order.orderId order);
    Some (toISOString (Order.date order));
    Some (Customer.firstname (Order.user order) ++ " "
          ++ Customer.lastname (Order.user order))%string;
    Some (Customer.email (Order.user order));
    Some (Customer.phone (Order.user order));
    Some (address (Order.user order));
    Some (numberToString (Order.total order));
    Some (itemsCell (Order.items order)) ].

(** The handler's answer for the query result [orders]: [None] is the
    status 404 for an empty result. *)
Definition exportOrders (orders : list Order.t) : option string :=
  match orders with
  | [] => None
  | _ => Some (csvFile headers (map orderRow orders))
  end.

End OrderExport.

(** A reader of comma-separated text with quoted fields (RFC 4180, line
    feed as record separator). [parse] returns the field being read, the
    remaining fields of its record and the following records. *)
Inductive State := FieldStart | Plain | Quoted | QuoteSeen.

Definition Parsed := (string * list string * list (list string))%type.

Definition endField (p : Parsed) : Parsed :=
  let '(f, r, rs) := p in (EmptyString, f :: r, rs).

Definition endRecord (p : Parsed) : Parsed :=
  let '(f, r, rs) := p in (EmptyString, [], (f :: r) :: rs).

Definition put (c : ascii) (p : Parsed) : Parsed :=
  let '(f, r, rs) := p in (String c f, r, rs).

Fixpoint parse (st : State) (s : string) : Parsed :=
  match s with
  | EmptyString => (EmptyString, [], [])
  | String c s' =>
      match st with
      | Quoted =>
          if Ascii.eqb c quote then parse QuoteSeen s'
          else put c (parse Quoted s')
      | QuoteSeen =>
          if Ascii.eqb c quote then put quote (parse Quoted s')
          else if Ascii.eqb c comma then endField (parse FieldStart s')
          else if Ascii.eqb c newline then endRecord (parse FieldStart s')
          else put c (parse Plain s')
      | FieldStart =>
          if Ascii.eqb c quote then parse Quoted s'
          else if Ascii.eqb c comma then endField (parse FieldStart s')
          else if Ascii.eqb c newline then endRecord (parse FieldStart s')
          else put c (parse Plain s')
      | Plain =>
          if Ascii.eqb c comma then endField (parse FieldStart s')
          else if Ascii.eqb c newline then endRecord (parse FieldStart s')
          else put c (parse Plain s')
      end
  end.

Definition read (s : string) : list (list string) :=
  let '(f, r, rs) := parse FieldStart s in (f :: r) :: rs.

(** The text of a cell: [null] and [undefined] read as the empty string. *)
Definition text (cell : option string) : string :=
  match cell with Some s => s | None => EmptyString end.

End Csv.

(** ** Frontend product loader (browser module) *)

Module Frontend.

Module CartItem.
(** An entry of the cart kept in [localStorage] under [goshalaProducts]. *)
Record t := mk { id : Z; quantity : Z }.
End CartItem.

(** What [localStorage.getItem('goshalaProducts')] holds: nothing (or JSON
    for a falsy value), a JSON array of entries, or text on which
    [JSON.parse] or the mapping over it throws. *)
Inductive Stored :=
| NoEntry
| Entries (items : list CartItem.t)
| Malformed.

Module CartProduct.
(** [{ ...product, inCart, quantity }]. *)
Record t := mk { product : ApiProduct.t; inCart : bool; quantity : Z }.
End CartProduct.

(** [new Map(pairs)]: a later pair replaces an earlier one with the same
    key. *)
Definition CartMap := Z -> option CartItem.t.

Definition Map_set (m : CartMap) (item : CartItem.t) : CartMap :=
  fun k => if (k =? CartItem.id item)%Z then Some item else m k.

Definition Map_new (items : list CartItem.t) : CartMap :=
  fold_left Map_set items (fun _ => None).

(** [applyCartState]; [None] when it throws. *)
Definition applyCartState (stored : Stored) (products : list ApiProduct.t)
  : option (list CartProduct.t) :=
  match match stored with
        | NoEntry => Some []
        | Entries items => Some items
        | Malformed => None
        end with
  | Some storedCart =>
      let cartMap := Map_new storedCart in
      Some (map (fun product =>
                   match cartMap (ApiProduct.id product) with
                   | Some cartItem =>
                       CartProduct.mk product true (CartItem.quantity cartItem)
                   | None => CartProduct.mk product false 0%Z
                   end)
                products)
  | None => None
  end.

(** The module state: [cachedProducts] and [lastFetchTime]. *)
Record Cache := mkCache {
  cachedProducts : list ApiProduct.t;
  lastFetchTime : Z
}.

Definition initial : Cache := mkCache [] 0%Z.

(** The outcome of [fetch('/api/products')] and of reading its body:
    the product list, or a failure (network error, a status that is not ok,
    a body that is not JSON). *)
Inductive Fetched :=
| Products (productsFromAPI : list ApiProduct.t)
| FetchFailed.

Inductive Settled (A : Type) : Type :=
| Resolved (value : A)
| Rejected.

Arguments Resolved {A} value.
Arguments Rejected {A}.

(** [loadProducts(forceReload)] at time [now]; [fetched] is what the
    request yields if it is made. *)
Definition loadProducts (forceReload : bool) (now : Z) (fetched : Fetched)
  (stored : Stored) (cache : Cache)
  : Cache * Settled (list CartProduct.t) :=
  if negb forceReload && (now - lastFetchTime cache <? 5000)%Z
     && (0 <? List.length (cachedProducts cache))%nat
  then
    (cache,
     match applyCartState stored (cachedProducts cache) with
     | Some r => Resolved r
     | None => Rejected
     end)
  else
    match fetched with
    | Products productsFromAPI =>
        (mkCache productsFromAPI now,
         match applyCartState stored productsFromAPI with
         | Some r => Resolved r
         | None => Resolved []
         end)
    | FetchFailed => (cache, Resolved [])
    end.

End Frontend.

(** ** Specification vocabulary *)

(** [t] occurs in [s] as a contiguous substring. *)
Definition Substring (t s : string) : Prop :=
  exists pre post : string, s = (pre ++ t ++ post)%string.

(** A string that is empty or consists of white space only. *)
Fixpoint isBlank (s : string) : bool :=
  match s with
  | EmptyString => true
  | String c s' => JS.isWhiteSpace c && isBlank s'
  end.

(** The order has a line item for the product with legacy id [L]. *)
Definition containsItem (L : Z) (o : Order.t) : Prop :=
  exists it, In it (Order.items o) /\ Item.id it = L.

(** The customer's full name as the specification words it: first and last
    name joined by one space, lower-cased and trimmed. *)
Definition fullName (o : Order.t) : string :=
  JS.trim (JS.toLowerCase
             (Customer.firstname (Order.user o) ++ " "
              ++ Customer.lastname (Order.user o))%string).

(** [r] is [q] rounded to the nearest integer, halves rounded up. *)
Definition RoundHalfUp (q : Q) (r : Z) : Prop :=
  inject_Z r - (1 # 2) <= q /\ q < inject_Z r + (1 # 2).

(** The arithmetic mean of a non-empty list of whole numbers. *)
Definition mean (rs : list Z) : Q :=
  inject_Z (sum rs) / inject_Z (Z.of_nat (List.length rs)).

(** The bodies that the review endpoint turns away with status 400: a
    missing or empty user name, a missing or empty comment text, a missing
    rating, or a rating below 1 or above 5. *)
Definition Rejected (body : ReviewBody.t) : Prop :=
  ReviewBody.user body = None \/ ReviewBody.user body = Some ""%string \/
  ReviewBody.comment body = None \/ ReviewBody.comment body = Some ""%string \/
  ReviewBody.rating body = None \/
  exists q : Q, ReviewBody.rating body = Some q /\ (q < 1 \/ 5 < q).

(** [p'] agrees with [p] on every field other than [rating] and
    [reviewsCount]. *)
Definition sameButStats (p p' : Product.t) : Prop :=
  Product._id p' = Product._id p /\
  Product.legacyId p' = Product.legacyId p /\
  Product.name p' = Product.name p /\
  Product.dateAdded p' = Product.dateAdded p /\
  Product.category p' = Product.category p /\
  Product.images p' = Product.images p /\
  Product.description p' = Product.description p /\
  Product.sellerTag p' = Product.sellerTag p /\
  Product.price p' = Product.price p /\
  Product.originalPrice p' = Product.originalPrice p /\
  Product.deliveryDate p' = Product.deliveryDate p.


(** Every record of the legacy list has a Product with its legacy id. *)
Definition FullyMigrated (legacy : list LegacyProduct.t) (st : Store) : Prop :=
  forall p, In p legacy ->
            exists q, In q (products st) /\
                      Product.legacyId q = LegacyProduct.id p.

(** ** Sample data used in the worked examples *)

Module Sample.

Open Scope string_scope.

Definition customer (first last : string) : Customer.t :=
  Customer.mk first last "krishna@example.org" "5550100" "1 Temple Road"
              None "Vrindavan" "UP" "281121".

(** An order by Krishna Das for one unit of product 7. *)
Definition order : Order.t :=
  Order.mk "ORD-1700000000000" 1700000000000%Z (customer "Krishna" "Das")
           450 [Item.mk 7%Z "Ghee" 1%Z 450].

Definition ghee : Product.t :=
  Product.mk 1%N 7%Z "Ghee" 1600000000000%Z ["dairy"] [] None 0 0%Z None
             450 None None.

Definition empty : Store := mkStore [] [] [] 1%N.

(** One product, one order, no comments yet. *)
Definition shop : Store := mkStore [ghee] [] [order] 2%N.

Definition review (user : string) (rating : Q) (text : string)
  : ReviewBody.t :=
  ReviewBody.mk (Some user) (Some rating) (Some text).

Definition plain (user text : string) : CommentBody.t :=
  CommentBody.mk (Some user) (Some text) None.

(** A stored comment on [ghee] with the given rating. *)
Definition rated (r : Z) : Comment.t :=
  Comment.mk 1%N "Radha" "Lovely" (Some r) 1700000000000%Z false.

Definition unrated : Comment.t :=
  Comment.mk 1%N "Gopal" "When is it back in stock?" None 1700000000000%Z
             false.

Definition honey : ProductBody.t :=
  ProductBody.mk None (Some "Honey") ["pantry"] [] None None None None
                 (Some 300) None None.

(** The legacy record of product 7, without embedded reviews. *)
Definition legacyGhee : LegacyProduct.t :=
  LegacyProduct.mk 7%Z (Some "Ghee") None ["dairy"] [] None None None None
                   (Some 450) None None [].

(** The same record with one embedded review that has stars but no text;
    the Comment schema requires a non-empty [comment]. *)
Definition legacyGheeStarsOnly : LegacyProduct.t :=
  LegacyProduct.mk 7%Z (Some "Ghee") None ["dairy"] [] None None None None
                   (Some 450) None None
                   [LegacyReview.mk "Radha" 5%Z "" None].


End Sample.

(** ** Store invariants and the writes behind the handlers *)

Definition startsWithSpace (s : string) : bool :=
  match s with
  | EmptyString => false
  | String c _ => JS.isWhiteSpace c
  end.

Fixpoint endsWithSpace (s : string) : bool :=
  match s with
  | EmptyString => false
  | String c s' =>
      match s' with
      | EmptyString => JS.isWhiteSpace c
      | _ => endsWithSpace s'
      end
  end.

(** A comment as the schema lets it into the collection: valid, and with
    its two texts trimmed. *)
Definition CommentStored (c : Comment.t) : Prop :=
  Comment.validate c = true /\
  JS.trim (Comment.username c) = Comment.username c /\
  JS.trim (Comment.comment c) = Comment.comment c.

Definition UniqueLegacyIds (st : Store) : Prop :=
  NoDup (map Product.legacyId (products st)).

Definition FreshIds (st : Store) : Prop :=
  NoDup (map Product._id (products st)) /\
  Forall (fun p => (Product._id p < nextId st)%N) (products st).

Definition CommentsStored (st : Store) : Prop :=
  Forall CommentStored (comments st).

Definition NoOrphans (st : Store) : Prop :=
  Forall (fun c => exists p, In p (products st) /\
                             Product._id p = Comment.productId c)
         (comments st).

Definition UniqueOrderIds (st : Store) : Prop :=
  NoDup (map Order.orderId (orders st)).

(** The elementary writes of the handlers that insert or update: a Product
    saved under a legacy id that is not in use, Comments inserted for an
    existing Product, the rating and count of a Product set, an Order
    saved. *)
Inductive Write : Store -> Store -> Prop :=
| Write_product (o : Product.init) (p : Product.t) (st st' : Store) :
    Product_findOne (Product.i_legacyId o) (products st) = None ->
    Product_save o st = Some (p, st') ->
    Write st st'
| Write_comments (cs : list Comment.t) (p : Product.t) (st : Store) :
    In p (products st) ->
    Forall (fun c => Comment.productId c = Product._id p /\ CommentStored c)
           cs ->
    Write st (withComments (comments st ++ cs) st)
| Write_stats (p : Product.t) (st : Store) :
    Write st (Product_update p st)
| Write_order (o : Order.t) (st st' : Store) :
    Order_save o st = Some st' ->
    Write st st'.

Inductive Writes : Store -> Store -> Prop :=
| Writes_refl (st : Store) : Writes st st
| Writes_step (st st1 st2 : Store) :
    Write st st1 -> Writes st1 st2 -> Writes st st2.

(** [l] is an initial segment of [l']. *)
Definition Prefix {A : Type} (l l' : list A) : Prop :=
  exists rest, l' = l ++ rest.

Module Demo.

Open Scope string_scope.

Definition admin : option string := Some ADMIN_SECRET.

Definition customerBody (first last : string) : CustomerBody.t :=
  CustomerBody.mk (Some first) (Some last) (Some "krishna@example.org")
                  (Some "5550100") (Some "1 Temple Road") None
                  (Some "Vrindavan") (Some "UP") (Some "281121").

(** An order body for one unit of product 1. *)
Definition orderBody (total : Q) : OrderBody.t :=
  OrderBody.mk (Some [OrderItemBody.mk (Some 1%Z) (Some "Honey") (Some 1%Z)
                                       (Some 300)])
               (Some total) (Some (customerBody " Krishna" "Das ")).

(** A start-up on an unreadable file, a product creation, an order, a plain
    comment and a review. *)
Definition traffic : list Request :=
  [ Restart 1700000000000%Z [];
    PostProduct 1700000000001%Z admin None Sample.honey;
    PostOrder 1700000000002%Z (orderBody 300);
    PostComment 1700000000003%Z (Some 1%N)
                (Sample.plain "Gopal" "When is it back in stock?");
    PostReview 1700000000004%Z (Some 1%Z)
               (Sample.review "krishna" 5 "Lovely") ].

Definition apiHoney : ApiProduct.t :=
  ApiProduct.mk 1%N 1%Z "Honey" 1700000000001%Z ["pantry"] [] None 0 0%Z None
                300 None None.

Definition apiGhee : ApiProduct.t :=
  ApiProduct.mk 2%N 2%Z "Ghee" 1700000000001%Z ["dairy"] [] None 0 0%Z None
                450 None None.

End Demo.

(** No character of [s] is a line terminator. *)
Fixpoint noLineTerminator (s : string) : bool :=
  match s with
  | EmptyString => true
  | String c s' => negb (isLineTerminator c) && noLineTerminator s'
  end.

(** The shape that the e-mail pattern of the Order schema asks for: somewhere
    in the text a character, an [@], one or more characters, a dot and one
    more character, none of them a line terminator. *)
Definition EmailShape (s : string) : Prop :=
  exists (pre : string) (a : ascii) (mid : string) (d : ascii) (post : string),
    s = (pre ++ String a ("@" ++ mid ++ "." ++ String d post))%string /\
    isLineTerminator a = false /\
    mid <> ""%string /\ noLineTerminator mid = true /\
    isLineTerminator d = false.

(** [c] occurs in [s]. *)
Fixpoint occurs (c : ascii) (s : string) : bool :=
  match s with
  | EmptyString => false
  | String x s' => Ascii.eqb x c || occurs c s'
  end.

(** A text without comma, double quote and line feed. *)
Definition plainText (s : string) : bool :=
  negb (occurs Csv.comma s) && negb (occurs Csv.quote s)
  && negb (occurs Csv.newline s).

(** The characters of [s] put in front of the field being read. *)
Fixpoint puts (s : string) (p : Csv.Parsed) : Csv.Parsed :=
  match s with
  | EmptyString => p
  | String c s' => Csv.put c (puts s' p)
  end.

(** A product as the schema lets it into the collection: a trimmed name of
    3 to 150 characters, a price that is not negative, a trimmed description
    of at most 2000 characters. *)
Definition ProductStored (p : Product.t) : Prop :=
  (3 <= String.length (Product.name p) <= 150)%nat /\
  JS.trim (Product.name p) = Product.name p /\
  0 <= Product.price p /\
  forall d, Product.description p = Some d ->
            (String.length d <= 2000)%nat /\ JS.trim d = d.

(** ** Facts about the JavaScript primitives *)

Module JSFacts.

Import JS.
Open Scope string_scope.

Lemma orEmpty_id (s : string) : orEmpty s = s.
Proof. destruct s; reflexivity. Qed.

Lemma prefix_iff (t s : string) :
  String.prefix t s = true <-> exists post, s = t ++ post.
Proof.
  revert s; induction t as [|a t IH]; intros s; simpl.
  - split; [intros _; now exists s | intros _; now destruct s].
  - destruct s as [|b s]; simpl.
    + split; [discriminate | intros [post H]; discriminate].
    + destruct (ascii_dec a b) as [->|Hab].
      * rewrite IH. split; intros [post H]; exists post.
        -- now rewrite H.
        -- now injection H.
      * split; [discriminate|].
        intros [post H]. injection H as H1 _. now elim Hab.
Qed.

Lemma includes_iff (s t : string) :
  includes s t = true <-> Substring t s.
Proof.
  unfold Substring. induction s as [|a s IH]; cbn [includes].
  - rewrite orb_false_r, prefix_iff. split.
    + intros [post H]. now exists "", post.
    + intros [pre [post H]]. destruct pre; simpl in H.
      * now exists post.
      * discriminate.
  - rewrite orb_true_iff, prefix_iff, IH. split.
    + intros [[post H]|[pre [post H]]].
      * now exists "", post.
      * exists (String a pre), post. simpl. now rewrite H.
    + intros [pre [post H]]. destruct pre as [|c pre]; simpl in H.
      * left. now exists post.
      * right. injection H as _ H. now exists pre, post.
Qed.

Lemma includes_empty (s : string) : includes s "" = true.
Proof. destruct s; reflexivity. Qed.

Lemma whiteSpace_not_upper (c : ascii) :
  isWhiteSpace c = true -> isUpper c = false.
Proof.
  destruct c as [[] [] [] [] [] [] [] []]; vm_compute;
    intros H; (reflexivity || discriminate H).
Qed.

Lemma toLowerCase_blank (s : string) :
  isBlank s = true -> toLowerCase s = s.
Proof.
  induction s as [|c s IH]; simpl; [reflexivity|].
  intros H. apply andb_true_iff in H as [Hc Hs].
  unfold lowerChar. now rewrite (whiteSpace_not_upper _ Hc), IH.
Qed.

Lemma trimStart_blank (s : string) :
  isBlank s = true -> trimStart s = "".
Proof.
  induction s as [|c s IH]; simpl; [reflexivity|].
  intros H. apply andb_true_iff in H as [Hc Hs]. now rewrite Hc, IH.
Qed.

Lemma trim_blank (s : string) : isBlank s = true -> trim s = "".
Proof. intros H. unfold trim. now rewrite trimStart_blank. Qed.

(** [Math.round] returns the nearest integer, halves going up. *)
Lemma Math_round_spec (q : Q) : RoundHalfUp q (Math_round q).
Proof.
  unfold RoundHalfUp, Math_round.
  pose proof (Qfloor_le (q + (1 # 2))) as Hlo.
  pose proof (Qlt_floor (q + (1 # 2))) as Hhi.
  rewrite inject_Z_plus in Hhi. split.
  - apply (Qplus_le_l _ _ (1 # 2)).
    setoid_replace (inject_Z (Qfloor (q + (1 # 2))) - (1 # 2) + (1 # 2))
      with (inject_Z (Qfloor (q + (1 # 2)))) by ring.
    exact Hlo.
  - apply (Qplus_lt_l _ _ (1 # 2)).
    setoid_replace (inject_Z (Qfloor (q + (1 # 2))) + (1 # 2) + (1 # 2))
      with (inject_Z (Qfloor (q + (1 # 2))) + inject_Z 1) by ring.
    exact Hhi.
Qed.

(** The nearest integer with halves up is unique. *)
Lemma RoundHalfUp_unique (q : Q) (r r' : Z) :
  RoundHalfUp q r -> RoundHalfUp q r' -> r = r'.
Proof.
  unfold RoundHalfUp. intros [H1 H2] [H3 H4].
  assert (Hlt : forall a b : Z,
             inject_Z a - (1 # 2) <= q -> q < inject_Z b + (1 # 2) ->
             (a <= b)%Z).
  { intros a b Ha Hb.
    assert (H : inject_Z a < inject_Z b + 1).
    { apply (Qplus_lt_l _ _ (- (1 # 2))).
      eapply Qle_lt_trans; [exact Ha|].
      eapply Qlt_le_trans; [exact Hb|].
      apply Qle_lteq. right. ring. }
    change 1 with (inject_Z 1) in H. rewrite <- inject_Z_plus in H.
    rewrite <- Zlt_Qlt in H. lia. }
  apply Z.le_antisymm; eauto.
Qed.

End JSFacts.

(** ** Purchase verification *)

Section PurchaseMatcher.

Variable os : list Order.t.
Variable L : Z.

Lemma Order_find_In (o : Order.t) :
  In o (Order_find L os) <-> In o os /\ containsItem L o.
Proof.
  unfold Order_find, containsItem.
  rewrite filter_In, existsb_exists.
  split; intros [Ho [it [Hit Hid]]]; (split; [exact Ho|]); exists it;
    (split; [exact Hit|]).
  - now apply Z.eqb_eq.
  - now apply Z.eqb_eq.
Qed.

Lemma customerName_fullName (o : Order.t) : customerName o = fullName o.
Proof.
  unfold customerName, fullName. now rewrite !JSFacts.orEmpty_id.
Qed.

Lemma isVerified_iff (ows : list Order.t) (R : string) :
  isVerified ows R = true <->
  exists o, In o ows /\
            Substring (JS.trim (JS.toLowerCase R)) (fullName o).
Proof.
  unfold isVerified. destruct ows as [|o ows].
  - simpl. split; [discriminate | intros [o [[] _]]].
  - change (0 <? List.length (o :: ows))%nat with true. cbv iota.
    rewrite existsb_exists.
    split; intros [o' [Hin H]]; exists o'; (split; [exact Hin|]).
    + rewrite <- customerName_fullName. now apply JSFacts.includes_iff.
    + rewrite <- customerName_fullName in H. now apply JSFacts.includes_iff.
Qed.

Lemma isVerifiedPurchase_iff (R : string) :
  isVerifiedPurchase os L R = true <->
  exists o, In o os /\ containsItem L o /\
            Substring (JS.trim (JS.toLowerCase R)) (fullName o).
Proof.
  unfold isVerifiedPurchase. rewrite isVerified_iff.
  split.
  - intros [o [Hin H]]. apply Order_find_In in Hin as [Hin Hit]. now exists o.
  - intros [o [Hin [Hit H]]]. exists o. split; [|exact H].
    now apply Order_find_In.
Qed.

End PurchaseMatcher.

(** ** The aggregation pipeline *)

Lemma matchProductId_app (oid : ObjectId) (cs cs' : list Comment.t) :
  matchProductId oid (cs ++ cs') = matchProductId oid cs ++ matchProductId oid cs'.
Proof. unfold matchProductId. apply filter_app. Qed.

Lemma matchProductId_In (oid : ObjectId) (cs : list Comment.t) (c : Comment.t) :
  In c (matchProductId oid cs) <-> In c cs /\ Comment.productId c = oid.
Proof.
  unfold matchProductId. rewrite filter_In. now rewrite N.eqb_eq.
Qed.

Lemma Comment_aggregate_empty (oid : ObjectId) (cs : list Comment.t) :
  matchProductId oid cs = [] -> Comment_aggregate oid cs = [].
Proof. unfold Comment_aggregate. now intros ->. Qed.

Lemma Comment_aggregate_row (oid : ObjectId) (cs : list Comment.t) :
  matchProductId oid cs <> [] ->
  Comment_aggregate oid cs =
  [ {| avgRating := avg (ratings (matchProductId oid cs));
       count := Z.of_nat (List.length (matchProductId oid cs)) |} ].
Proof.
  unfold Comment_aggregate. destruct (matchProductId oid cs); [easy | reflexivity].
Qed.

Lemma avg_mean (rs : list Z) : rs <> [] -> avg rs = Some (mean rs).
Proof. destruct rs; [easy | reflexivity]. Qed.

Lemma ratings_length (cs : list Comment.t) :
  (List.length (ratings cs) <= List.length cs)%nat.
Proof.
  induction cs as [|c cs IH]; simpl; [lia|].
  destruct (Comment.rating c); simpl; lia.
Qed.

(** ** Review intake: what a 201 response tells about the run *)

Lemma submitReview_201 (now : Date) (id : option Z) (body : ReviewBody.t)
  (st st' : Store) (r : ReviewResult) :
  submitReview now id body st = (st', Status201 r) ->
  exists (user : string) (rating : Q) (comment : string) (legacyId : Z)
         (product : Product.t),
    ReviewBody.user body = Some user /\
    ReviewBody.rating body = Some rating /\
    ReviewBody.comment body = Some comment /\
    id = Some legacyId /\
    Product_findOne legacyId (products st) = Some product /\
    newComment r =
      Comment.make now
        {| Comment.i_productId := Product._id product;
           Comment.i_username := user;
           Comment.i_rating := Some (JS.parseInt rating);
           Comment.i_comment := comment;
           Comment.i_createdAt := None;
           Comment.i_verifiedPurchase :=
             Some (isVerifiedPurchase (orders st) legacyId user) |} /\
    Comment.validate (newComment r) = true /\
    exists s : Stats,
      Comment_aggregate (Product._id product)
                        (comments st ++ [newComment r]) = [s] /\
      st' = Product_update (applyStats s product)
              (withComments (comments st ++ [newComment r]) st) /\
      newRating r = Product.rating (applyStats s product) /\
      newReviewsCount r = Product.reviewsCount (applyStats s product).
Proof.
  unfold submitReview.
  destruct (ReviewBody.user body) as [user|]; [|discriminate].
  destruct (ReviewBody.rating body) as [rating|]; [|discriminate].
  destruct (ReviewBody.comment body) as [comment|]; [|discriminate].
  destruct (_ || _ || _ || _ || _); [discriminate|].
  destruct id as [legacyId|]; [|discriminate].
  destruct (Product_findOne legacyId (products st)) as [product|] eqn:Hfind;
    [|discriminate].
  unfold Comment_save.
  match goal with |- context [Comment.validate ?c] =>
    set (c0 := c); destruct (Comment.validate c0) eqn:Hval end;
    [|discriminate].
  cbn [comments withComments].
  assert (Hne : matchProductId (Product._id product) (comments st ++ [c0]) <> []).
  { rewrite matchProductId_app. unfold matchProductId at 2. simpl.
    change (Comment.productId c0) with (Product._id product).
    rewrite N.eqb_refl. intros H. now apply app_eq_nil in H as [_ H]. }
  rewrite (Comment_aggregate_row _ _ Hne).
  intros H. injection H as <- <-. cbn [newComment newRating newReviewsCount].
  exists user, rating, comment, legacyId, product.
  repeat (split; [reflexivity || assumption|]).
  eexists. now rewrite (Comment_aggregate_row _ _ Hne).
Qed.

(** ** Rating Aggregator *)

Lemma applyStats_rating (s : Stats) (p : Product.t) :
  Product.rating (applyStats s p)
  = inject_Z (JS.Math_round (JS.ToNumber (avgRating s))).
Proof. reflexivity. Qed.

Lemma applyStats_reviewsCount (s : Stats) (p : Product.t) :
  Product.reviewsCount (applyStats s p) = count s.
Proof. reflexivity. Qed.

Lemma ratings_app (cs cs' : list Comment.t) :
  ratings (cs ++ cs') = ratings cs ++ ratings cs'.
Proof. unfold ratings. apply flat_map_app. Qed.

(** After a successful review intake the target product has a rated
    comment: the one just inserted. *)
Lemma submitReview_rated (now : Date) (id : option Z) (body : ReviewBody.t)
  (st st' : Store) (r : ReviewResult) (L : Z) (product : Product.t) :
  submitReview now id body st = (st', Status201 r) ->
  id = Some L -> Product_findOne L (products st) = Some product ->
  comments st' = comments st ++ [newComment r] /\
  ratings (matchProductId (Product._id product) (comments st')) <> [].
Proof.
  intros H Hid Hfind.
  apply submitReview_201 in H
    as (user & rating & comment & L' & product' & _ & _ & _ & Hid' & Hfind'
        & Hc & _ & s & _ & -> & _).
  rewrite Hid in Hid'. injection Hid' as <-.
  rewrite Hfind in Hfind'. injection Hfind' as <-.
  cbn [comments Product_update withProducts withComments].
  split; [reflexivity|].
  rewrite matchProductId_app, ratings_app, Hc.
  unfold matchProductId at 2. cbn [filter Comment.make Comment.productId
                                     Comment.i_productId].
  rewrite N.eqb_refl. cbn [ratings flat_map Comment.rating Comment.i_rating app].
  intros H. now apply app_eq_nil in H as [_ H].
Qed.

(** C1 (as the code has it). The aggregation over the comments that
    reference a product yields no row when there is none, and otherwise one
    row from which the handler writes back: reviewsCount = the number of ALL
    comments referencing the product, rated or not; rating = the arithmetic
    mean of the ratings that are set, rounded to the nearest integer with
    halves up, and 0 when no comment of the product carries a rating. When
    every comment of the product is rated the count is the number of rated
    comments. After a successful review insert the response carries exactly
    these numbers for the comments of the resulting store. Ratings 5,4,4
    give rating 4 and count 3; ratings 5,5,4,4 give rating 5 and count 4. *)
Theorem C1_rating_aggregator :
  (forall (oid : ObjectId) (cs : list Comment.t) (product : Product.t),
      let m := matchProductId oid cs in
      (m = [] -> Comment_aggregate oid cs = []) /\
      (m <> [] ->
       exists s : Stats,
         Comment_aggregate oid cs = [s] /\
         Product.reviewsCount (applyStats s product)
           = Z.of_nat (List.length m) /\
         (ratings m = [] -> Product.rating (applyStats s product) = 0) /\
         (ratings m <> [] ->
          exists r : Z,
            Product.rating (applyStats s product) = inject_Z r /\
            RoundHalfUp (mean (ratings m)) r) /\
         (List.length (ratings m) = List.length m ->
          Product.reviewsCount (applyStats s product)
            = Z.of_nat (List.length (ratings m))))) /\
  (forall now id body st st' r,
      submitReview now id body st = (st', Status201 r) ->
      exists (L : Z) (product : Product.t) (n : Z),
        id = Some L /\
        Product_findOne L (products st) = Some product /\
        let m := matchProductId (Product._id product) (comments st') in
        newReviewsCount r = Z.of_nat (List.length m) /\
        newRating r = inject_Z n /\
        RoundHalfUp (mean (ratings m)) n) /\
  map (fun s => applyStats s Sample.ghee)
      (Comment_aggregate 1%N [Sample.rated 5; Sample.rated 4; Sample.rated 4])
    = [Product.setStats 4 3 Sample.ghee] /\
  map (fun s => applyStats s Sample.ghee)
      (Comment_aggregate 1%N
         [Sample.rated 5; Sample.rated 5; Sample.rated 4; Sample.rated 4])
    = [Product.setStats 5 4 Sample.ghee].
Proof.
  assert (Hgen : forall oid cs product,
             matchProductId oid cs <> [] ->
             exists s : Stats,
               Comment_aggregate oid cs = [s] /\
               Product.reviewsCount (applyStats s product)
                 = Z.of_nat (List.length (matchProductId oid cs)) /\
               (ratings (matchProductId oid cs) = [] ->
                Product.rating (applyStats s product) = 0) /\
               (ratings (matchProductId oid cs) <> [] ->
                exists r : Z,
                  Product.rating (applyStats s product) = inject_Z r /\
                  RoundHalfUp (mean (ratings (matchProductId oid cs))) r)).
  { intros oid cs product Hne. eexists.
    split; [apply (Comment_aggregate_row _ _ Hne)|].
    rewrite applyStats_reviewsCount, applyStats_rating. cbn [avgRating count].
    split; [reflexivity|]. split.
    - intros ->. reflexivity.
    - intros Hr. rewrite (avg_mean _ Hr). cbn [JS.ToNumber].
      eexists. split; [reflexivity|]. apply JSFacts.Math_round_spec. }
  split; [|split; [|split]].
  - intros oid cs product m. split; [apply Comment_aggregate_empty|].
    intros Hne. destruct (Hgen oid cs product Hne) as (s & Hs & Hc & H0 & Hr).
    exists s. repeat (split; [assumption|]).
    intros He. rewrite He. exact Hc.
  - intros now id body st st' r H.
    pose proof (submitReview_201 _ _ _ _ _ _ H)
      as (user & rating & comment & L & product & _ & _ & _ & Hid & Hfind
          & _ & _ & s & Hs & _ & Hr & Hc).
    destruct (submitReview_rated _ _ _ _ _ _ _ _ H Hid Hfind) as [Hcs Hrated].
    rewrite <- Hcs in Hs.
    assert (Hne : matchProductId (Product._id product) (comments st') <> []).
    { intros He. rewrite He in Hrated. now apply Hrated. }
    destruct (Hgen _ _ product Hne) as (s' & Hs' & Hc' & _ & Hr').
    rewrite Hs in Hs'. injection Hs' as <-.
    destruct (Hr' Hrated) as [n [Hn Hround]].
    exists L, product, n. split; [exact Hid|]. split; [exact Hfind|].
    cbv zeta. split; [congruence|]. split; [congruence | exact Hround].
  - reflexivity.
  - reflexivity.
Qed.

(** A run of C1 on the comments [5; unrated; 4] of one product. *)
Lemma C1_rating_aggregator_witness :
  exists s : Stats,
    Comment_aggregate 1%N [Sample.rated 5; Sample.unrated; Sample.rated 4] = [s] /\
    Product.reviewsCount (applyStats s Sample.ghee) = 3%Z /\
    exists r : Z,
      Product.rating (applyStats s Sample.ghee) = inject_Z r /\
      RoundHalfUp (mean [5; 4]%Z) r.
Proof.
  destruct (proj1 C1_rating_aggregator 1%N
              [Sample.rated 5; Sample.unrated; Sample.rated 4] Sample.ghee)
    as [_ H].
  destruct H as [s [Hs [Hc [_ [Hr _]]]]]; [discriminate|].
  exists s. split; [exact Hs|]. split; [exact Hc|].
  apply Hr. discriminate.
Defined.

(** C1 as stated fails: after a plain comment and then a review with five
    stars, the count written back is 2 although only one comment of the
    product is rated. *)
Lemma C1_counterexample :
  exists (st1 st2 : Store) (c : Comment.t) (r : ReviewResult),
    postComment 1700000000001%Z (Some 1%N)
      (Sample.plain "Gopal" "When is it back in stock?") Sample.shop
      = (st1, Status201 c) /\
    submitReview 1700000000002%Z (Some 7%Z)
      (Sample.review "Radha" 5 "Lovely") st1 = (st2, Status201 r) /\
    newReviewsCount r = 2%Z /\
    List.length (ratings (matchProductId 1%N (comments st2))) = 1%nat /\
    newReviewsCount r
      <> Z.of_nat (List.length (ratings (matchProductId 1%N (comments st2)))).
Proof.
  do 4 eexists. split; [vm_compute; reflexivity|].
  split; [vm_compute; reflexivity|].
  split; [reflexivity|]. split; [reflexivity|]. discriminate.
Qed.

(** ** Purchase Matcher: specification *)

Lemma Substring_empty (s : string) : Substring "" s.
Proof. now exists ""%string, s. Qed.

(** C2. The purchase-verification check returns true exactly when some Order
    has a line item with id [L] and its customer full name (first name, one
    space, last name; lower-cased and trimmed) contains the lower-cased,
    trimmed reviewer name as a substring. It is false when no order contains
    [L], and true for an empty or all-white-space reviewer name as soon as
    one order contains [L]. The review endpoint stores this value as
    [verifiedPurchase], and so does the migration of embedded reviews. *)
Theorem C2_purchase_verification :
  (forall (os : list Order.t) (L : Z) (R : string),
      (isVerifiedPurchase os L R = true <->
       exists o, In o os /\ containsItem L o /\
                 Substring (JS.trim (JS.toLowerCase R)) (fullName o)) /\
      ((forall o, In o os -> ~ containsItem L o) ->
       isVerifiedPurchase os L R = false) /\
      (isBlank R = true ->
       (exists o, In o os /\ containsItem L o) ->
       isVerifiedPurchase os L R = true)) /\
  (forall now id body st st' r,
      submitReview now id body st = (st', Status201 r) ->
      exists (user : string) (L : Z),
        ReviewBody.user body = Some user /\ id = Some L /\
        Comment.verifiedPurchase (newComment r)
          = isVerifiedPurchase (orders st) L user) /\
  (forall now newProduct os L reviews,
      map Comment.verifiedPurchase
          (commentsToCreate now newProduct (Order_find L os) reviews)
      = map (fun review => isVerifiedPurchase os L (LegacyReview.user review))
            reviews).
Proof.
  split; [|split].
  - intros os L R. split; [apply isVerifiedPurchase_iff|]. split.
    + intros Hnone. apply not_true_is_false. intros H.
      apply isVerifiedPurchase_iff in H as [o [Hin [Hit _]]].
      exact (Hnone o Hin Hit).
    + intros HR [o [Hin Hit]]. apply isVerifiedPurchase_iff.
      exists o. split; [exact Hin|]. split; [exact Hit|].
      rewrite (JSFacts.toLowerCase_blank _ HR), (JSFacts.trim_blank _ HR).
      apply Substring_empty.
  - intros now id body st st' r H.
    apply submitReview_201 in H
      as (user & rating & comment & L & product & Hu & _ & _ & Hid & _ & Hc & _).
    exists user, L. split; [exact Hu|]. split; [exact Hid|].
    now rewrite Hc.
  - intros now newProduct os L reviews. unfold commentsToCreate.
    rewrite map_map. reflexivity.
Qed.

(** C2 at the order of Krishna Das for product 7: a partial name matches, a
    blank name matches, a longer name does not, and nothing matches for a
    product nobody ordered. *)
Lemma C2_purchase_verification_witness :
  isVerifiedPurchase [Sample.order] 7 "Krishna" = true /\
  isVerifiedPurchase [Sample.order] 7 "   " = true /\
  isVerifiedPurchase [Sample.order] 8 "Krishna" = false.
Proof.
  pose proof (proj1 C2_purchase_verification [Sample.order] 7%Z "Krishna"%string)
    as [Hiff _].
  pose proof (proj1 C2_purchase_verification [Sample.order] 7%Z "   "%string)
    as [_ [_ Hblank]].
  pose proof (proj1 C2_purchase_verification [Sample.order] 8%Z "Krishna"%string)
    as [_ [Hnone _]].
  assert (Hitem : containsItem 7 Sample.order).
  { exists (Item.mk 7%Z "Ghee" 1%Z 450). split; [left|]; reflexivity. }
  split; [|split].
  - apply Hiff. exists Sample.order. split; [now left|]. split; [exact Hitem|].
    exists ""%string, " das"%string. reflexivity.
  - apply Hblank; [reflexivity|]. exists Sample.order. split; [now left | exact Hitem].
  - apply Hnone. intros o [<-|[]] [it [[<-|[]] Hid]]. discriminate Hid.
Defined.

(** ** Review intake: validation *)

Lemma ltNumber_true (a b : Q) : JS.ltNumber a b = true <-> a < b.
Proof.
  unfold JS.ltNumber. rewrite negb_true_iff, <- not_true_iff_false, Qle_bool_iff.
  split; [apply Qnot_le_lt | apply Qlt_not_le].
Qed.

Lemma gtNumber_true (a b : Q) : JS.gtNumber a b = true <-> b < a.
Proof.
  unfold JS.gtNumber. rewrite negb_true_iff, <- not_true_iff_false, Qle_bool_iff.
  split; [apply Qnot_le_lt | apply Qlt_not_le].
Qed.

Lemma truthyString_false (s : string) :
  JS.truthyString s = false <-> s = ""%string.
Proof. destruct s; simpl; split; congruence. Qed.

(** The guard of the review endpoint, read as a proposition. *)
Lemma review_guard_iff (user comment : string) (rating : Q) :
  negb (JS.truthyString user) || negb (JS.truthyNumber rating)
  || negb (JS.truthyString comment)
  || JS.ltNumber rating 1 || JS.gtNumber rating 5 = true
  <-> user = ""%string \/ comment = ""%string \/ rating < 1 \/ 5 < rating.
Proof.
  rewrite !orb_true_iff, !negb_true_iff, !truthyString_false,
    ltNumber_true, gtNumber_true.
  unfold JS.truthyNumber. rewrite negb_false_iff, Qeq_bool_iff.
  split.
  - intros [[[[H|H]|H]|H]|H]; auto.
    right. right. left. rewrite H. reflexivity.
  - intros [H|[H|[H|H]]]; auto.
Qed.

Lemma submitReview_rejected (now : Date) (id : option Z) (body : ReviewBody.t)
  (st : Store) :
  Rejected body <-> submitReview now id body st = (st, Status400).
Proof.
  unfold Rejected, submitReview.
  destruct (ReviewBody.user body) as [user|];
    [|split; [reflexivity | intros _; now left]].
  destruct (ReviewBody.rating body) as [rating|];
    [|split; [reflexivity | intros _; do 4 right; now left]].
  destruct (ReviewBody.comment body) as [comment|];
    [|split; [reflexivity | intros _; do 2 right; now left]].
  destruct (_ || _ || _ || _ || _) eqn:Hg.
  - split; [reflexivity|]. intros _.
    apply review_guard_iff in Hg as [->|[->|[H|H]]].
    + right. now left.
    + do 3 right. now left.
    + do 5 right. exists rating. auto.
    + do 5 right. exists rating. auto.
  - split.
    + intros H. exfalso. apply not_true_iff_false in Hg. apply Hg.
      apply review_guard_iff.
      destruct H as [H|[H|[H|[H|[H|[q [Hq H]]]]]]]; try discriminate.
      * injection H as ->. now left.
      * injection H as ->. right. now left.
      * injection Hq as ->. right. right. exact H.
    + destruct id; [|discriminate].
      destruct (Product_findOne _ _); [|discriminate].
      destruct (Comment_save _ _); [|discriminate].
      destruct (Comment_aggregate _ _); discriminate.
Qed.

Lemma parseInt_range (q : Q) :
  1 <= q -> q <= 5 -> (1 <= JS.parseInt q <= 5)%Z.
Proof.
  unfold Qle, JS.parseInt. destruct q as [n d]. cbn [Qnum Qden].
  intros H1 H5. split.
  - apply Z.quot_le_lower_bound; lia.
  - apply Z.quot_le_upper_bound; lia.
Qed.

(** C3 (as the code has it). A review submission whose user name is missing
    or empty, whose comment text is missing or empty, or whose rating is
    missing or is a number below 1 or above 5 (0 and 6 among them) is
    answered with status 400 and leaves the store as it was: no Comment is
    inserted and no Product is touched; no other body gets status 400. A
    rating inside [1,5] that is not a whole number is not turned away: the
    stored comment carries it truncated to an integer between 1 and 5. *)
Theorem C3_review_validation :
  (forall now id body st,
      Rejected body -> submitReview now id body st = (st, Status400)) /\
  (forall now id body st st',
      submitReview now id body st = (st', Status400) ->
      Rejected body /\ st' = st) /\
  (forall now id body st st' r,
      submitReview now id body st = (st', Status201 r) ->
      exists q : Q,
        ReviewBody.rating body = Some q /\ 1 <= q /\ q <= 5 /\
        Comment.rating (newComment r) = Some (JS.parseInt q) /\
        (1 <= JS.parseInt q <= 5)%Z).
Proof.
  split; [|split].
  - intros now id body st H. now apply submitReview_rejected.
  - intros now id body st st' H.
    assert (Hst : st' = st).
    { revert H. unfold submitReview.
      destruct (ReviewBody.user body); [|now intros [= <-]].
      destruct (ReviewBody.rating body); [|now intros [= <-]].
      destruct (ReviewBody.comment body); [|now intros [= <-]].
      destruct (_ || _ || _ || _ || _); [now intros [= <-]|].
      destruct id; [|discriminate].
      destruct (Product_findOne _ _); [|discriminate].
      destruct (Comment_save _ _); [|discriminate].
      destruct (Comment_aggregate _ _); discriminate. }
    subst st'. split; [|reflexivity].
    now apply (submitReview_rejected now id body st).
  - intros now id body st st' r H.
    assert (Hacc : ~ Rejected body).
    { intros Hrej. apply (submitReview_rejected now id body st) in Hrej.
      rewrite Hrej in H. discriminate. }
    apply submitReview_201 in H
      as (user & q & comment & L & product & _ & Hq & _ & _ & _ & Hc & _).
    exists q. split; [exact Hq|].
    assert (H1 : 1 <= q).
    { apply Qnot_lt_le. intros Hlt. apply Hacc. do 5 right. exists q. auto. }
    assert (H5 : q <= 5).
    { apply Qnot_lt_le. intros Hlt. apply Hacc. do 5 right. exists q. auto. }
    split; [exact H1|]. split; [exact H5|]. split.
    + now rewrite Hc.
    + now apply parseInt_range.
Qed.

(** C3 at a body with rating 6 and at a body with an empty user name. *)
Lemma C3_review_validation_witness :
  submitReview 1700000000002%Z (Some 7%Z) (Sample.review "Radha" 6 "Lovely")
    Sample.shop = (Sample.shop, Status400) /\
  submitReview 1700000000002%Z (Some 7%Z) (Sample.review "" 5 "Lovely")
    Sample.shop = (Sample.shop, Status400).
Proof.
  split.
  - apply (proj1 C3_review_validation). do 5 right. exists 6. split.
    + reflexivity.
    + right. reflexivity.
  - apply (proj1 C3_review_validation). right. left. reflexivity.
Defined.

(** C3 as stated fails: a rating of 4.5 is not an integer, yet the review is
    accepted, a Comment with rating 4 is inserted and the Product is
    updated. *)
Lemma C3_counterexample :
  (forall z : Z, ~ (9 # 2) == inject_Z z) /\
  exists (st' : Store) (r : ReviewResult),
    submitReview 1700000000002%Z (Some 7%Z)
      (Sample.review "Radha" (9 # 2) "Lovely") Sample.shop
      = (st', Status201 r) /\
    Comment.rating (newComment r) = Some 4%Z /\
    comments Sample.shop = [] /\
    comments st' = [newComment r] /\
    map Product.reviewsCount (products Sample.shop) = [0%Z] /\
    map Product.reviewsCount (products st') = [1%Z].
Proof.
  split.
  - intros z H. unfold Qeq in H. cbn in H. lia.
  - do 2 eexists. split; [vm_compute; reflexivity|].
    repeat split; reflexivity.
Qed.

(** ** Review intake: write-back and frame *)

Lemma Product_findOne_In (L : Z) (ps : list Product.t) (p : Product.t) :
  Product_findOne L ps = Some p -> In p ps /\ Product.legacyId p = L.
Proof.
  unfold Product_findOne. intros H. apply find_some in H as [Hin H].
  split; [exact Hin | now apply Z.eqb_eq].
Qed.

Lemma sameButStats_refl (p : Product.t) : sameButStats p p.
Proof. unfold sameButStats. repeat split. Qed.

Lemma sameButStats_setStats (r : Q) (c : Z) (p : Product.t) :
  sameButStats p (Product.setStats r c p).
Proof. unfold sameButStats. repeat split. Qed.

Lemma Product_update_frame (p : Product.t) (st : Store) :
  orders (Product_update p st) = orders st /\
  comments (Product_update p st) = comments st /\
  nextId (Product_update p st) = nextId st /\
  Forall2 (fun q q' =>
             sameButStats q q' /\
             (Product._id q <> Product._id p -> q' = q) /\
             (Product._id q = Product._id p ->
              Product.rating q' = Product.rating p /\
              Product.reviewsCount q' = Product.reviewsCount p))
          (products st) (products (Product_update p st)).
Proof.
  repeat (split; [reflexivity|]).
  unfold Product_update. cbn [products withProducts].
  induction (products st) as [|q ps IH]; cbn [map]; constructor; [|exact IH].
  destruct (Product._id q =? Product._id p)%N eqn:E.
  - apply N.eqb_eq in E. split; [apply sameButStats_setStats|].
    split; [intros H; now elim H | intros _; split; reflexivity].
  - apply N.eqb_neq in E. split; [apply sameButStats_refl|].
    split; [reflexivity | intros H; now elim E].
Qed.

Lemma Forall2_In_r {A B : Type} (R : A -> B -> Prop) (l : list A)
  (l' : list B) (y : B) :
  Forall2 R l l' -> In y l' -> exists x, In x l /\ R x y.
Proof.
  induction 1 as [|a b l l' Hab _ IH]; intros Hin; [easy|].
  destruct Hin as [<-|Hin].
  - exists a. split; [now left | exact Hab].
  - destruct (IH Hin) as [x [Hx Hr]]. exists x. split; [now right | exact Hr].
Qed.

Lemma Forall2_In_l {A B : Type} (R : A -> B -> Prop) (l : list A)
  (l' : list B) (x : A) :
  Forall2 R l l' -> In x l -> exists y, In y l' /\ R x y.
Proof.
  induction 1 as [|a b l l' Hab _ IH]; intros Hin; [easy|].
  destruct Hin as [<-|Hin].
  - exists b. split; [now left | exact Hab].
  - destruct (IH Hin) as [y [Hy Hr]]. exists y. split; [now right | exact Hr].
Qed.

(** ** Sorted [findOne] *)

Lemma Product_findOne_sort_None (before : Z -> Z -> bool) (ps : list Product.t) :
  Product_findOne_sort before ps = None <-> ps = [].
Proof.
  destruct ps as [|p ps]; simpl; [easy|].
  destruct (Product_findOne_sort before ps) as [q|]; [|easy].
  destruct (before _ _); easy.
Qed.

Lemma Product_findOne_sort_min (ps : list Product.t) (p : Product.t) :
  Product_findOne_sort Z.ltb ps = Some p ->
  In p ps /\
  forall q, In q ps -> (Product.legacyId p <= Product.legacyId q)%Z.
Proof.
  revert p. induction ps as [|a ps IH]; simpl; [discriminate|].
  intros p. destruct (Product_findOne_sort Z.ltb ps) as [m|] eqn:E.
  - destruct (IH m eq_refl) as [Hin Hmin].
    destruct (Product.legacyId m <? Product.legacyId a)%Z eqn:Hlt;
      intros [= <-].
    + apply Z.ltb_lt in Hlt. split; [now right|].
      intros q [<-|Hq]; [lia | now apply Hmin].
    + apply Z.ltb_ge in Hlt. split; [now left|].
      intros q [<-|Hq]; [lia|]. specialize (Hmin q Hq). lia.
  - intros [= <-]. apply Product_findOne_sort_None in E. subst ps.
    split; [now left|]. intros q [<-|[]]. lia.
Qed.


(** ** Seeding *)

Lemma withComments_id (st : Store) : withComments (comments st) st = st.
Proof. now destruct st. Qed.

Lemma Comment_create_valid (cs : list Comment.t) (st : Store) :
  forallb Comment.validate cs = true ->
  Comment_create cs st = Some (withComments (comments st ++ cs) st).
Proof.
  revert st. induction cs as [|c cs IH]; intros st; cbn [forallb Comment_create].
  - intros _. now rewrite app_nil_r, withComments_id.
  - intros H. apply andb_true_iff in H as [Hc Hcs].
    unfold Comment_save. rewrite Hc, (IH _ Hcs).
    unfold withComments. cbn [products comments orders nextId].
    now rewrite <- app_assoc.
Qed.

Lemma seedDocs_valid (now : Date) (p : Product.t) :
  forallb Comment.validate (seedDocs now p) = true.
Proof. reflexivity. Qed.

Lemma Comment_create_seedDocs (now : Date) (p : Product.t) (st : Store) :
  Comment_create (seedDocs now p) st
  = Some (withComments (comments st ++ seedDocs now p) st).
Proof. apply Comment_create_valid, seedDocs_valid. Qed.

Lemma seedStep_cases (now : Date) (st : Store) :
  (comments st = [] /\
   exists p, Product_findOne_sort Z.ltb (products st) = Some p /\
             seedStep now st = (withComments (seedDocs now p) st, Normal)) \/
  ((comments st <> [] \/ products st = []) /\ seedStep now st = (st, Normal)).
Proof.
  unfold seedStep. destruct (comments st) as [|c cs] eqn:Hc.
  - cbn [List.length Nat.eqb].
    destruct (Product_findOne_sort Z.ltb (products st)) as [p|] eqn:Hp.
    + left. split; [reflexivity|]. exists p. split; [reflexivity|].
      rewrite Comment_create_seedDocs, Hc. reflexivity.
    + right. split; [|reflexivity]. right.
      now apply Product_findOne_sort_None in Hp.
  - right. split; [|reflexivity]. left. discriminate.
Qed.

(** ** Plain comments *)

Lemma postComment_cases (now : Date) (id : option ObjectId)
  (body : CommentBody.t) (st : Store) :
  (fst (postComment now id body st) = st /\
   forall c, snd (postComment now id body st) <> Status201 c) \/
  (exists (productId : ObjectId) (username comment : string),
      id = Some productId /\
      CommentBody.username body = Some username /\
      CommentBody.comment body = Some comment /\
      let c := Comment.mk productId (JS.trim username) (JS.trim comment) None
                          now false in
      postComment now id body st
      = (withComments (comments st ++ [c]) st, Status201 c)).
Proof.
  unfold postComment.
  destruct (CommentBody.username body) as [username|];
    [|left; split; [reflexivity | discriminate]].
  destruct (CommentBody.comment body) as [comment|];
    [|left; split; [reflexivity | discriminate]].
  destruct (_ || _); [left; split; [reflexivity | discriminate]|].
  destruct id as [productId|]; [|left; split; [reflexivity | discriminate]].
  destruct (Product_findById _ _);
    [|left; split; [reflexivity | discriminate]].
  destruct (Comment_save _ _) as [st'|] eqn:Hs;
    [|left; split; [reflexivity | discriminate]].
  right. exists productId, username, comment.
  repeat (split; [reflexivity|]).
  unfold Comment_save in Hs. destruct (Comment.validate _); [|discriminate].
  injection Hs as <-. reflexivity.
Qed.

(** ** Consistency of the cached rating *)

(** C4 (as the code has it). A successful review intake leaves the target
    Product, in the resulting store, with rating and reviewsCount equal to
    what the aggregation computes from the Comments of that store, and
    answers with the same two numbers. *)
Theorem C4_review_intake_recomputes :
  forall now id body st st' r,
    submitReview now id body st = (st', Status201 r) ->
    exists (L : Z) (product : Product.t) (s : Stats),
      id = Some L /\
      Product_findOne L (products st) = Some product /\
      Comment_aggregate (Product._id product) (comments st') = [s] /\
      (exists q, In q (products st') /\
                 Product._id q = Product._id product) /\
      (forall q, In q (products st') ->
                 Product._id q = Product._id product ->
                 Product.rating q = Product.rating (applyStats s q) /\
                 Product.reviewsCount q
                   = Product.reviewsCount (applyStats s q)) /\
      newRating r = Product.rating (applyStats s product) /\
      newReviewsCount r = Product.reviewsCount (applyStats s product).
Proof.
  intros now id body st st' r H.
  apply submitReview_201 in H
    as (user & rating & comment & L & product & _ & _ & _ & Hid & Hfind
        & _ & _ & s & Hs & -> & Hr & Hc).
  exists L, product, s. split; [exact Hid|]. split; [exact Hfind|].
  destruct (Product_update_frame (applyStats s product)
              (withComments (comments st ++ [newComment r]) st))
    as (_ & Hcs & _ & Hall).
  cbn [products comments withComments] in Hall, Hcs.
  split; [now rewrite Hcs|].
  destruct (Product_findOne_In _ _ _ Hfind) as [Hin _].
  split.
  - destruct (Forall2_In_l _ _ _ _ Hall Hin) as [q' [Hq' [Hsame _]]].
    exists q'. split; [exact Hq' | apply Hsame].
  - split; [|split; assumption].
    intros q' Hq' Hid'.
    destruct (Forall2_In_r _ _ _ _ Hall Hq') as [q [_ [Hsame [_ Hset]]]].
    apply Hset. destruct Hsame as [Hsid _].
    change (Product._id (applyStats s product)) with (Product._id product).
    congruence.
Qed.

(** C4 at a five-star review of the sample product. *)
Lemma C4_review_intake_recomputes_witness :
  exists (L : Z) (product : Product.t) (s : Stats),
    Some 7%Z = Some L /\
    Product_findOne L (products Sample.shop) = Some product /\
    Comment_aggregate (Product._id product)
      (comments (fst (submitReview 1700000000002%Z (Some 7%Z)
                        (Sample.review "Radha" 5 "Lovely") Sample.shop)))
      = [s] /\
    Product.reviewsCount (applyStats s product) = 1%Z.
Proof.
  destruct (C4_review_intake_recomputes 1700000000002%Z (Some 7%Z)
              (Sample.review "Radha" 5 "Lovely") Sample.shop
              (fst (submitReview 1700000000002%Z (Some 7%Z)
                      (Sample.review "Radha" 5 "Lovely") Sample.shop))
              (mkReviewResult
                 (Comment.mk 1%N "Radha" "Lovely" (Some 5%Z) 1700000000002%Z
                             false)
                 5 1%Z)
              eq_refl)
    as (L & product & s & HL & Hfind & Hagg & _ & _ & _ & Hc).
  exists L, product, s. split; [exact HL|]. split; [exact Hfind|].
  split; [exact Hagg|]. now rewrite <- Hc.
Defined.

(** C4 as stated fails: an admin creates a product in an empty store, the
    start-up pipeline then seeds two comments (5 and 4 stars) for it; the
    aggregation over the store would give rating 5 and count 2, the Product
    still carries rating 0 and count 0. *)
Lemma C4_counterexample :
  exists (st1 st2 : Store) (p : Product.t) (s : Stats),
    createProduct 1700000000000%Z (Some ADMIN_SECRET) None Sample.honey
      Sample.empty = (st1, Status201 p) /\
    migrateAndSeed 1700000000001%Z [] st1 = st2 /\
    products st2 = [p] /\
    Comment_aggregate (Product._id p) (comments st2) = [s] /\
    Product.reviewsCount p = 0%Z /\
    Product.reviewsCount (applyStats s p) = 2%Z /\
    Product.rating p = 0 /\
    Product.rating (applyStats s p) = 5.
Proof.
  do 4 eexists. split; [vm_compute; reflexivity|].
  split; [vm_compute; reflexivity|].
  split; [reflexivity|]. split; [vm_compute; reflexivity|].
  repeat split; reflexivity.
Qed.

(** C9. A successful review submission leaves every Order and every
    existing Comment as it was and appends exactly one Comment; Products
    keep their positions and all their fields other than rating and
    reviewsCount, and a Product other than the target is unchanged. *)
Theorem C9_review_intake_frame :
  forall now id body st st' r,
    submitReview now id body st = (st', Status201 r) ->
    orders st' = orders st /\
    comments st' = comments st ++ [newComment r] /\
    exists (L : Z) (product : Product.t),
      id = Some L /\
      Product_findOne L (products st) = Some product /\
      Forall2 (fun p p' =>
                 sameButStats p p' /\
                 (Product._id p <> Product._id product -> p' = p))
              (products st) (products st').
Proof.
  intros now id body st st' r H.
  apply submitReview_201 in H
    as (user & rating & comment & L & product & _ & _ & _ & Hid & Hfind
        & _ & _ & s & _ & -> & _).
  destruct (Product_update_frame (applyStats s product)
              (withComments (comments st ++ [newComment r]) st))
    as (Ho & Hcs & _ & Hall).
  split; [exact Ho|]. split; [exact Hcs|].
  exists L, product. split; [exact Hid|]. split; [exact Hfind|].
  cbn [products withComments] in Hall.
  eapply Forall2_impl; [|exact Hall].
  intros p p' (Hsame & Hother & _). split; [exact Hsame | exact Hother].
Qed.

(** C9 at a five-star review of the sample product. *)
Lemma C9_review_intake_frame_witness :
  orders (fst (submitReview 1700000000002%Z (Some 7%Z)
                 (Sample.review "Radha" 5 "Lovely") Sample.shop))
  = orders Sample.shop.
Proof.
  exact (proj1 (C9_review_intake_frame 1700000000002%Z (Some 7%Z)
                  (Sample.review "Radha" 5 "Lovely") Sample.shop
                  (fst (submitReview 1700000000002%Z (Some 7%Z)
                          (Sample.review "Radha" 5 "Lovely") Sample.shop))
                  (mkReviewResult
                     (Comment.mk 1%N "Radha" "Lovely" (Some 5%Z)
                                 1700000000002%Z false)
                     5 1%Z)
                  eq_refl)).
Defined.

(** ** The plain-comment endpoint *)

(** C10. Whatever the request and the store, the plain-comment endpoint
    leaves Products and Orders untouched; a comment it creates is stored
    without a rating and with verifiedPurchase false, appended to the
    Comments; a rating in the request body has no influence on the
    outcome. *)
Theorem C10_plain_comment :
  forall now id body st,
    products (fst (postComment now id body st)) = products st /\
    orders (fst (postComment now id body st)) = orders st /\
    (forall st' c,
        postComment now id body st = (st', Status201 c) ->
        Comment.rating c = None /\
        Comment.verifiedPurchase c = false /\
        comments st' = comments st ++ [c]) /\
    (forall rating',
        postComment now id
          (CommentBody.mk (CommentBody.username body)
                          (CommentBody.comment body) rating') st
        = postComment now id body st).
Proof.
  intros now id body st.
  destruct (postComment_cases now id body st)
    as [[Hst Hno]|(productId & username & comment & _ & _ & _ & H)].
  - rewrite Hst. repeat (split; [reflexivity|]). split; [|reflexivity].
    intros st' c H. exfalso. apply (Hno c). now rewrite H.
  - cbv zeta in H. rewrite H. cbn [fst products orders withComments].
    repeat (split; [reflexivity|]). split; [|rewrite <- H; reflexivity].
    intros st' c [= <- <-]. repeat split.
Qed.

(** C10 at a request that carries five stars, by a user whose name matches
    an order for the product: the stored comment has no rating and is not
    marked as a verified purchase. *)
Lemma C10_plain_comment_witness :
  exists (st' : Store) (c : Comment.t),
    postComment 1700000000003%Z (Some 1%N)
      (CommentBody.mk (Some "Krishna"%string) (Some "Pure and fresh"%string)
                      (Some 5))
      Sample.shop = (st', Status201 c) /\
    isVerifiedPurchase (orders Sample.shop) 7 "Krishna" = true /\
    Comment.rating c = None /\
    Comment.verifiedPurchase c = false /\
    comments st' = comments Sample.shop ++ [c].
Proof.
  do 2 eexists. split; [reflexivity|]. split; [reflexivity|].
  apply (proj1 (proj2 (proj2 (C10_plain_comment 1700000000003%Z (Some 1%N)
          (CommentBody.mk (Some "Krishna"%string)
                          (Some "Pure and fresh"%string) (Some 5))
          Sample.shop)))).
  reflexivity.
Defined.

(** ** Seeding: specification *)

(** C5. The seeding step changes the Comments collection exactly when that
    collection is empty and a Product exists; it then holds exactly the two
    fixed sample comments, with ratings 5 and 4, both referencing a Product
    of minimum legacyId. With a non-empty Comments collection the step
    leaves the store as it is. Products and Orders are never written. *)
Theorem C5_seeding :
  forall now st,
    products (fst (seedStep now st)) = products st /\
    orders (fst (seedStep now st)) = orders st /\
    (comments (fst (seedStep now st)) <> comments st <->
     comments st = [] /\ products st <> []) /\
    (comments st = [] -> products st <> [] ->
     exists p,
       In p (products st) /\
       (forall q, In q (products st) ->
                  (Product.legacyId p <= Product.legacyId q)%Z) /\
       comments (fst (seedStep now st)) = seedDocs now p /\
       map Comment.rating (comments (fst (seedStep now st)))
         = [Some 5%Z; Some 4%Z] /\
       map Comment.productId (comments (fst (seedStep now st)))
         = [Product._id p; Product._id p]) /\
    (comments st <> [] -> fst (seedStep now st) = st).
Proof.
  intros now st.
  destruct (seedStep_cases now st) as [[Hc [p [Hp ->]]]|[Hcase ->]];
    cbn [fst products orders comments withComments].
  - destruct (Product_findOne_sort_min _ _ Hp) as [Hin Hmin].
    split; [reflexivity|]. split; [reflexivity|]. split; [|split].
    + split.
      * intros _. split; [exact Hc|]. intros He. rewrite He in Hin. exact Hin.
      * intros _. rewrite Hc. discriminate.
    + intros _ _. exists p. repeat split; assumption.
    + intros Hne. now elim Hne.
  - split; [reflexivity|]. split; [reflexivity|]. split; [|split].
    + split; [intros H; now elim H|].
      intros [Hc Hp]. destruct Hcase as [H|H]; [now elim H | now elim Hp].
    + intros Hc Hp. destruct Hcase as [H|H]; [now elim H | now elim Hp].
    + reflexivity.
Qed.

(** C5 at the sample shop, whose Comments collection is empty. *)
Lemma C5_seeding_witness :
  exists p,
    In p (products Sample.shop) /\
    map Comment.rating (comments (fst (seedStep 1700000000001%Z Sample.shop)))
      = [Some 5%Z; Some 4%Z].
Proof.
  destruct (C5_seeding 1700000000001%Z Sample.shop) as (_ & _ & _ & H & _).
  destruct H as (p & Hin & _ & _ & Hr & _); [reflexivity | discriminate |].
  exists p. split; [exact Hin | exact Hr].
Defined.

(** ** Migration *)

Lemma Product_findOne_Some (L : Z) (ps : list Product.t) :
  (exists q, In q ps /\ Product.legacyId q = L) ->
  exists p, Product_findOne L ps = Some p.
Proof.
  intros [q [Hin Hq]]. unfold Product_findOne.
  destruct (find _ ps) as [p|] eqn:E; [now exists p|].
  apply (find_none _ _ E) in Hin. cbv beta in Hin.
  rewrite Hq, Z.eqb_refl in Hin. discriminate.
Qed.

Lemma migrateProducts_migrated (now : Date) (legacy : list LegacyProduct.t)
  (st : Store) :
  FullyMigrated legacy st -> migrateProducts now legacy st = (st, Normal).
Proof.
  unfold FullyMigrated.
  induction legacy as [|p rest IH]; intros H; cbn [migrateProducts];
    [reflexivity|].
  assert (Hp : exists q, In q (products st) /\
                         Product.legacyId q = LegacyProduct.id p)
    by (apply H; now left).
  destruct (Product_findOne_Some _ _ Hp) as [q ->].
  apply IH. intros p' Hp'. apply H. now right.
Qed.

Lemma migrateStep_migrated (now : Date) (legacy : list LegacyProduct.t)
  (st : Store) :
  FullyMigrated legacy st -> migrateStep now legacy st = (st, Normal).
Proof.
  intros H. unfold migrateStep.
  destruct (_ <? _)%nat; [now apply migrateProducts_migrated | reflexivity].
Qed.

Lemma seedStep_settled (now now' : Date) (st : Store) :
  seedStep now' (fst (seedStep now st)) = (fst (seedStep now st), Normal).
Proof.
  destruct (seedStep_cases now st) as [[_ [p [_ ->]]]|[Hcase ->]]; cbn [fst].
  - reflexivity.
  - destruct (seedStep_cases now' st) as [[Hc [p [Hp _]]]|[_ ->]];
      [|reflexivity].
    exfalso. destruct Hcase as [H|H]; [now elim H|].
    rewrite H in Hp. discriminate.
Qed.

(** C6 (as the code has it). On a store in which every legacy record already
    has its Product, a run of the pipeline creates no Product and migrates no
    Comment: it does what the seeding step alone does. So it changes nothing
    when the Comments collection is non-empty, and otherwise (empty
    Comments, some Product) adds the two seed comments; a further run after
    it changes nothing. *)
Theorem C6_migration_idempotent :
  forall now now' legacy st,
    FullyMigrated legacy st ->
    migrateStep now legacy st = (st, Normal) /\
    migrateAndSeed now legacy st = fst (seedStep now st) /\
    products (migrateAndSeed now legacy st) = products st /\
    (comments st <> [] -> migrateAndSeed now legacy st = st) /\
    (comments (migrateAndSeed now legacy st) = comments st \/
     comments st = [] /\
     exists p, comments (migrateAndSeed now legacy st) = seedDocs now p) /\
    migrateAndSeed now' legacy (migrateAndSeed now legacy st)
      = migrateAndSeed now legacy st.
Proof.
  intros now now' legacy st H.
  assert (Hrun : forall t, migrateAndSeed t legacy st = fst (seedStep t st)).
  { intros t. unfold migrateAndSeed. now rewrite (migrateStep_migrated t _ _ H). }
  assert (Hprod : products (fst (seedStep now st)) = products st).
  { destruct (seedStep_cases now st) as [[_ [p [_ ->]]]|[_ ->]]; reflexivity. }
  split; [now apply migrateStep_migrated|].
  split; [apply Hrun|]. rewrite Hrun.
  split; [exact Hprod|]. split; [|split].
  - intros Hne.
    destruct (seedStep_cases now st) as [[Hc _]|[_ ->]];
      [now elim Hne | reflexivity].
  - destruct (seedStep_cases now st) as [[Hc [p [_ ->]]]|[_ ->]]; cbn [fst].
    + right. split; [exact Hc|]. now exists p.
    + now left.
  - assert (H' : FullyMigrated legacy (fst (seedStep now st))).
    { unfold FullyMigrated. rewrite Hprod. exact H. }
    unfold migrateAndSeed at 1.
    rewrite (migrateStep_migrated now' _ _ H'), seedStep_settled.
    reflexivity.
Qed.

(** C6 at the sample shop after a five-star review: the legacy record of
    product 7 is migrated and a Comment exists, so the run changes nothing. *)
Lemma C6_migration_idempotent_witness :
  migrateAndSeed 1700000000005%Z [Sample.legacyGhee]
    (withComments [Sample.rated 5] Sample.shop)
  = withComments [Sample.rated 5] Sample.shop.
Proof.
  assert (H : FullyMigrated [Sample.legacyGhee]
                (withComments [Sample.rated 5] Sample.shop)).
  { intros p [<-|[]]. exists Sample.ghee. split; [now left | reflexivity]. }
  destruct (C6_migration_idempotent 1700000000005%Z 1700000000006%Z _ _ H)
    as (_ & _ & _ & Hsame & _).
  apply Hsame. discriminate.
Defined.

(** C6 as stated fails: the sample shop holds the Product of the only legacy
    record and no Comment; the pipeline run creates two Comments. The same
    happens on a store that the pipeline itself produced: a first run over
    the empty store creates the Product, the insertion of its embedded review
    is rejected by validation, which ends that run before the seeding; the
    store is then fully migrated, and the next run creates two Comments. *)
Lemma C6_counterexample :
  (FullyMigrated [Sample.legacyGhee] Sample.shop /\
   comments Sample.shop = [] /\
   products (migrateAndSeed 1700000000005%Z [Sample.legacyGhee] Sample.shop)
     = products Sample.shop /\
   List.length
     (comments (migrateAndSeed 1700000000005%Z [Sample.legacyGhee] Sample.shop))
     = 2%nat) /\
  (let st1 := migrateAndSeed 1700000000005%Z [Sample.legacyGheeStarsOnly]
                Sample.empty in
   FullyMigrated [Sample.legacyGheeStarsOnly] st1 /\
   comments st1 = [] /\
   List.length
     (comments (migrateAndSeed 1700000000006%Z [Sample.legacyGheeStarsOnly] st1))
     = 2%nat).
Proof.
  split.
  - split; [|repeat split].
    intros p [<-|[]]. exists Sample.ghee. split; [now left | reflexivity].
  - cbv zeta. split; [|split; reflexivity].
    intros p [<-|[]]. eexists. split; [left; reflexivity | reflexivity].
Qed.

(** ** Product creation *)

Lemma Product_create_ids (oid : ObjectId) (o : Product.init) (p : Product.t) :
  Product.create oid o = Some p ->
  Product._id p = oid /\ Product.legacyId p = Product.i_legacyId o.
Proof.
  unfold Product.create.
  destruct (Product.i_name o); [|discriminate].
  destruct (Product.i_price o); [|discriminate].
  destruct (_ && _ && _ && _); [|discriminate].
  intros [= <-]. split; reflexivity.
Qed.

Lemma Product_findOne_None (L : Z) (ps : list Product.t) :
  Product_findOne L ps = None <-> ~ In L (map Product.legacyId ps).
Proof.
  unfold Product_findOne. split.
  - intros H Hin. apply in_map_iff in Hin as [p [Hp Hin]].
    apply (find_none _ _ H) in Hin. cbv beta in Hin.
    rewrite Hp, Z.eqb_refl in Hin. discriminate.
  - intros H. destruct (find _ ps) as [p|] eqn:E; [|reflexivity].
    exfalso. apply H. apply find_some in E as [Hin Hp].
    apply Z.eqb_eq in Hp. rewrite <- Hp. now apply in_map.
Qed.

Lemma Product_findById_None (oid : ObjectId) (ps : list Product.t) :
  Product_findById oid ps = None <-> ~ In oid (map Product._id ps).
Proof.
  unfold Product_findById. split.
  - intros H Hin. apply in_map_iff in Hin as [p [Hp Hin]].
    apply (find_none _ _ H) in Hin. cbv beta in Hin.
    rewrite Hp, N.eqb_refl in Hin. discriminate.
  - intros H. destruct (find _ ps) as [p|] eqn:E; [|reflexivity].
    exfalso. apply H. apply find_some in E as [Hin Hp].
    apply N.eqb_eq in Hp. rewrite <- Hp. now apply in_map.
Qed.

(** A save that goes through appends the document; its [_id] is the chosen
    one or the next generated one. *)
Lemma Product_save_effect (o : Product.init) (p : Product.t) (st st' : Store) :
  Product_save o st = Some (p, st') ->
  st' = {| products := products st ++ [p]; comments := comments st;
           orders := orders st;
           nextId := N.max (nextId st) (N.succ (Product._id p)) |} /\
  Product._id p = match Product.i_id o with
                  | Some chosen => chosen
                  | None => nextId st
                  end /\
  Product.legacyId p = Product.i_legacyId o.
Proof.
  unfold Product_save.
  destruct (Product.create _ o) as [q|] eqn:E; [|discriminate].
  apply Product_create_ids in E as [Hid HL].
  destruct (Product_findOne _ _); [discriminate|].
  destruct (Product.i_id o) as [chosen|];
    [destruct (Product_findById chosen _); [discriminate|]|];
    intros [= <- <-]; rewrite Hid; now repeat split.
Qed.

(** A save that goes through met no document with its [legacyId], and none
    with its [_id] when the [_id] was chosen. *)
Lemma Product_save_unique (o : Product.init) (p : Product.t) (st st' : Store) :
  Product_save o st = Some (p, st') ->
  Product_findOne (Product.i_legacyId o) (products st) = None /\
  forall chosen, Product.i_id o = Some chosen ->
                 Product_findById chosen (products st) = None.
Proof.
  unfold Product_save.
  destruct (Product.create _ o) as [q|] eqn:E; [|discriminate].
  apply Product_create_ids in E as [_ HL]. rewrite HL.
  destruct (Product_findOne _ _); [discriminate|].
  destruct (Product.i_id o) as [chosen|].
  - destruct (Product_findById chosen _) eqn:Hb; [discriminate|].
    intros _. split; [reflexivity|]. now intros k [= <-].
  - intros _. split; [reflexivity | discriminate].
Qed.

Lemma Product_save_created (o : Product.init) (p : Product.t) (st st' : Store) :
  Product_save o st = Some (p, st') ->
  exists oid, Product.create oid o = Some p.
Proof.
  unfold Product_save.
  generalize (match Product.i_id o with
              | Some chosen => chosen
              | None => nextId st
              end).
  intros oid. destruct (Product.create oid o) as [q|] eqn:E; [|discriminate].
  destruct (Product_findOne _ _); [discriminate|].
  destruct (Product.i_id o) as [chosen|];
    [destruct (Product_findById chosen _); [discriminate|]|];
    intros [= <- _]; now exists oid.
Qed.

Lemma createProduct_cases (now : Date) (header query : option string)
  (body : ProductBody.t) (st : Store) :
  (fst (createProduct now header query body st) = st /\
   forall p, snd (createProduct now header query body st) <> Status201 p) \/
  (exists p,
      createProduct now header query body st
      = ({| products := products st ++ [p]; comments := comments st;
            orders := orders st;
            nextId := N.max (nextId st) (N.succ (Product._id p)) |},
         Status201 p) /\
      Product.legacyId p = newLegacyId (products st) /\
      Product._id p = match ProductBody._id body with
                      | Some chosen => chosen
                      | None => nextId st
                      end /\
      Product_findOne (Product.legacyId p) (products st) = None /\
      (forall chosen, ProductBody._id body = Some chosen ->
                      Product_findById chosen (products st) = None)).
Proof.
  unfold createProduct.
  destruct (adminAuth header query); cbn [negb];
    [|left; split; [reflexivity | discriminate]].
  match goal with |- context [Product_save ?o st] =>
    destruct (Product_save o st) as [[p st']|] eqn:E end;
    [|left; split; [reflexivity | discriminate]].
  right. exists p.
  pose proof (Product_save_unique _ _ _ _ E) as [Hnone Hfree].
  apply Product_save_effect in E as (-> & Hid & HL).
  cbn [Product.i_id Product.i_legacyId] in Hid, HL, Hnone, Hfree.
  split; [reflexivity|]. split; [exact HL|]. split; [exact Hid|].
  split; [now rewrite HL | exact Hfree].
Qed.









(** ** Start-up with an unreadable legacy file *)

(** C8. When [products.json] cannot be read the legacy list is empty: start-up
    does not exit, the migration step writes nothing, no Product is created
    and no Comment is migrated. The seeding step still runs on the untouched
    store: the run changes nothing when the store holds a Comment or holds
    no Product, and otherwise inserts the two seed comments for the Product
    with the least legacyId. (When the file parses to [null] the read block
    also ends in its [catch]; start-up then reaches [app.listen] with the
    store as it was.) *)
Theorem C8_unreadable_legacy_file :
  forall now st,
    startServer now JsonNull true st = Listening st /\
    startServer now Unreadable true st = Listening (migrateAndSeed now [] st) /\
    startServer now Unreadable true st <> Exit1 /\
    migrateStep now [] st = (st, Normal) /\
    migrateAndSeed now [] st = fst (seedStep now st) /\
    products (migrateAndSeed now [] st) = products st /\
    orders (migrateAndSeed now [] st) = orders st /\
    (comments st <> [] -> migrateAndSeed now [] st = st) /\
    (products st = [] -> migrateAndSeed now [] st = st) /\
    (comments st = [] -> products st <> [] ->
     exists p,
       In p (products st) /\
       (forall q, In q (products st) ->
                  (Product.legacyId p <= Product.legacyId q)%Z) /\
       comments (migrateAndSeed now [] st) = seedDocs now p).
Proof.
  intros now st.
  assert (Hstep : migrateStep now [] st = (st, Normal)).
  { unfold migrateStep. cbn [List.length].
    destruct (_ <? 0)%nat eqn:E; [|reflexivity].
    apply Nat.ltb_lt in E. lia. }
  assert (Hrun : migrateAndSeed now [] st = fst (seedStep now st)).
  { unfold migrateAndSeed. now rewrite Hstep. }
  split; [reflexivity|]. split; [reflexivity|]. split; [discriminate|].
  split; [exact Hstep|]. split; [exact Hrun|]. rewrite Hrun.
  destruct (seedStep_cases now st) as [[Hc [p [Hp ->]]]|[Hwhy ->]]; cbn [fst].
  - split; [reflexivity|]. split; [reflexivity|].
    split; [intros H; now elim H|]. split.
    + intros He. rewrite He in Hp. discriminate.
    + intros _ _. exists p. apply Product_findOne_sort_min in Hp as [Hin Hmin].
      now repeat split.
  - repeat (split; [reflexivity|]). intros Hc Hp. now destruct Hwhy.
Qed.

(** C8 at a store with a product and a comment: start-up with an unreadable
    file leaves the store as it is and the server listens. *)
Lemma C8_unreadable_legacy_file_witness :
  startServer 1700000000005%Z Unreadable true
    (withComments [Sample.rated 5] Sample.shop)
  = Listening (withComments [Sample.rated 5] Sample.shop).
Proof.
  destruct (C8_unreadable_legacy_file 1700000000005%Z
              (withComments [Sample.rated 5] Sample.shop))
    as (_ & Hstart & _ & _ & _ & _ & _ & Hsame & _).
  rewrite Hstart. rewrite Hsame; [reflexivity | discriminate].
Defined.

(** C8 as stated fails: the run is not a no-op. With an unreadable file and
    a store that holds a Product and no Comment, start-up reaches
    [app.listen] with two Comments in the store. *)
Lemma C8_counterexample :
  comments Sample.shop = [] /\
  exists st' : Store,
    startServer 1700000000005%Z Unreadable true Sample.shop = Listening st' /\
    products st' = products Sample.shop /\
    comments st' = seedDocs 1700000000005%Z Sample.ghee /\
    List.length (comments st') = 2%nat /\
    st' <> Sample.shop.
Proof.
  split; [reflexivity|]. eexists. split; [reflexivity|].
  split; [reflexivity|]. split; [reflexivity|]. split; [reflexivity|].
  intros H. apply (f_equal comments) in H. discriminate.
Qed.

(** * Beyond the specification: further properties of the code *)

(** ** Trimming and lower-casing *)

Lemma trimStart_noLeading (s : string) : startsWithSpace (JS.trimStart s) = false.
Proof.
  induction s as [|c s IH]; simpl; [reflexivity|].
  destruct (JS.isWhiteSpace c) eqn:E; [exact IH | simpl; exact E].
Qed.

Lemma trimStart_fixed (s : string) :
  startsWithSpace s = false -> JS.trimStart s = s.
Proof. destruct s as [|c s]; simpl; [reflexivity | now intros ->]. Qed.

Lemma trimEnd_fixed (s : string) :
  endsWithSpace s = false -> JS.trimEnd s = s.
Proof.
  induction s as [|c s IH]; [reflexivity|].
  cbn [endsWithSpace JS.trimEnd]. destruct s as [|d s].
  - simpl. now intros ->.
  - intros H. rewrite (IH H). reflexivity.
Qed.

Lemma trimEnd_noTrailing (s : string) : endsWithSpace (JS.trimEnd s) = false.
Proof.
  induction s as [|c s IH]; [reflexivity|]. cbn [JS.trimEnd].
  destruct (JS.trimEnd s) as [|d t] eqn:E.
  - destruct (JS.isWhiteSpace c) eqn:Ec; simpl; [reflexivity | exact Ec].
  - exact IH.
Qed.

Lemma trimEnd_noLeading (s : string) :
  startsWithSpace s = false -> startsWithSpace (JS.trimEnd s) = false.
Proof.
  destruct s as [|c s]; [reflexivity|]. cbn [JS.trimEnd startsWithSpace].
  intros Hc. destruct (JS.trimEnd s); [|exact Hc].
  rewrite Hc. exact Hc.
Qed.

Lemma trim_fixed (s : string) :
  startsWithSpace s = false -> endsWithSpace s = false -> JS.trim s = s.
Proof.
  intros H1 H2. unfold JS.trim. now rewrite (trimStart_fixed _ H1), trimEnd_fixed.
Qed.

Lemma trim_noLeading (s : string) : startsWithSpace (JS.trim s) = false.
Proof. apply trimEnd_noLeading, trimStart_noLeading. Qed.

Lemma trim_noTrailing (s : string) : endsWithSpace (JS.trim s) = false.
Proof. apply trimEnd_noTrailing. Qed.

Lemma trim_idempotent (s : string) : JS.trim (JS.trim s) = JS.trim s.
Proof. apply trim_fixed; [apply trim_noLeading | apply trim_noTrailing]. Qed.

(** [trim] strips exactly the white space at both ends: its result neither
    starts nor ends with white space, a string that neither starts nor ends
    with white space is returned as it is, and what is stripped is white
    space around the result. *)
Theorem trim_strips (s : string) :
  startsWithSpace (JS.trim s) = false /\
  endsWithSpace (JS.trim s) = false /\
  (startsWithSpace s = false -> endsWithSpace s = false -> JS.trim s = s) /\
  exists pre post : string,
    s = (pre ++ JS.trim s ++ post)%string /\
    isBlank pre = true /\ isBlank post = true.
Proof.
  split; [apply trim_noLeading|]. split; [apply trim_noTrailing|].
  split; [apply trim_fixed|].
  assert (Hs : forall t, exists pre, t = (pre ++ JS.trimStart t)%string /\
                                     isBlank pre = true).
  { induction t as [|c t [pre [Ht Hp]]]; [now exists ""%string|].
    simpl. destruct (JS.isWhiteSpace c) eqn:E.
    - exists (String c pre). simpl. rewrite E, Hp. split; [now f_equal | reflexivity].
    - now exists ""%string. }
  assert (He : forall t, exists post, t = (JS.trimEnd t ++ post)%string /\
                                      isBlank post = true).
  { induction t as [|c t [post [Ht Hp]]]; [now exists ""%string|].
    cbn [JS.trimEnd]. destruct (JS.trimEnd t) as [|d u] eqn:E.
    - destruct (JS.isWhiteSpace c) eqn:Ec.
      + exists (String c post). simpl in Ht. subst t. simpl. now rewrite Ec, Hp.
      + exists post. simpl in *. now subst t.
    - exists post. simpl. split; [now f_equal | exact Hp]. }
  destruct (Hs s) as [pre [Hpre Hb]].
  destruct (He (JS.trimStart s)) as [post [Hpost Hb']].
  exists pre, post. unfold JS.trim. split; [|now split].
  now rewrite <- Hpost.
Qed.

Lemma trim_strips_witness :
  JS.trim "Krishna Das" = "Krishna Das"%string.
Proof.
  apply (proj1 (proj2 (proj2 (trim_strips "Krishna Das")))); reflexivity.
Defined.

Lemma lowerChar_idempotent (c : ascii) :
  JS.lowerChar (JS.lowerChar c) = JS.lowerChar c.
Proof. destruct c as [[] [] [] [] [] [] [] []]; reflexivity. Qed.

Lemma lowerChar_whiteSpace (c : ascii) :
  JS.isWhiteSpace (JS.lowerChar c) = JS.isWhiteSpace c.
Proof. destruct c as [[] [] [] [] [] [] [] []]; reflexivity. Qed.

Lemma toLowerCase_idempotent (s : string) :
  JS.toLowerCase (JS.toLowerCase s) = JS.toLowerCase s.
Proof.
  induction s as [|c s IH]; simpl; [reflexivity|].
  now rewrite lowerChar_idempotent, IH.
Qed.

Lemma toLowerCase_app (s t : string) :
  JS.toLowerCase (s ++ t) = (JS.toLowerCase s ++ JS.toLowerCase t)%string.
Proof. induction s as [|c s IH]; simpl; [reflexivity | now rewrite IH]. Qed.

Lemma toLowerCase_trimStart (s : string) :
  JS.toLowerCase (JS.trimStart s) = JS.trimStart (JS.toLowerCase s).
Proof.
  induction s as [|c s IH]; simpl; [reflexivity|].
  rewrite lowerChar_whiteSpace. now destruct (JS.isWhiteSpace c).
Qed.

Lemma toLowerCase_trimEnd (s : string) :
  JS.toLowerCase (JS.trimEnd s) = JS.trimEnd (JS.toLowerCase s).
Proof.
  induction s as [|c s IH]; [reflexivity|].
  cbn [JS.trimEnd JS.toLowerCase]. rewrite <- IH.
  destruct (JS.trimEnd s) as [|d t]; cbn [JS.toLowerCase].
  - rewrite lowerChar_whiteSpace. now destruct (JS.isWhiteSpace c).
  - reflexivity.
Qed.

Lemma toLowerCase_trim (s : string) :
  JS.toLowerCase (JS.trim s) = JS.trim (JS.toLowerCase s).
Proof. unfold JS.trim. now rewrite toLowerCase_trimEnd, toLowerCase_trimStart. Qed.

Lemma toLowerCase_empty (s : string) :
  JS.toLowerCase s = ""%string <-> s = ""%string.
Proof. destruct s; simpl; split; congruence. Qed.

Lemma toLowerCase_startsWithSpace (s : string) :
  startsWithSpace (JS.toLowerCase s) = startsWithSpace s.
Proof. destruct s; simpl; [reflexivity | apply lowerChar_whiteSpace]. Qed.

Lemma toLowerCase_endsWithSpace (s : string) :
  endsWithSpace (JS.toLowerCase s) = endsWithSpace s.
Proof.
  induction s as [|c s IH]; [reflexivity|].
  cbn [JS.toLowerCase endsWithSpace]. destruct s as [|d s].
  - apply lowerChar_whiteSpace.
  - exact IH.
Qed.

Lemma startsWithSpace_app (s t : string) :
  s <> ""%string -> startsWithSpace (s ++ t) = startsWithSpace s.
Proof. destruct s; [easy | reflexivity]. Qed.

Lemma endsWithSpace_app (s t : string) :
  t <> ""%string -> endsWithSpace (s ++ t) = endsWithSpace t.
Proof.
  intros Ht. induction s as [|c s IH]; [reflexivity|].
  cbn [append endsWithSpace]. destruct (s ++ t)%string eqn:E; [|exact IH].
  destruct s; simpl in E; [now elim Ht | discriminate].
Qed.

(** ** Purchase Matcher: robustness *)

(** X1. The verification does not depend on the letter case of the reviewer
    name nor on white space around it, and it can only turn from false to
    true when further orders are recorded. *)
Theorem isVerifiedPurchase_stable :
  forall (os : list Order.t) (L : Z) (R : string),
    isVerifiedPurchase os L (JS.toLowerCase R) = isVerifiedPurchase os L R /\
    isVerifiedPurchase os L (JS.trim R) = isVerifiedPurchase os L R /\
    (forall os' : list Order.t,
        incl os os' ->
        isVerifiedPurchase os L R = true ->
        isVerifiedPurchase os' L R = true).
Proof.
  intros os L R. split; [|split].
  - unfold isVerifiedPurchase, isVerified.
    now rewrite toLowerCase_idempotent.
  - unfold isVerifiedPurchase, isVerified.
    now rewrite toLowerCase_trim, trim_idempotent.
  - intros os' Hincl H. apply isVerifiedPurchase_iff.
    apply isVerifiedPurchase_iff in H as [o [Hin H]].
    exists o. split; [now apply Hincl | exact H].
Qed.

Lemma isVerifiedPurchase_stable_witness :
  isVerifiedPurchase (Sample.order :: [Sample.order]) 7 "Krishna" = true.
Proof.
  apply (proj2 (proj2 (isVerifiedPurchase_stable [Sample.order] 7%Z
                         "Krishna"%string))).
  - intros o [<-|[]]. now left.
  - reflexivity.
Defined.

(** ** Admin authentication *)

(** X2. The admin secret is taken from the header when the header is present and
    not empty, and from the query string only otherwise: a wrong header is
    not rescued by the right query parameter. A request that fails the check
    is answered with 401 and writes nothing. *)
Theorem adminAuth_decides :
  forall header query : option string,
    (adminAuth header query = true <->
     header = Some ADMIN_SECRET \/
     ((header = None \/ header = Some ""%string) /\
      query = Some ADMIN_SECRET)) /\
    (adminAuth header query = false ->
     forall now body id st,
       createProduct now header query body st = (st, Status401) /\
       deleteProduct header query id st = (st, Delete401)).
Proof.
  intros header query. split.
  - unfold adminAuth. destruct header as [h|].
    + destruct h as [|c h]; cbn [JS.truthyString].
      * destruct query as [q|].
        -- rewrite String.eqb_eq. split.
           ++ intros ->. right. split; [now right | reflexivity].
           ++ intros [H|[_ H]]; [discriminate | congruence].
        -- split; [discriminate|]. intros [H|[_ H]]; discriminate.
      * rewrite String.eqb_eq. split.
        -- intros ->. now left.
        -- intros [H|[[H|H] _]]; [congruence | discriminate | discriminate].
    + destruct query as [q|].
      * rewrite String.eqb_eq. split.
        -- intros ->. right. split; [now left | reflexivity].
        -- intros [H|[_ H]]; [discriminate | congruence].
      * split; [discriminate|]. intros [H|[_ H]]; discriminate.
  - intros H now body id st. unfold createProduct, deleteProduct.
    rewrite H. split; reflexivity.
Qed.

Lemma adminAuth_decides_witness :
  createProduct 1700000000000%Z (Some "guess"%string) (Some ADMIN_SECRET)
    Sample.honey Sample.empty = (Sample.empty, Status401).
Proof.
  apply (proj2 (adminAuth_decides (Some "guess"%string) (Some ADMIN_SECRET))
           eq_refl 1700000000000%Z Sample.honey None Sample.empty).
Defined.

(** ** Error answers write nothing *)

Lemma submitReview_cases (now : Date) (id : option Z) (body : ReviewBody.t)
  (st : Store) :
  (fst (submitReview now id body st) = st /\
   forall r, snd (submitReview now id body st) <> Status201 r) \/
  (exists st' r, submitReview now id body st = (st', Status201 r)).
Proof.
  unfold submitReview.
  destruct (ReviewBody.user body); [|left; split; [reflexivity|discriminate]].
  destruct (ReviewBody.rating body); [|left; split; [reflexivity|discriminate]].
  destruct (ReviewBody.comment body); [|left; split; [reflexivity|discriminate]].
  destruct (_ || _ || _ || _ || _); [left; split; [reflexivity|discriminate]|].
  destruct id; [|left; split; [reflexivity|discriminate]].
  destruct (Product_findOne _ _); [|left; split; [reflexivity|discriminate]].
  destruct (Comment_save _ _); [|left; split; [reflexivity|discriminate]].
  right. destruct (Comment_aggregate _ _); eauto.
Qed.

Lemma deleteProduct_cases (header query : option string)
  (id : option ObjectId) (st : Store) :
  (fst (deleteProduct header query id st) = st /\
   snd (deleteProduct header query id st) <> Deleted200) \/
  (exists oid d rest,
      id = Some oid /\
      Product_remove oid (products st) = Some (d, rest) /\
      deleteProduct header query id st = (withProducts rest st, Deleted200)).
Proof.
  unfold deleteProduct, Product_findByIdAndDelete.
  destruct (adminAuth header query); cbn [negb];
    [|left; split; [reflexivity|discriminate]].
  destruct id as [oid|]; [|left; split; [reflexivity|discriminate]].
  destruct (Product_remove oid (products st)) as [[d rest]|] eqn:E;
    [|left; split; [reflexivity|discriminate]].
  right. now exists oid, d, rest.
Qed.

Lemma createOrder_cases (now : Date) (body : OrderBody.t) (st : Store) :
  (fst (createOrder now body st) = st /\
   forall oid, snd (createOrder now body st) <> Status201 oid) \/
  (exists items total user newOrder,
      OrderBody.items body = Some items /\
      OrderBody.total body = Some total /\
      OrderBody.user body = Some user /\
      Order_create now (makeOrderId now) user total items = Some newOrder /\
      Order_save newOrder st = Some (withOrders (orders st ++ [newOrder]) st) /\
      createOrder now body st
      = (withOrders (orders st ++ [newOrder]) st,
         Status201 (Order.orderId newOrder))).
Proof.
  unfold createOrder.
  destruct (OrderBody.items body) as [items|];
    [|left; split; [reflexivity|discriminate]].
  destruct (OrderBody.total body) as [total|];
    [|left; split; [reflexivity|discriminate]].
  destruct (OrderBody.user body) as [user|];
    [|left; split; [reflexivity|discriminate]].
  destruct (_ || _); [left; split; [reflexivity|discriminate]|].
  destruct (Order_create _ _ _ _ _) as [newOrder|] eqn:Ec;
    [|left; split; [reflexivity|discriminate]].
  destruct (Order_save newOrder st) as [st'|] eqn:Es;
    [|left; split; [reflexivity|discriminate]].
  right. exists items, total, user, newOrder.
  repeat (split; [reflexivity || assumption|]).
  unfold Order_save in Es |- *. destruct (existsb _ _); [discriminate|].
  injection Es as <-. split; reflexivity.
Qed.

(** X3. A handler that does not answer with its success status leaves the store
    exactly as it found it. *)
Theorem errors_write_nothing :
  forall st : Store,
    (forall now id body,
        (forall r, snd (submitReview now id body st) <> Status201 r) ->
        fst (submitReview now id body st) = st) /\
    (forall now id body,
        (forall c, snd (postComment now id body st) <> Status201 c) ->
        fst (postComment now id body st) = st) /\
    (forall now header query body,
        (forall p, snd (createProduct now header query body st) <> Status201 p) ->
        fst (createProduct now header query body st) = st) /\
    (forall header query id,
        snd (deleteProduct header query id st) <> Deleted200 ->
        fst (deleteProduct header query id st) = st) /\
    (forall now body,
        (forall oid, snd (createOrder now body st) <> Status201 oid) ->
        fst (createOrder now body st) = st).
Proof.
  intros st. repeat split.
  - intros now id body H.
    destruct (submitReview_cases now id body st) as [[Hst _]|[st' [r Hr]]];
      [exact Hst|].
    exfalso. apply (H r). now rewrite Hr.
  - intros now id body H.
    destruct (postComment_cases now id body st)
      as [[Hst _]|(productId & u & c & _ & _ & _ & Hr)]; [exact Hst|].
    exfalso. cbv zeta in Hr. eapply H. rewrite Hr. reflexivity.
  - intros now header query body H.
    destruct (createProduct_cases now header query body st)
      as [[Hst _]|[p [Hr _]]]; [exact Hst|].
    exfalso. apply (H p). now rewrite Hr.
  - intros header query id H.
    destruct (deleteProduct_cases header query id st)
      as [[Hst _]|(oid & d & rest & _ & _ & Hr)]; [exact Hst|].
    exfalso. apply H. now rewrite Hr.
  - intros now body H.
    destruct (createOrder_cases now body st)
      as [[Hst _]|(items & total & user & o & _ & _ & _ & _ & _ & Hr)];
      [exact Hst|].
    exfalso. apply (H (Order.orderId o)). now rewrite Hr.
Qed.

(** A review for a product that does not exist: 404, nothing written. *)
Lemma errors_write_nothing_witness :
  fst (submitReview 1700000000000%Z (Some 9%Z)
         (Sample.review "Radha" 5 "Lovely") Sample.shop) = Sample.shop.
Proof.
  apply (proj1 (errors_write_nothing Sample.shop)). discriminate.
Defined.

(** ** A name or text of white space only *)

Lemma trim_blank_make (now : Date) (o : Comment.init) :
  isBlank (Comment.i_username o) = true \/ isBlank (Comment.i_comment o) = true ->
  Comment.validate (Comment.make now o) = false.
Proof.
  intros [H|H]; unfold Comment.validate, Comment.make; cbn [Comment.username
    Comment.comment Comment.rating]; rewrite (JSFacts.trim_blank _ H);
    cbn [JS.truthyString andb]; [reflexivity|].
  now rewrite andb_false_r.
Qed.

(** X4. A user name or comment text made of white space only gets past the
    guard of both comment endpoints (it is not the empty string), and is then
    refused by the schema, whose [trim] leaves nothing for [required]: the
    answer is 500 instead of 400, and nothing is written. *)
Theorem blank_text_is_a_server_error :
  forall now st user comment,
    user <> ""%string -> comment <> ""%string ->
    isBlank user = true \/ isBlank comment = true ->
    (forall L product rating,
        1 <= rating -> rating <= 5 ->
        Product_findOne L (products st) = Some product ->
        submitReview now (Some L)
          (ReviewBody.mk (Some user) (Some rating) (Some comment)) st
        = (st, Status500)) /\
    (forall oid product rating,
        Product_findById oid (products st) = Some product ->
        postComment now (Some oid)
          (CommentBody.mk (Some user) (Some comment) rating) st
        = (st, Status500)).
Proof.
  intros now st user comment Hu Hc Hblank. split.
  - intros L product rating H1 H5 Hfind. unfold submitReview.
    cbn [ReviewBody.user ReviewBody.rating ReviewBody.comment].
    destruct (_ || _ || _ || _ || _) eqn:Hg.
    + exfalso. apply review_guard_iff in Hg as [H|[H|[H|H]]];
        [now apply Hu | now apply Hc | |].
      * now apply Qlt_not_le in H.
      * now apply Qlt_not_le in H.
    + rewrite Hfind. unfold Comment_save.
      rewrite trim_blank_make; [reflexivity | exact Hblank].
  - intros oid product rating Hfind. unfold postComment.
    cbn [CommentBody.username CommentBody.comment].
    destruct user as [|a user]; [now elim Hu|].
    destruct comment as [|b comment]; [now elim Hc|].
    cbn [JS.truthyString negb orb]. rewrite Hfind. unfold Comment_save.
    rewrite trim_blank_make; [reflexivity | exact Hblank].
Qed.

Lemma blank_text_is_a_server_error_witness :
  submitReview 1700000000000%Z (Some 7%Z) (Sample.review "   " 5 "Lovely")
    Sample.shop = (Sample.shop, Status500).
Proof.
  apply (proj1 (blank_text_is_a_server_error 1700000000000%Z Sample.shop
                  "   "%string "Lovely"%string
                  ltac:(discriminate) ltac:(discriminate)
                  (or_introl eq_refl))
           7%Z Sample.ghee 5).
  - discriminate.
  - discriminate.
  - reflexivity.
Defined.

(** ** Every handler is a sequence of elementary writes *)

Lemma Writes_trans (a b c : Store) : Writes a b -> Writes b c -> Writes a c.
Proof.
  induction 1 as [|a a1 b Hw _ IH]; intros H; [exact H|].
  eapply Writes_step; [exact Hw | now apply IH].
Qed.

Lemma Writes_one (a b : Store) : Write a b -> Writes a b.
Proof. intros H. eapply Writes_step; [exact H | apply Writes_refl]. Qed.

Lemma make_stored (now : Date) (o : Comment.init) :
  Comment.validate (Comment.make now o) = true ->
  CommentStored (Comment.make now o).
Proof.
  intros H. split; [exact H|]. split; apply trim_idempotent.
Qed.

Lemma submitReview_writes (now : Date) (id : option Z) (body : ReviewBody.t)
  (st : Store) : Writes st (fst (submitReview now id body st)).
Proof.
  destruct (submitReview_cases now id body st) as [[-> _]|[st' [r H]]];
    [apply Writes_refl|].
  rewrite H. cbn [fst].
  apply submitReview_201 in H
    as (user & rating & comment & L & product & _ & _ & _ & _ & Hfind & Hc
        & Hval & s & _ & -> & _).
  eapply Writes_step; [|apply Writes_one, Write_stats].
  apply (Write_comments [newComment r] product).
  - now apply Product_findOne_In in Hfind.
  - constructor; [|constructor]. rewrite Hc in Hval |- *.
    split; [reflexivity | now apply make_stored].
Qed.

Lemma Product_findById_In (oid : ObjectId) (ps : list Product.t)
  (p : Product.t) :
  Product_findById oid ps = Some p -> In p ps /\ Product._id p = oid.
Proof.
  unfold Product_findById. intros H. apply find_some in H as [Hin H].
  split; [exact Hin | now apply N.eqb_eq].
Qed.

Lemma postComment_writes (now : Date) (id : option ObjectId)
  (body : CommentBody.t) (st : Store) :
  Writes st (fst (postComment now id body st)).
Proof.
  unfold postComment.
  destruct (CommentBody.username body) as [username|]; [|apply Writes_refl].
  destruct (CommentBody.comment body) as [comment|]; [|apply Writes_refl].
  destruct (_ || _); [apply Writes_refl|].
  destruct id as [productId|]; [|apply Writes_refl].
  destruct (Product_findById _ _) as [p|] eqn:Hfind; [|apply Writes_refl].
  unfold Comment_save.
  match goal with |- context [Comment.validate ?c] =>
    destruct (Comment.validate c) eqn:Hval end; [|apply Writes_refl].
  cbn [fst]. apply Writes_one.
  apply Product_findById_In in Hfind as [Hin Hid].
  apply (Write_comments _ p); [exact Hin|].
  constructor; [|constructor].
  split; [now rewrite Hid | now apply make_stored].
Qed.

Lemma createProduct_writes (now : Date) (header query : option string)
  (body : ProductBody.t) (st : Store) :
  Writes st (fst (createProduct now header query body st)).
Proof.
  unfold createProduct.
  destruct (adminAuth header query); cbn [negb]; [|apply Writes_refl].
  match goal with |- context [Product_save ?o st] =>
    destruct (Product_save o st) as [[p st']|] eqn:E end;
    [|apply Writes_refl].
  cbn [fst]. apply Writes_one. eapply Write_product; [|exact E].
  apply (Product_save_unique _ _ _ _ E).
Qed.

Lemma createOrder_writes (now : Date) (body : OrderBody.t) (st : Store) :
  Writes st (fst (createOrder now body st)).
Proof.
  destruct (createOrder_cases now body st)
    as [[-> _]|(items & total & user & o & _ & _ & _ & _ & Hs & ->)];
    [apply Writes_refl|].
  cbn [fst]. apply Writes_one. eapply Write_order. exact Hs.
Qed.

Lemma commentsToCreate_stored (now : Date) (newProduct : Product.t)
  (ows : list Order.t) (reviews : list LegacyReview.t) :
  forallb Comment.validate (commentsToCreate now newProduct ows reviews) = true ->
  Forall (fun c => Comment.productId c = Product._id newProduct /\
                   CommentStored c)
         (commentsToCreate now newProduct ows reviews).
Proof.
  unfold commentsToCreate. induction reviews as [|rv reviews IH];
    cbn [map forallb]; [constructor|].
  intros H. apply andb_true_iff in H as [Hv Hrest].
  constructor; [|now apply IH].
  split; [reflexivity | now apply make_stored].
Qed.

Lemma migrateProducts_writes (now : Date) (ps : list LegacyProduct.t)
  (st : Store) : Writes st (fst (migrateProducts now ps st)).
Proof.
  revert st. induction ps as [|p rest IH]; intros st; cbn [migrateProducts];
    [apply Writes_refl|].
  destruct (Product_findOne (LegacyProduct.id p) (products st)) eqn:Hfind;
    [apply IH|].
  match goal with |- context [Product_save ?o st] =>
    destruct (Product_save o st) as [[newProduct st1]|] eqn:E end;
    [|apply Writes_refl].
  assert (Hw : Write st st1) by (eapply Write_product; [|exact E]; exact Hfind).
  destruct (LegacyProduct.reviews p) as [|rv rvs] eqn:Hrv.
  - eapply Writes_step; [exact Hw | apply IH].
  - unfold Comment_insertMany.
    destruct (forallb _ _) eqn:Hval.
    + eapply Writes_step; [exact Hw|]. eapply Writes_step; [|apply IH].
      apply (Write_comments _ newProduct).
      * apply Product_save_effect in E as [-> _]. cbn [products].
        apply in_or_app. right. now left.
      * now apply commentsToCreate_stored.
    + cbn [fst]. now apply Writes_one.
Qed.

Lemma seedDocs_stored (now : Date) (p : Product.t) :
  Forall (fun c => Comment.productId c = Product._id p /\ CommentStored c)
         (seedDocs now p).
Proof.
  unfold seedDocs. repeat constructor; apply trim_idempotent.
Qed.

Lemma migrateAndSeed_writes (now : Date) (legacy : list LegacyProduct.t)
  (st : Store) : Writes st (migrateAndSeed now legacy st).
Proof.
  unfold migrateAndSeed.
  assert (Hm : Writes st (fst (migrateStep now legacy st))).
  { unfold migrateStep. destruct (_ <? _)%nat;
      [apply migrateProducts_writes | apply Writes_refl]. }
  destruct (migrateStep now legacy st) as [st1 [|]]; cbn [fst] in Hm;
    [|exact Hm].
  eapply Writes_trans; [exact Hm|].
  destruct (seedStep_cases now st1) as [[Hc [p [Hp ->]]]|[_ ->]]; cbn [fst];
    [|apply Writes_refl].
  apply Product_findOne_sort_min in Hp as [Hin _].
  pose proof (Write_comments (seedDocs now p) p st1 Hin (seedDocs_stored now p))
    as Hw.
  rewrite Hc in Hw. now apply Writes_one.
Qed.

(** ** Invariants of the store *)

Lemma Writes_preserve (P : Store -> Prop) :
  (forall st st', Write st st' -> P st -> P st') ->
  forall st st', Writes st st' -> P st -> P st'.
Proof.
  intros Hstep st st' H. induction H as [|a a1 b Hw _ IH]; [easy|].
  intros Ha. apply IH. now apply (Hstep a).
Qed.

Lemma Product_update_ids (p : Product.t) (st : Store) :
  map Product._id (products (Product_update p st))
    = map Product._id (products st) /\
  map Product.legacyId (products (Product_update p st))
    = map Product.legacyId (products st).
Proof.
  unfold Product_update. cbn [products withProducts]. rewrite !map_map.
  split; apply map_ext; intros q;
    now destruct (Product._id q =? Product._id p)%N.
Qed.

Lemma Order_save_effect (o : Order.t) (st st' : Store) :
  Order_save o st = Some st' ->
  st' = withOrders (orders st ++ [o]) st /\
  ~ In (Order.orderId o) (map Order.orderId (orders st)).
Proof.
  unfold Order_save. destruct (existsb _ _) eqn:E; [discriminate|].
  intros [= <-]. split; [reflexivity|]. intros Hin.
  apply in_map_iff in Hin as [o' [Ho' Hin]].
  assert (H : existsb (fun o' => String.eqb (Order.orderId o') (Order.orderId o))
                      (orders st) = true).
  { apply existsb_exists. exists o'. split; [exact Hin|].
    now apply String.eqb_eq. }
  rewrite H in E. discriminate.
Qed.

Lemma NoDup_snoc {A : Type} (l : list A) (x : A) :
  NoDup l -> ~ In x l -> NoDup (l ++ [x]).
Proof.
  intros Hl Hx. apply NoDup_app; [exact Hl | repeat constructor; easy |].
  intros a Ha [<-|[]]. now apply Hx.
Qed.

Lemma Write_UniqueLegacyIds (st st' : Store) :
  Write st st' -> UniqueLegacyIds st -> UniqueLegacyIds st'.
Proof.
  unfold UniqueLegacyIds. intros [o p s s' Hnone Hsave|cs p s _ _|p s|o s s' Hs] H.
  - apply Product_save_effect in Hsave as (-> & _ & HL). cbn [products].
    rewrite map_app. cbn [map]. apply NoDup_snoc; [exact H|].
    rewrite HL. now apply Product_findOne_None.
  - exact H.
  - now rewrite (proj2 (Product_update_ids p s)).
  - apply Order_save_effect in Hs as [-> _]. exact H.
Qed.

Lemma Write_FreshIds (st st' : Store) :
  Write st st' -> FreshIds st -> FreshIds st'.
Proof.
  unfold FreshIds.
  intros [o p s s' _ Hsave|cs p s _ _|p s|o s s' Hs] [Hnd Hlt].
  - pose proof (Product_save_unique _ _ _ _ Hsave) as [_ Hfree].
    apply Product_save_effect in Hsave as (-> & Hid & _).
    cbn [products nextId]. split.
    + rewrite map_app. cbn [map]. apply NoDup_snoc; [exact Hnd|].
      destruct (Product.i_id o) as [chosen|].
      * rewrite Hid. now apply Product_findById_None, Hfree.
      * intros Hin. apply in_map_iff in Hin as [q [Hq Hin]].
        rewrite Forall_forall in Hlt. specialize (Hlt q Hin). lia.
    + apply Forall_app. split.
      * eapply Forall_impl; [|exact Hlt]. intros q Hq. cbv beta in *. lia.
      * constructor; [|constructor]. lia.
  - now split.
  - destruct (Product_update_ids p s) as [Hids _]. split.
    + now rewrite Hids.
    + cbn [nextId Product_update withProducts products].
      rewrite Forall_map. eapply Forall_impl; [|exact Hlt].
      intros q Hq. now destruct (Product._id q =? Product._id p)%N.
  - apply Order_save_effect in Hs as [-> _]. now split.
Qed.

Lemma Write_CommentsStored (st st' : Store) :
  Write st st' -> CommentsStored st -> CommentsStored st'.
Proof.
  unfold CommentsStored.
  intros [o p s s' _ Hsave|cs p s _ Hcs|p s|o s s' Hs] H.
  - apply Product_save_effect in Hsave as (-> & _ & _). exact H.
  - cbn [comments withComments]. apply Forall_app. split; [exact H|].
    eapply Forall_impl; [|exact Hcs]. now intros c [_ Hc].
  - exact H.
  - apply Order_save_effect in Hs as [-> _]. exact H.
Qed.

Lemma Write_NoOrphans (st st' : Store) :
  Write st st' -> NoOrphans st -> NoOrphans st'.
Proof.
  unfold NoOrphans.
  intros [o p s s' _ Hsave|cs p s Hin Hcs|p s|o s s' Hs] H.
  - apply Product_save_effect in Hsave as (-> & _ & _).
    cbn [products comments]. eapply Forall_impl; [|exact H].
    intros c [q [Hq Hid]]. exists q. split; [|exact Hid].
    apply in_or_app. now left.
  - cbn [comments products withComments]. apply Forall_app. split; [exact H|].
    eapply Forall_impl; [|exact Hcs]. intros c [Hc _]. now exists p.
  - cbn [comments Product_update withProducts products].
    eapply Forall_impl; [|exact H]. intros c [q [Hq Hid]]. cbv beta.
    eexists. split; [apply in_map; exact Hq|].
    now destruct (Product._id q =? Product._id p)%N.
  - apply Order_save_effect in Hs as [-> _]. exact H.
Qed.

Lemma Write_UniqueOrderIds (st st' : Store) :
  Write st st' -> UniqueOrderIds st -> UniqueOrderIds st'.
Proof.
  unfold UniqueOrderIds.
  intros [o p s s' _ Hsave|cs p s _ _|p s|o s s' Hs] H.
  - apply Product_save_effect in Hsave as (-> & _ & _). exact H.
  - exact H.
  - exact H.
  - apply Order_save_effect in Hs as [-> Hnew]. cbn [orders withOrders].
    rewrite map_app. cbn [map]. now apply NoDup_snoc.
Qed.

Lemma Product_remove_split (oid : ObjectId) (ps rest : list Product.t)
  (d : Product.t) :
  Product_remove oid ps = Some (d, rest) ->
  exists l1 l2,
    ps = l1 ++ d :: l2 /\ rest = l1 ++ l2 /\ Product._id d = oid /\
    Forall (fun q => Product._id q <> oid) l1.
Proof.
  revert rest. induction ps as [|p ps IH]; intros rest; cbn [Product_remove];
    [discriminate|].
  destruct (Product._id p =? oid)%N eqn:E.
  - intros [= <- <-]. apply N.eqb_eq in E. now exists [], ps.
  - destruct (Product_remove oid ps) as [[d' rest']|]; [|discriminate].
    intros [= <- <-]. destruct (IH rest' eq_refl) as (l1 & l2 & -> & -> & Hd & Hl).
    exists (p :: l1), l2. repeat split; [exact Hd|].
    constructor; [now apply N.eqb_neq | exact Hl].
Qed.

Lemma Product_remove_None (oid : ObjectId) (ps : list Product.t) :
  Product_remove oid ps = None <-> ~ In oid (map Product._id ps).
Proof.
  induction ps as [|p ps IH]; cbn [Product_remove map]; [easy|].
  destruct (Product._id p =? oid)%N eqn:E.
  - apply N.eqb_eq in E. split; [discriminate|]. intros H. elim H. now left.
  - apply N.eqb_neq in E. destruct (Product_remove oid ps) as [[d rest]|].
    + split; [discriminate|]. intros H. exfalso.
      assert (Hn : ~ In oid (map Product._id ps)) by (intros Hin; apply H; now right).
      apply IH in Hn. discriminate.
    + split; [|reflexivity]. intros _ [H|H]; [easy|]. now apply IH in H.
Qed.

Lemma handle_writes (req : Request) (st : Store) :
  isDelete req = false -> Writes st (handle req st).
Proof.
  destruct req; cbn [isDelete handle]; intros H; try discriminate.
  - apply submitReview_writes.
  - apply postComment_writes.
  - apply createProduct_writes.
  - apply createOrder_writes.
  - apply migrateAndSeed_writes.
Qed.

Lemma deleteProduct_effect (header query : option string)
  (id : option ObjectId) (st : Store) :
  fst (deleteProduct header query id st) = st \/
  exists oid d l1 l2,
    id = Some oid /\ products st = l1 ++ d :: l2 /\ Product._id d = oid /\
    Forall (fun q => Product._id q <> oid) l1 /\
    fst (deleteProduct header query id st) = withProducts (l1 ++ l2) st.
Proof.
  destruct (deleteProduct_cases header query id st)
    as [[H _]|(oid & d & rest & Hid & Hrem & ->)]; [now left|].
  right. apply Product_remove_split in Hrem as (l1 & l2 & Hps & -> & Hd & Hl).
  now exists oid, d, l1, l2.
Qed.

(** A property kept by the elementary writes and by deletion is kept by
    every request, hence by every sequence of requests. *)
Lemma run_preserves (P : Store -> Prop) :
  (forall st st', Write st st' -> P st -> P st') ->
  (forall header query id st,
      P st -> P (fst (deleteProduct header query id st))) ->
  forall reqs st, P st -> P (run reqs st).
Proof.
  intros Hw Hd reqs. unfold run.
  induction reqs as [|req reqs IH]; intros st H; cbn [fold_left]; [exact H|].
  apply IH. destruct (isDelete req) eqn:E.
  - destruct req; try discriminate. cbn [handle]. now apply Hd.
  - eapply Writes_preserve; [exact Hw | now apply handle_writes | exact H].
Qed.

Lemma NoDup_map_remove {A B : Type} (f : A -> B) (l1 l2 : list A) (d : A) :
  NoDup (map f (l1 ++ d :: l2)) -> NoDup (map f (l1 ++ l2)).
Proof.
  rewrite !map_app. cbn [map]. apply NoDup_remove_1.
Qed.

(** X5. In every store that the handlers produce from a store with pairwise
    distinct legacy ids and document ids, legacy ids and document ids are
    again pairwise distinct, and every document id lies below the next id to
    be assigned: no request creates a second Product under an id in use. *)
Theorem product_identities_stay_unique :
  forall (reqs : list Request) (st : Store),
    (UniqueLegacyIds st -> UniqueLegacyIds (run reqs st)) /\
    (FreshIds st -> FreshIds (run reqs st)).
Proof.
  intros reqs st. split.
  - apply run_preserves; [apply Write_UniqueLegacyIds|].
    intros header query id s H.
    destruct (deleteProduct_effect header query id s)
      as [->|(oid & d & l1 & l2 & _ & Hps & _ & _ & ->)]; [exact H|].
    unfold UniqueLegacyIds in *. cbn [products withProducts].
    rewrite Hps in H. now apply NoDup_map_remove in H.
  - apply run_preserves; [apply Write_FreshIds|].
    intros header query id s [Hnd Hlt].
    destruct (deleteProduct_effect header query id s)
      as [->|(oid & d & l1 & l2 & _ & Hps & _ & _ & ->)]; [now split|].
    unfold FreshIds. cbn [products withProducts nextId].
    rewrite Hps in Hnd, Hlt. split; [now apply NoDup_map_remove in Hnd|].
    apply Forall_app in Hlt as [H1 H2]. apply Forall_app. split; [exact H1|].
    now inversion H2.
Qed.

Lemma product_identities_stay_unique_witness :
  UniqueLegacyIds (run Demo.traffic Sample.empty) /\
  FreshIds (run Demo.traffic Sample.empty).
Proof.
  split.
  - apply (proj1 (product_identities_stay_unique Demo.traffic Sample.empty)).
    constructor.
  - apply (proj2 (product_identities_stay_unique Demo.traffic Sample.empty)).
    split; constructor.
Defined.

(** X6. Every Comment in the collection satisfies the schema and carries
    trimmed texts, whatever requests were served: its user name and text are
    not empty and neither start nor end with white space, and a rating, if
    set, is between 1 and 5. *)
Theorem comments_stay_well_formed :
  forall (reqs : list Request) (st : Store),
    CommentsStored st ->
    forall c, In c (comments (run reqs st)) ->
      Comment.username c <> ""%string /\
      Comment.comment c <> ""%string /\
      startsWithSpace (Comment.username c) = false /\
      endsWithSpace (Comment.username c) = false /\
      startsWithSpace (Comment.comment c) = false /\
      endsWithSpace (Comment.comment c) = false /\
      (forall r, Comment.rating c = Some r -> (1 <= r <= 5)%Z).
Proof.
  intros reqs st H c Hc.
  assert (Hrun : CommentsStored (run reqs st)).
  { apply run_preserves; [apply Write_CommentsStored | | exact H].
    intros header query id s Hs.
    destruct (deleteProduct_effect header query id s)
      as [->|(oid & d & l1 & l2 & _ & _ & _ & _ & ->)]; exact Hs. }
  unfold CommentsStored in Hrun. rewrite Forall_forall in Hrun.
  destruct (Hrun c Hc) as (Hval & Hu & Ht).
  unfold Comment.validate in Hval.
  apply andb_true_iff in Hval as [Hval Hr].
  apply andb_true_iff in Hval as [Hvu Hvt].
  split; [intros E; rewrite E in Hvu; discriminate|].
  split; [intros E; rewrite E in Hvt; discriminate|].
  rewrite <- Hu, <- Ht.
  split; [apply trim_noLeading|]. split; [apply trim_noTrailing|].
  split; [apply trim_noLeading|]. split; [apply trim_noTrailing|].
  intros r Hrc. rewrite Hrc in Hr. apply andb_true_iff in Hr as [H1 H5].
  apply Z.leb_le in H1, H5. lia.
Qed.

Lemma comments_stay_well_formed_witness :
  Forall (fun c => Comment.username c <> ""%string)
         (comments (run Demo.traffic Sample.empty)).
Proof.
  apply Forall_forall. intros c Hc.
  apply (comments_stay_well_formed Demo.traffic Sample.empty
           (Forall_nil _) c Hc).
Defined.

(** X7. Order ids stay pairwise distinct: an order whose id is in use (a second
    order within the same millisecond) is refused by the unique index. *)
Theorem order_ids_stay_unique :
  (forall (reqs : list Request) (st : Store),
      UniqueOrderIds st -> UniqueOrderIds (run reqs st)) /\
  (forall now body body' st st' oid,
      createOrder now body st = (st', Status201 oid) ->
      createOrder now body' st' = (st', Status400) \/
      createOrder now body' st' = (st', Status500)).
Proof.
  split.
  - intros reqs st. apply run_preserves; [apply Write_UniqueOrderIds|].
    intros header query id s H.
    destruct (deleteProduct_effect header query id s)
      as [->|(oid & d & l1 & l2 & _ & _ & _ & _ & ->)]; exact H.
  - intros now body body' st st' oid H.
    destruct (createOrder_cases now body st)
      as [[_ Hno]|(items & total & user & o & _ & _ & _ & Hc & _ & Hr)].
    { exfalso. apply (Hno oid). now rewrite H. }
    rewrite Hr in H. injection H as <- _.
    assert (Ho : Order.orderId o = makeOrderId now).
    { unfold Order_create in Hc.
      destruct (Customer_create user); [|discriminate].
      destruct (Items_create items); [|discriminate].
      destruct (_ && _); [|discriminate]. now injection Hc as <-. }
    clear Hc Hr. unfold createOrder.
    destruct (OrderBody.items body') as [items'|]; [|now left].
    destruct (OrderBody.total body') as [total'|]; [|now left].
    destruct (OrderBody.user body') as [user'|]; [|now left].
    destruct (_ || _); [now left|]. right.
    destruct (Order_create now (makeOrderId now) user' total' items')
      as [o'|] eqn:Hc'; [|reflexivity].
    assert (Ho' : Order.orderId o' = makeOrderId now).
    { unfold Order_create in Hc'.
      destruct (Customer_create _); [|discriminate].
      destruct (Items_create _); [|discriminate].
      destruct (_ && _); [|discriminate]. now injection Hc' as <-. }
    unfold Order_save. cbn [orders withOrders].
    rewrite existsb_app. cbn [existsb].
    rewrite Ho, Ho', String.eqb_refl, orb_true_r. reflexivity.
Qed.

Lemma order_ids_stay_unique_witness :
  UniqueOrderIds (run Demo.traffic Sample.empty) /\
  snd (createOrder 1700000000002%Z (Demo.orderBody 300)
         (run Demo.traffic Sample.empty)) = Status500.
Proof.
  split.
  - apply (proj1 order_ids_stay_unique Demo.traffic Sample.empty).
    constructor.
  - destruct (proj2 order_ids_stay_unique 1700000000002%Z (Demo.orderBody 300)
                (Demo.orderBody 300)
                (run [Restart 1700000000000%Z [];
                      PostProduct 1700000000001%Z Demo.admin None Sample.honey]
                     Sample.empty)
                (run [Restart 1700000000000%Z [];
                      PostProduct 1700000000001%Z Demo.admin None Sample.honey;
                      PostOrder 1700000000002%Z (Demo.orderBody 300)]
                     Sample.empty)
                "ORD-1700000000002"%string eq_refl) as [H|H];
      [discriminate H | reflexivity].
Defined.

(** X8. As long as no Product is deleted, every Comment references a Product
    that is in the store. *)
Theorem no_orphans_without_delete :
  forall (reqs : list Request) (st : Store),
    forallb (fun req => negb (isDelete req)) reqs = true ->
    NoOrphans st -> NoOrphans (run reqs st).
Proof.
  intros reqs. unfold run.
  induction reqs as [|req reqs IH]; intros st Hreqs H; cbn [fold_left];
    [exact H|].
  cbn [forallb] in Hreqs. apply andb_true_iff in Hreqs as [Hreq Hreqs].
  apply IH; [exact Hreqs|]. apply negb_true_iff in Hreq.
  eapply Writes_preserve;
    [apply Write_NoOrphans | now apply handle_writes | exact H].
Qed.

Lemma no_orphans_without_delete_witness :
  NoOrphans (run Demo.traffic Sample.empty).
Proof.
  apply (no_orphans_without_delete Demo.traffic Sample.empty eq_refl).
  constructor.
Defined.

(** ** Range of the cached rating *)

Lemma sum_bounds (rs : list Z) :
  Forall (fun r => (1 <= r <= 5)%Z) rs ->
  (Z.of_nat (List.length rs) <= sum rs <= 5 * Z.of_nat (List.length rs))%Z.
Proof.
  induction 1 as [|r rs Hr _ IH]; cbn [sum fold_right List.length]; [lia|].
  fold (sum rs). lia.
Qed.

Lemma mean_bounds (rs : list Z) :
  rs <> [] -> Forall (fun r => (1 <= r <= 5)%Z) rs ->
  1 <= mean rs /\ mean rs <= 5.
Proof.
  intros Hne H. pose proof (sum_bounds rs H) as [Hlo Hhi].
  assert (Hn : 0 < inject_Z (Z.of_nat (List.length rs))).
  { change 0 with (inject_Z 0). rewrite <- Zlt_Qlt.
    destruct rs; [easy | cbn [List.length]; lia]. }
  unfold mean. split.
  - apply Qle_shift_div_l; [exact Hn|]. rewrite Qmult_1_l.
    now rewrite <- Zle_Qle.
  - apply Qle_shift_div_r; [exact Hn|].
    change 5 with (inject_Z 5). rewrite <- inject_Z_mult, <- Zle_Qle. lia.
Qed.

Lemma Math_round_bounds (q : Q) :
  1 <= q -> q <= 5 -> (1 <= JS.Math_round q <= 5)%Z.
Proof.
  intros H1 H5. unfold JS.Math_round. split.
  - change 1%Z with (Qfloor 1). apply Qfloor_resp_le.
    apply Qle_trans with q; [exact H1|].
    rewrite <- (Qplus_0_r q) at 1. apply Qplus_le_r. discriminate.
  - change 5%Z with (Qfloor (11 # 2)). apply Qfloor_resp_le.
    setoid_replace (11 # 2) with (5 + (1 # 2)) by reflexivity.
    now apply Qplus_le_l.
Qed.

Lemma ratings_valid (cs : list Comment.t) :
  Forall CommentStored cs -> Forall (fun r => (1 <= r <= 5)%Z) (ratings cs).
Proof.
  induction 1 as [|c cs [Hc _] _ IH]; cbn [ratings flat_map]; [constructor|].
  fold (ratings cs). unfold Comment.validate in Hc.
  apply andb_true_iff in Hc as [_ Hr].
  destruct (Comment.rating c) as [r|]; cbn [app]; [|exact IH].
  constructor; [|exact IH]. apply andb_true_iff in Hr as [H1 H5].
  apply Z.leb_le in H1, H5. lia.
Qed.

(** X9. After a successful review intake on a store whose Comments satisfy the
    schema, the rating written to the Product is a whole number between 1
    and 5 and the count is at least 1. *)
Theorem review_rating_in_range :
  forall now id body st st' r,
    CommentsStored st ->
    submitReview now id body st = (st', Status201 r) ->
    (exists n : Z, newRating r = inject_Z n /\ (1 <= n <= 5)%Z) /\
    (1 <= newReviewsCount r)%Z.
Proof.
  intros now id body st st' r Hst H.
  pose proof (submitReview_201 _ _ _ _ _ _ H)
    as (user & rating & comment & L & product & _ & _ & _ & Hid & Hfind
        & Hc & Hval & s & Hs & _ & Hr & Hn).
  destruct (submitReview_rated _ _ _ _ _ _ _ _ H Hid Hfind) as [Hcs Hrated].
  rewrite <- Hcs in Hs.
  assert (Hne : matchProductId (Product._id product) (comments st') <> [])
    by (intros E; rewrite E in Hrated; now apply Hrated).
  rewrite (Comment_aggregate_row _ _ Hne) in Hs. injection Hs as <-.
  assert (Hall : Forall CommentStored
                   (matchProductId (Product._id product) (comments st'))).
  { apply Forall_forall. intros c Hc'.
    apply matchProductId_In in Hc' as [Hc' _]. rewrite Hcs in Hc'.
    apply in_app_or in Hc' as [Hc'|[<-|[]]].
    - unfold CommentsStored in Hst. rewrite Forall_forall in Hst. now apply Hst.
    - rewrite Hc in Hval |- *. now apply make_stored. }
  split.
  - rewrite Hr, applyStats_rating. cbn [avgRating].
    rewrite (avg_mean _ Hrated). cbn [JS.ToNumber].
    eexists. split; [reflexivity|].
    destruct (mean_bounds _ Hrated (ratings_valid _ Hall)) as [H1 H5].
    now apply Math_round_bounds.
  - rewrite Hn, applyStats_reviewsCount. cbn [count].
    destruct (matchProductId _ _); [easy | cbn [List.length]; lia].
Qed.

Lemma review_rating_in_range_witness :
  exists n : Z, (5 : Q) = inject_Z n /\ (1 <= n <= 5)%Z.
Proof.
  apply (review_rating_in_range 1700000000002%Z (Some 7%Z)
           (Sample.review "Radha" 5 "Lovely") Sample.shop
           (fst (submitReview 1700000000002%Z (Some 7%Z)
                   (Sample.review "Radha" 5 "Lovely") Sample.shop))
           (mkReviewResult
              (Comment.mk 1%N "Radha" "Lovely" (Some 5%Z) 1700000000002%Z false)
              5 1%Z)
           (Forall_nil _) eq_refl).
Defined.

(** ** What the handlers never touch *)

Lemma Prefix_refl {A : Type} (l : list A) : Prefix l l.
Proof. exists []. now rewrite app_nil_r. Qed.

Lemma Prefix_trans {A : Type} (l1 l2 l3 : list A) :
  Prefix l1 l2 -> Prefix l2 l3 -> Prefix l1 l3.
Proof.
  intros [r1 ->] [r2 ->]. exists (r1 ++ r2). now rewrite app_assoc.
Qed.

Lemma Write_appends (st st' : Store) :
  Write st st' ->
  Prefix (comments st) (comments st') /\ Prefix (orders st) (orders st').
Proof.
  intros [o p s s' _ Hsave|cs p s _ _|p s|o s s' Hs].
  - apply Product_save_effect in Hsave as (-> & _ & _).
    split; apply Prefix_refl.
  - split; [now exists cs | apply Prefix_refl].
  - split; apply Prefix_refl.
  - apply Order_save_effect in Hs as [-> _].
    split; [apply Prefix_refl | now exists [o]].
Qed.

(** X10. Comments and Orders are append-only: whatever requests are served, the
    Comments and the Orders of the store they started from are still there,
    unchanged and in place, at the head of the collections. *)
Theorem comments_and_orders_append_only :
  forall (reqs : list Request) (st : Store),
    Prefix (comments st) (comments (run reqs st)) /\
    Prefix (orders st) (orders (run reqs st)).
Proof.
  intros reqs st.
  apply (run_preserves
           (fun s => Prefix (comments st) (comments s) /\
                     Prefix (orders st) (orders s))).
  - intros s s' Hw [Hc Ho]. destruct (Write_appends _ _ Hw) as [Hc' Ho'].
    split; eapply Prefix_trans; eassumption.
  - intros header query id s H.
    destruct (deleteProduct_effect header query id s)
      as [->|(oid & d & l1 & l2 & _ & _ & _ & _ & ->)]; exact H.
  - split; apply Prefix_refl.
Qed.

Lemma Forall2_sameButStats_refl (ps : list Product.t) :
  Forall2 sameButStats ps ps.
Proof. induction ps; constructor; [apply sameButStats_refl | assumption]. Qed.

Lemma sameButStats_trans (p q r : Product.t) :
  sameButStats p q -> sameButStats q r -> sameButStats p r.
Proof.
  unfold sameButStats. intros H1 H2.
  repeat match goal with H : _ /\ _ |- _ => destruct H end.
  repeat split; congruence.
Qed.

Lemma Write_products (st st' : Store) :
  Write st st' ->
  exists kept newer,
    products st' = kept ++ newer /\ Forall2 sameButStats (products st) kept.
Proof.
  intros [o p s s' _ Hsave|cs p s _ _|p s|o s s' Hs].
  - apply Product_save_effect in Hsave as (-> & _ & _).
    exists (products s), [p]. split; [reflexivity|].
    apply Forall2_sameButStats_refl.
  - exists (products s), []. split; [now rewrite app_nil_r|].
    apply Forall2_sameButStats_refl.
  - exists (products (Product_update p s)), [].
    split; [now rewrite app_nil_r|].
    destruct (Product_update_frame p s) as (_ & _ & _ & H).
    eapply Forall2_impl; [|exact H]. now intros a b [Hab _].
  - apply Order_save_effect in Hs as [-> _].
    exists (products s), []. split; [now rewrite app_nil_r|].
    apply Forall2_sameButStats_refl.
Qed.

(** X11. Requests other than a deletion never remove, reorder or rewrite a
    Product: the Products of the starting store are still there, in place,
    with every field other than rating and reviewsCount as it was; new
    Products come after them. *)
Theorem products_keep_their_fields :
  forall (reqs : list Request) (st : Store),
    forallb (fun req => negb (isDelete req)) reqs = true ->
    exists kept newer,
      products (run reqs st) = kept ++ newer /\
      Forall2 sameButStats (products st) kept.
Proof.
  intros reqs. unfold run.
  assert (Hstep : forall a b,
             Writes a b ->
             exists kept newer,
               products b = kept ++ newer /\
               Forall2 sameButStats (products a) kept).
  { induction 1 as [a|a a1 b Hw _ IH].
    - exists (products a), []. split; [now rewrite app_nil_r|].
      apply Forall2_sameButStats_refl.
    - destruct (Write_products _ _ Hw) as (k1 & n1 & Hp1 & Hk1).
      destruct IH as (k2 & n2 & Hp2 & Hk2). rewrite Hp1 in Hk2.
      apply Forall2_app_inv_l in Hk2 as (k2a & k2b & Hka & Hkb & ->).
      exists k2a, (k2b ++ n2). split; [now rewrite Hp2, app_assoc|].
      clear - Hk1 Hka. revert k2a Hka.
      induction Hk1 as [|x y l l' Hxy _ IH]; intros k Hk; inversion Hk; subst;
        constructor; [eapply sameButStats_trans; eassumption | now apply IH]. }
  intros st Hreqs. apply Hstep. clear Hstep. revert st Hreqs.
  induction reqs as [|req reqs IH]; intros st Hreqs; cbn [fold_left];
    [apply Writes_refl|].
  cbn [forallb] in Hreqs. apply andb_true_iff in Hreqs as [Hreq Hreqs].
  apply negb_true_iff in Hreq.
  apply (Writes_trans _ (handle req st));
    [now apply handle_writes | now apply IH].
Qed.

Lemma products_keep_their_fields_witness :
  exists kept newer,
    products (run (PostReview 1700000000004%Z (Some 7%Z)
                     (Sample.review "krishna" 5 "Lovely")
                   :: Demo.traffic) Sample.shop) = kept ++ newer /\
    Forall2 sameButStats (products Sample.shop) kept.
Proof.
  apply (products_keep_their_fields
           (PostReview 1700000000004%Z (Some 7%Z)
              (Sample.review "krishna" 5 "Lovely") :: Demo.traffic)
           Sample.shop eq_refl).
Defined.

(** ** Deleting a Product *)

(** X12. A successful deletion removes the one Product with the given id and
    nothing else: the other Products keep their order, and all Comments and
    Orders stay, those of the deleted Product included. In a store with
    distinct ids no Product with that id is left, so its Comments reference
    nothing; with distinct legacy ids a review for its legacy id is no
    longer accepted. *)
Theorem delete_keeps_comments :
  forall header query oid st st',
    deleteProduct header query (Some oid) st = (st', Deleted200) ->
    comments st' = comments st /\
    orders st' = orders st /\
    exists d l1 l2,
      products st = l1 ++ d :: l2 /\
      products st' = l1 ++ l2 /\
      Product._id d = oid /\
      (FreshIds st -> forall p, In p (products st') -> Product._id p <> oid) /\
      (UniqueLegacyIds st ->
       forall now body,
         submitReview now (Some (Product.legacyId d)) body st'
           = (st', Status400) \/
         submitReview now (Some (Product.legacyId d)) body st'
           = (st', Status404)).
Proof.
  intros header query oid st st' H.
  destruct (deleteProduct_cases header query (Some oid) st)
    as [[_ Hno]|(oid' & d & rest & Hid & Hrem & Hr)].
  { exfalso. apply Hno. now rewrite H. }
  injection Hid as <-. rewrite Hr in H. injection H as <-.
  apply Product_remove_split in Hrem as (l1 & l2 & Hps & -> & Hd & _).
  split; [reflexivity|]. split; [reflexivity|].
  exists d, l1, l2. cbn [products withProducts].
  split; [exact Hps|]. split; [reflexivity|]. split; [exact Hd|]. split.
  - intros [Hnd _] p Hp Hpid. rewrite Hps, map_app in Hnd. cbn [map] in Hnd.
    apply NoDup_remove_2 in Hnd. apply Hnd. rewrite <- map_app, Hd, <- Hpid.
    now apply in_map.
  - intros Hu now body. unfold UniqueLegacyIds in Hu.
    rewrite Hps, map_app in Hu. cbn [map] in Hu.
    apply NoDup_remove_2 in Hu. rewrite <- map_app in Hu.
    apply Product_findOne_None in Hu.
    unfold submitReview. cbn [products withProducts]. rewrite Hu.
    destruct (ReviewBody.user body); [|now left].
    destruct (ReviewBody.rating body); [|now left].
    destruct (ReviewBody.comment body); [|now left].
    destruct (_ || _ || _ || _ || _); [now left | now right].
Qed.

Lemma delete_keeps_comments_witness :
  comments (fst (deleteProduct Demo.admin None (Some 1%N)
                   (run Demo.traffic Sample.empty)))
  = comments (run Demo.traffic Sample.empty).
Proof.
  apply (delete_keeps_comments Demo.admin None 1%N
           (run Demo.traffic Sample.empty)
           (fst (deleteProduct Demo.admin None (Some 1%N)
                   (run Demo.traffic Sample.empty)))
           eq_refl).
Defined.

Lemma Product_remove_appended (ps : list Product.t) (p : Product.t) :
  Forall (fun q => Product._id q <> Product._id p) ps ->
  Product_remove (Product._id p) (ps ++ [p]) = Some (p, ps).
Proof.
  induction 1 as [|q ps Hq _ IH]; cbn [app Product_remove].
  - now rewrite N.eqb_refl.
  - apply N.eqb_neq in Hq. now rewrite Hq, IH.
Qed.

(** X13. Legacy ids are not kept for good: when the Product created last is
    deleted, the next creation is given the same legacy id again, so Orders
    recorded for the deleted Product then count as purchases of the new
    one. The new document has another document id unless the request body
    carries the deleted document's id, which it then takes over. *)
Theorem legacy_id_reused_after_delete :
  forall now now' header query header' query' body body' st st1 st2 st3 p p',
    FreshIds st ->
    createProduct now header query body st = (st1, Status201 p) ->
    deleteProduct header' query' (Some (Product._id p)) st1
      = (st2, Deleted200) ->
    createProduct now' header query body' st2 = (st3, Status201 p') ->
    Product.legacyId p' = Product.legacyId p /\
    (ProductBody._id body' <> Some (Product._id p) ->
     Product._id p' <> Product._id p) /\
    (ProductBody._id body' = Some (Product._id p) ->
     Product._id p' = Product._id p) /\
    (forall R,
        isVerifiedPurchase (orders st3) (Product.legacyId p') R
        = isVerifiedPurchase (orders st) (Product.legacyId p) R).
Proof.
  intros now now' header query header' query' body body' st st1 st2 st3 p p'
         [_ Hlt] H1 H2 H3.
  destruct (createProduct_cases now header query body st)
    as [[_ Hno]|[q (Hr & HL & Hid & _ & Hfree)]].
  { exfalso. apply (Hno p). now rewrite H1. }
  rewrite Hr in H1. injection H1 as <- <-.
  assert (Hnew : Forall (fun r => Product._id r <> Product._id q) (products st)).
  { apply Forall_forall. intros r Hin.
    destruct (ProductBody._id body) as [chosen|].
    - specialize (Hfree chosen eq_refl).
      apply Product_findById_None in Hfree. intros Heq. apply Hfree.
      rewrite <- Hid, <- Heq. now apply in_map.
    - rewrite Forall_forall in Hlt. specialize (Hlt r Hin). lia. }
  destruct (deleteProduct_cases header' query' (Some (Product._id q))
              {| products := products st ++ [q]; comments := comments st;
                 orders := orders st;
                 nextId := N.max (nextId st) (N.succ (Product._id q)) |})
    as [[_ Hno]|(oid & d & rest & Ho & Hrem & Hr2)].
  { exfalso. apply Hno. now rewrite H2. }
  rewrite Hr2 in H2. injection H2 as <-. injection Ho as <-.
  cbn [products] in Hrem.
  rewrite (Product_remove_appended (products st) q Hnew) in Hrem.
  injection Hrem as <- <-.
  destruct (createProduct_cases now' header query body'
              (withProducts (products st)
                 {| products := products st ++ [q]; comments := comments st;
                    orders := orders st;
                    nextId := N.max (nextId st) (N.succ (Product._id q)) |}))
    as [[_ Hno]|[q' (Hr3 & HL' & Hid' & _)]].
  { exfalso. apply (Hno p'). now rewrite H3. }
  rewrite Hr3 in H3. injection H3 as <- <-.
  cbn [products withProducts nextId] in HL', Hid'.
  split; [congruence|]. split; [|split].
  - intros Hother. destruct (ProductBody._id body') as [chosen|].
    + rewrite Hid'. intros ->. now apply Hother.
    + rewrite Hid'. lia.
  - intros Hsame. now rewrite Hsame in Hid'.
  - intros R. cbn [orders withProducts]. now rewrite HL, HL'.
Qed.

(** The admin creates Honey in the empty store, deletes it and creates it
    again: legacy id 1 both times, document ids 1 and 2. *)
Lemma legacy_id_reused_after_delete_witness :
  Product.legacyId
    (Product.mk 2%N 1%Z "Honey" 1700000000009%Z ["pantry"%string] [] None 0
                0%Z None 300 None None)
  = Product.legacyId
      (Product.mk 1%N 1%Z "Honey" 1700000000001%Z ["pantry"%string] [] None 0
                  0%Z None 300 None None) /\
  Product._id
    (Product.mk 2%N 1%Z "Honey" 1700000000009%Z ["pantry"%string] [] None 0
                0%Z None 300 None None)
  <> Product._id
       (Product.mk 1%N 1%Z "Honey" 1700000000001%Z ["pantry"%string] [] None 0
                   0%Z None 300 None None).
Proof.
  pose (p := Product.mk 1%N 1%Z "Honey" 1700000000001%Z ["pantry"%string] []
                        None 0 0%Z None 300 None None).
  pose (p' := Product.mk 2%N 1%Z "Honey" 1700000000009%Z ["pantry"%string] []
                         None 0 0%Z None 300 None None).
  pose (st1 := fst (createProduct 1700000000001%Z Demo.admin None Sample.honey
                      Sample.empty)).
  pose (st2 := fst (deleteProduct Demo.admin None (Some 1%N) st1)).
  pose (st3 := fst (createProduct 1700000000009%Z Demo.admin None Sample.honey
                      st2)).
  destruct (legacy_id_reused_after_delete
              1700000000001%Z 1700000000009%Z Demo.admin None Demo.admin None
              Sample.honey Sample.honey Sample.empty st1 st2 st3 p p'
              (conj (NoDup_nil _) (Forall_nil _)) eq_refl eq_refl eq_refl)
    as (HL & Hid & _).
  split; [exact HL | apply Hid; discriminate].
Defined.

(** ** Migration: when it runs, and how far *)

Lemma Writes_legacyIds (a b : Store) :
  Writes a b ->
  forall L, In L (map Product.legacyId (products a)) ->
            In L (map Product.legacyId (products b)).
Proof.
  induction 1 as [a|a a1 b Hw _ IH]; intros L HL; [exact HL|].
  apply IH. destruct (Write_products _ _ Hw) as (kept & newer & -> & Hk).
  rewrite map_app. apply in_or_app. left.
  apply in_map_iff in HL as [p [<- Hp]].
  destruct (Forall2_In_l _ _ _ _ Hk Hp) as [q [Hq Hsame]].
  apply in_map_iff. exists q. split; [apply Hsame | exact Hq].
Qed.

Lemma migrateProducts_complete (now : Date) (ps : list LegacyProduct.t)
  (st st' : Store) :
  migrateProducts now ps st = (st', Normal) -> FullyMigrated ps st'.
Proof.
  revert st. induction ps as [|p rest IH]; intros st H; [intros q []|].
  assert (Hkeep : forall s, migrateProducts now rest s = (st', Normal) ->
                            In (LegacyProduct.id p)
                               (map Product.legacyId (products s)) ->
                            FullyMigrated (p :: rest) st').
  { intros s Hs Hin q [<-|Hq]; [|now apply (IH s Hs)].
    pose proof (migrateProducts_writes now rest s) as Hw. rewrite Hs in Hw.
    apply (Writes_legacyIds _ _ Hw) in Hin.
    apply in_map_iff in Hin as [x [Hx Hin]]. now exists x. }
  cbn [migrateProducts] in H.
  destruct (Product_findOne (LegacyProduct.id p) (products st)) as [x|] eqn:Hf.
  - apply (Hkeep st H). apply Product_findOne_In in Hf as [Hin <-].
    now apply in_map.
  - match type of H with context [Product_save ?o st] =>
      destruct (Product_save o st) as [[newProduct st1]|] eqn:E end;
      [|discriminate].
    pose proof (Product_save_effect _ _ _ _ E) as (Hst1 & _ & HL).
    cbn [Product.i_legacyId] in HL.
    assert (Hin1 : In (LegacyProduct.id p)
                      (map Product.legacyId (products st1))).
    { rewrite Hst1. cbn [products]. rewrite map_app. apply in_or_app.
      right. left. exact HL. }
    destruct (LegacyProduct.reviews p) as [|rv rvs].
    + now apply (Hkeep st1).
    + destruct (Comment_insertMany _ st1) as [st2|] eqn:Ei; [|discriminate].
      apply (Hkeep st2 H). unfold Comment_insertMany in Ei.
      destruct (forallb _ _); [|discriminate]. injection Ei as <-.
      exact Hin1.
Qed.

(** X14. The migration runs only while the store holds fewer Products than the
    legacy list has records. When it runs to its end, every legacy record
    has its Product. When the store already holds as many Products as the
    list has records, nothing is migrated, whether or not the records are in
    the store. *)
Theorem migration_gate :
  forall now legacy st,
    ((List.length (products st) < List.length legacy)%nat ->
     forall st', migrateStep now legacy st = (st', Normal) ->
                 FullyMigrated legacy st') /\
    ((List.length legacy <= List.length (products st))%nat ->
     migrateStep now legacy st = (st, Normal) /\
     products (migrateAndSeed now legacy st) = products st).
Proof.
  intros now legacy st. split.
  - intros Hlt st' H. unfold migrateStep in H.
    apply Nat.ltb_lt in Hlt. rewrite Hlt in H.
    now apply migrateProducts_complete in H.
  - intros Hle. unfold migrateAndSeed, migrateStep.
    apply Nat.ltb_ge in Hle. rewrite Hle. split; [reflexivity|].
    destruct (seedStep_cases now st) as [[_ [p [_ ->]]]|[_ ->]]; reflexivity.
Qed.

(** A store with one Product created by hand: the legacy record of another
    product is never migrated. On the empty store the same record is
    migrated. *)
Lemma migration_gate_witness :
  products (migrateAndSeed 1700000000005%Z [Sample.legacyGhee]
              (run [PostProduct 1700000000001%Z Demo.admin None Sample.honey]
                   Sample.empty))
  = products (run [PostProduct 1700000000001%Z Demo.admin None Sample.honey]
                  Sample.empty) /\
  FullyMigrated [Sample.legacyGhee]
    (fst (migrateStep 1700000000005%Z [Sample.legacyGhee] Sample.empty)).
Proof.
  split.
  - apply (proj2 (migration_gate 1700000000005%Z [Sample.legacyGhee]
                    (run [PostProduct 1700000000001%Z Demo.admin None
                                      Sample.honey]
                         Sample.empty))).
    apply le_n.
  - apply (proj1 (migration_gate 1700000000005%Z [Sample.legacyGhee]
                    Sample.empty) (le_n 1)).
    reflexivity.
Defined.

(** X15. A legacy record without a name or without a price cannot be saved. As
    long as it is absent from the store and the migration runs, every
    start-up stops at it: the records listed before it are dealt with, the
    records behind it are not migrated, and the seeding is skipped. *)
Theorem invalid_legacy_record_blocks :
  forall now before bad behind st,
    FullyMigrated before st ->
    (List.length (products st)
     < List.length (before ++ bad :: behind))%nat ->
    Product_findOne (LegacyProduct.id bad) (products st) = None ->
    LegacyProduct.name bad = None \/ LegacyProduct.price bad = None ->
    migrateStep now (before ++ bad :: behind) st = (st, Threw) /\
    migrateAndSeed now (before ++ bad :: behind) st = st.
Proof.
  intros now before bad behind st Hbefore Hlt Hfind Hbad.
  assert (Hloop : migrateProducts now (before ++ bad :: behind) st
                  = (st, Threw)).
  { clear Hlt. induction before as [|p rest IH]; cbn [app migrateProducts].
    - rewrite Hfind. unfold Product_save, Product.create.
      cbn [Product.i_name Product.i_price].
      destruct Hbad as [-> | ->]; [reflexivity|].
      now destruct (LegacyProduct.name bad).
    - destruct (Product_findOne_Some (LegacyProduct.id p) (products st))
        as [q ->].
      + apply Hbefore. now left.
      + apply IH. intros p' Hp'. apply Hbefore. now right. }
  assert (Hstep : migrateStep now (before ++ bad :: behind) st = (st, Threw)).
  { unfold migrateStep. apply Nat.ltb_lt in Hlt. now rewrite Hlt. }
  split; [exact Hstep|]. unfold migrateAndSeed. now rewrite Hstep.
Qed.

Lemma invalid_legacy_record_blocks_witness :
  migrateAndSeed 1700000000005%Z
    [LegacyProduct.mk 3%Z None None [] [] None None None None (Some 10) None
                      None [];
     Sample.legacyGhee]
    Sample.empty = Sample.empty.
Proof.
  apply (proj2 (invalid_legacy_record_blocks 1700000000005%Z []
                  (LegacyProduct.mk 3%Z None None [] [] None None None None
                                    (Some 10) None None [])
                  [Sample.legacyGhee] Sample.empty
                  (fun p (H : In p []) => match H with end)
                  (le_S 1 1 (le_n 1)) eq_refl (or_introl eq_refl))).
Defined.

(** ** Orders and the reviews they verify *)

Lemma append_assoc (a b c : string) :
  ((a ++ b) ++ c = a ++ (b ++ c))%string.
Proof. induction a as [|x a IH]; simpl; [reflexivity | now rewrite IH]. Qed.

Lemma append_nil_r (a : string) : (a ++ "" = a)%string.
Proof. induction a as [|x a IH]; simpl; [reflexivity | now rewrite IH]. Qed.

Lemma requiredTrimmed_Some (v : option string) (t : string) :
  requiredTrimmed v = Some t ->
  exists s, v = Some s /\ t = JS.trim s /\ t <> ""%string.
Proof.
  unfold requiredTrimmed. destruct v as [s|]; [|discriminate].
  destruct (JS.truthyString (JS.trim s)) eqn:E; [|discriminate].
  intros [= <-]. exists s. repeat split. intros H. rewrite H in E. discriminate.
Qed.

Lemma Customer_create_names (u : CustomerBody.t) (c : Customer.t) :
  Customer_create u = Some c ->
  exists first last,
    CustomerBody.firstname u = Some first /\
    CustomerBody.lastname u = Some last /\
    Customer.firstname c = JS.trim first /\
    Customer.lastname c = JS.trim last /\
    JS.trim first <> ""%string /\ JS.trim last <> ""%string /\
    matchEmail (Customer.email c) = true.
Proof.
  unfold Customer_create.
  destruct (requiredTrimmed (CustomerBody.firstname u)) as [f|] eqn:Ef;
    [|discriminate].
  destruct (requiredTrimmed (CustomerBody.lastname u)) as [l|] eqn:El;
    [|discriminate].
  destruct (requiredTrimmed (CustomerBody.email u)); [|discriminate].
  destruct (requiredTrimmed (CustomerBody.phone u)); [|discriminate].
  destruct (requiredTrimmed (CustomerBody.address1 u)); [|discriminate].
  destruct (requiredTrimmed (CustomerBody.city u)); [|discriminate].
  destruct (requiredTrimmed (CustomerBody.state u)); [|discriminate].
  destruct (requiredTrimmed (CustomerBody.zip u)); [|discriminate].
  destruct (matchEmail _) eqn:Em; [|discriminate].
  intros [= <-]. cbn [Customer.firstname Customer.lastname Customer.email].
  apply requiredTrimmed_Some in Ef as (first & Hf & -> & Hfn).
  apply requiredTrimmed_Some in El as (last & Hl & -> & Hln).
  now exists first, last.
Qed.

Lemma Items_create_In (items : list OrderItemBody.t) (its : list Item.t)
  (i : OrderItemBody.t) (L : Z) :
  Items_create items = Some its ->
  In i items -> OrderItemBody.id i = Some L ->
  exists it, In it its /\ Item.id it = L.
Proof.
  revert its. induction items as [|j items IH]; intros its H Hin HL;
    [destruct Hin|].
  cbn [Items_create] in H.
  destruct (Item_create j) as [jt|] eqn:Ej; [|discriminate].
  destruct (Items_create items) as [rest|]; [|discriminate].
  injection H as <-. destruct Hin as [->|Hin].
  - exists jt. split; [now left|]. unfold Item_create in Ej. rewrite HL in Ej.
    destruct (OrderItemBody.name i); [|discriminate].
    destruct (OrderItemBody.quantity i); [|discriminate].
    destruct (OrderItemBody.price i); [|discriminate].
    destruct (_ && _ && _); [|discriminate]. now injection Ej as <-.
  - destruct (IH rest eq_refl Hin HL) as [it [Hit Hid]].
    exists it. split; [now right | exact Hid].
Qed.

Lemma fullName_trimmed (o : Order.t) (first last : string) :
  Customer.firstname (Order.user o) = JS.trim first ->
  Customer.lastname (Order.user o) = JS.trim last ->
  JS.trim first <> ""%string -> JS.trim last <> ""%string ->
  fullName o
  = (JS.toLowerCase (JS.trim first) ++ " "
     ++ JS.toLowerCase (JS.trim last))%string.
Proof.
  intros Hf Hl Hfn Hln. unfold fullName. rewrite Hf, Hl.
  rewrite !toLowerCase_app. cbn [JS.toLowerCase].
  change (JS.lowerChar " ") with " "%char.
  assert (Hfl : JS.toLowerCase (JS.trim first) <> ""%string)
    by (intros E; apply Hfn; now apply toLowerCase_empty).
  assert (Hll : JS.toLowerCase (JS.trim last) <> ""%string)
    by (intros E; apply Hln; now apply toLowerCase_empty).
  apply trim_fixed.
  - rewrite startsWithSpace_app; [|exact Hfl].
    rewrite toLowerCase_startsWithSpace. apply trim_noLeading.
  - rewrite endsWithSpace_app.
    + change (String " " (JS.toLowerCase (JS.trim last)))
        with (" " ++ JS.toLowerCase (JS.trim last))%string.
      rewrite endsWithSpace_app; [|exact Hll].
      rewrite toLowerCase_endsWithSpace. apply trim_noTrailing.
    + discriminate.
Qed.

(** X16. Placing an order makes its customer a verified purchaser: once an order
    with a line item for product [L] is accepted, the Purchase Matcher
    answers true for [L] and the first name, and for [L] and the last name,
    as they were submitted with the order, in every later state of the
    Orders collection. *)
Theorem order_makes_reviews_verified :
  forall now body st st1 oid items i L user first last,
    createOrder now body st = (st1, Status201 oid) ->
    OrderBody.items body = Some items ->
    In i items -> OrderItemBody.id i = Some L ->
    OrderBody.user body = Some user ->
    CustomerBody.firstname user = Some first ->
    CustomerBody.lastname user = Some last ->
    forall os, Prefix (orders st1) os ->
      isVerifiedPurchase os L first = true /\
      isVerifiedPurchase os L last = true.
Proof.
  intros now body st st1 oid items i L user first last H Hitems Hi HL Huser
         Hfirst Hlast os [later ->].
  destruct (createOrder_cases now body st)
    as [[_ Hno]|(items' & total & user' & o & Hi' & _ & Hu' & Hc & _ & Hr)].
  { exfalso. apply (Hno oid). now rewrite H. }
  rewrite Hr in H. injection H as <- _.
  rewrite Hitems in Hi'. injection Hi' as <-.
  rewrite Huser in Hu'. injection Hu' as <-.
  unfold Order_create in Hc.
  destruct (Customer_create user) as [c|] eqn:Ec; [|discriminate].
  destruct (Items_create items) as [its|] eqn:Ei; [|discriminate].
  destruct (_ && _); [|discriminate]. injection Hc as <-.
  apply Customer_create_names in Ec
    as (f & l & Hf & Hl & Hcf & Hcl & Hfn & Hln & _).
  rewrite Hfirst in Hf. injection Hf as <-.
  rewrite Hlast in Hl. injection Hl as <-.
  destruct (Items_create_In _ _ _ _ Ei Hi HL) as [it [Hit Hid]].
  set (o := Order.mk (makeOrderId now) now c total its).
  assert (Hin : In o ((orders st ++ [o]) ++ later)).
  { apply in_or_app. left. apply in_or_app. right. now left. }
  assert (Hcont : containsItem L o) by now exists it.
  assert (Hname : fullName o
                  = (JS.toLowerCase (JS.trim first) ++ " "
                     ++ JS.toLowerCase (JS.trim last))%string)
    by now apply fullName_trimmed.
  cbn [orders withOrders]. split; apply isVerifiedPurchase_iff; exists o;
    (split; [exact Hin|]); (split; [exact Hcont|]);
    rewrite Hname, <- toLowerCase_trim.
  - exists ""%string, (" " ++ JS.toLowerCase (JS.trim last))%string.
    reflexivity.
  - exists (JS.toLowerCase (JS.trim first) ++ " ")%string, ""%string.
    now rewrite append_nil_r, append_assoc.
Qed.

Lemma order_makes_reviews_verified_witness :
  isVerifiedPurchase
    (orders (fst (createOrder 1700000000002%Z (Demo.orderBody 300)
                    Sample.shop))) 1 " Krishna" = true.
Proof.
  apply (order_makes_reviews_verified 1700000000002%Z (Demo.orderBody 300)
           Sample.shop
           (fst (createOrder 1700000000002%Z (Demo.orderBody 300) Sample.shop))
           "ORD-1700000000002"%string
           [OrderItemBody.mk (Some 1%Z) (Some "Honey"%string) (Some 1%Z)
                             (Some 300)]
           (OrderItemBody.mk (Some 1%Z) (Some "Honey"%string) (Some 1%Z)
                             (Some 300))
           1%Z (Demo.customerBody " Krishna" "Das ") " Krishna"%string
           "Das "%string eq_refl eq_refl (or_introl eq_refl) eq_refl eq_refl
           eq_refl eq_refl
           (orders (fst (createOrder 1700000000002%Z (Demo.orderBody 300)
                           Sample.shop)))
           (Prefix_refl _)).
Defined.

(** ** Order intake: guard and schema *)

Lemma matchAfterAt_iff (s : string) (seen : bool) :
  matchAfterAt s seen = true <->
  exists (mid : string) (d : ascii) (post : string),
    s = (mid ++ "." ++ String d post)%string /\
    noLineTerminator mid = true /\
    (seen = true \/ mid <> ""%string) /\
    isLineTerminator d = false.
Proof.
  revert seen. induction s as [|c s IH]; intros seen; cbn [matchAfterAt].
  - split; [discriminate|]. intros (mid & d & post & H & _).
    destruct mid; discriminate.
  - destruct (isLineTerminator c) eqn:Ec.
    + split; [discriminate|]. intros (mid & d & post & H & Hm & _).
      destruct mid as [|x mid]; cbn in H; injection H as -> _.
      * discriminate Ec.
      * cbn in Hm. rewrite Ec in Hm. discriminate.
    + rewrite orb_true_iff, !andb_true_iff, IH, Ascii.eqb_eq. split.
      * intros [[[Hs ->] Hd]|(mid & d & post & -> & Hm & _ & Hd)].
        -- destruct s as [|d post]; [discriminate|].
           exists ""%string, d, post. cbn. repeat split; auto.
           cbn in Hd. now apply negb_true_iff in Hd.
        -- exists (String c mid), d, post. cbn. rewrite Ec, Hm.
           repeat split; auto. right. discriminate.
      * intros (mid & d & post & H & Hm & Hseen & Hd).
        destruct mid as [|x mid]; cbn in H; injection H as -> ->.
        -- left. destruct Hseen as [->|Hne]; [|now elim Hne].
           repeat split. cbn. now rewrite Hd.
        -- right. exists mid, d, post. cbn in Hm.
           apply andb_true_iff in Hm as [_ Hm]. repeat split; auto.
Qed.

Lemma matchEmailFrom_iff (s : string) (prev : bool) :
  matchEmailFrom s prev = true <->
  (prev = true /\
   exists rest, s = String "@" rest /\ matchAfterAt rest false = true) \/
  exists (pre : string) (a : ascii) (rest : string),
    s = (pre ++ String a (String "@" rest))%string /\
    isLineTerminator a = false /\ matchAfterAt rest false = true.
Proof.
  revert prev. induction s as [|c s IH]; intros prev; cbn [matchEmailFrom].
  - split; [discriminate|].
    intros [[_ [rest [H _]]]|(pre & a & rest & H & _)]; [discriminate|].
    destruct pre; discriminate.
  - rewrite orb_true_iff, !andb_true_iff, IH, Ascii.eqb_eq. split.
    + intros [[[-> ->] Hm]|[[Hc [rest [-> Hm]]]|(pre & a & rest & -> & Ha & Hm)]].
      * left. split; [reflexivity|]. now exists s.
      * right. exists ""%string, c, rest. cbn.
        repeat split; auto. now apply negb_true_iff in Hc.
      * right. exists (String c pre), a, rest. now repeat split.
    + intros [[-> [rest [H Hm]]]|(pre & a & rest & H & Ha & Hm)].
      * injection H as -> ->. now left.
      * right. destruct pre as [|x pre]; cbn in H; injection H as -> ->.
        -- left. split; [now rewrite Ha|]. now exists rest.
        -- right. now exists pre, a, rest.
Qed.

(** X17. The e-mail check of the Order schema accepts exactly the texts that
    contain a character, an [@], at least one character, a dot and one more
    character in a row on one line; accepted orders carry such an address. *)
Theorem order_email_shape :
  (forall s : string, matchEmail s = true <-> EmailShape s) /\
  (forall now body st st' oid,
      createOrder now body st = (st', Status201 oid) ->
      exists o, orders st' = orders st ++ [o] /\
                EmailShape (Customer.email (Order.user o))).
Proof.
  assert (Hiff : forall s, matchEmail s = true <-> EmailShape s).
  { intros s. unfold matchEmail, EmailShape. rewrite matchEmailFrom_iff. split.
    - intros [[H _]|(pre & a & rest & -> & Ha & Hm)]; [discriminate|].
      apply matchAfterAt_iff in Hm as (mid & d & post & -> & Hmid & Hne & Hd).
      exists pre, a, mid, d, post. repeat split; auto.
      destruct Hne as [H|H]; [discriminate | exact H].
    - intros (pre & a & mid & d & post & -> & Ha & Hne & Hmid & Hd).
      right. exists pre, a, (mid ++ "." ++ String d post)%string.
      repeat split; auto. apply matchAfterAt_iff.
      exists mid, d, post. repeat split; auto. }
  split; [exact Hiff|].
  intros now body st st' oid H.
  destruct (createOrder_cases now body st)
    as [[_ Hno]|(items & total & user & o & _ & _ & _ & Hc & _ & Hr)].
  { exfalso. apply (Hno oid). now rewrite H. }
  rewrite Hr in H. injection H as <- _.
  exists o. split; [reflexivity|]. apply Hiff.
  unfold Order_create in Hc.
  destruct (Customer_create user) as [c|] eqn:Ec; [|discriminate].
  destruct (Items_create items); [|discriminate].
  destruct (_ && _); [|discriminate]. injection Hc as <-.
  now apply Customer_create_names in Ec
    as (first & last & _ & _ & _ & _ & _ & _ & Hm).
Qed.

Lemma order_email_shape_witness :
  EmailShape "krishna@example.org".
Proof.
  apply (proj1 order_email_shape "krishna@example.org"%string).
  reflexivity.
Defined.

(** X18. The guard of the order endpoint turns away an order without items and an
    order whose total is zero (a free order cannot be placed) with status
    400; a negative total passes the guard and is refused by the schema with
    status 500. Nothing is written in either case. *)
Theorem order_total_edges :
  forall now items total user st,
    (total == 0 \/ items = [] ->
     createOrder now (OrderBody.mk (Some items) (Some total) (Some user)) st
     = (st, Status400)) /\
    (total < 0 -> items <> [] ->
     createOrder now (OrderBody.mk (Some items) (Some total) (Some user)) st
     = (st, Status500)).
Proof.
  intros now items total user st. unfold createOrder.
  cbn [OrderBody.items OrderBody.total OrderBody.user]. split.
  - intros [H | ->]; [|reflexivity].
    unfold JS.truthyNumber. apply Qeq_bool_iff in H. rewrite H.
    now rewrite orb_true_r.
  - intros Hneg Hne.
    assert (Ht : JS.truthyNumber total = true).
    { unfold JS.truthyNumber. apply negb_true_iff.
      apply not_true_iff_false. intros E. apply Qeq_bool_iff in E.
      rewrite E in Hneg. discriminate. }
    destruct items as [|i items]; [now elim Hne|].
    rewrite Ht. cbn [List.length Nat.eqb negb orb].
    unfold Order_create.
    destruct (Customer_create user); [|reflexivity].
    destruct (Items_create (i :: items)); [|reflexivity].
    assert (Hq : Qle_bool 0 total = false).
    { apply not_true_iff_false. intros E. apply Qle_bool_iff in E.
      now apply Qlt_not_le in Hneg. }
    now rewrite Hq.
Qed.

Lemma order_total_edges_witness :
  createOrder 1700000000002%Z (Demo.orderBody 0) Sample.shop
  = (Sample.shop, Status400).
Proof.
  apply (proj1 (order_total_edges 1700000000002%Z
                  [OrderItemBody.mk (Some 1%Z) (Some "Honey"%string)
                                    (Some 1%Z) (Some 300)]
                  0 (Demo.customerBody " Krishna" "Das ") Sample.shop)).
  left. reflexivity.
Defined.

(** ** Listing the comments of a product *)

Lemma insertSorted_perm (sort : SortOrder) (c : Comment.t)
  (cs : list Comment.t) : Permutation (insertSorted sort c cs) (c :: cs).
Proof.
  induction cs as [|d cs IH]; cbn [insertSorted]; [reflexivity|].
  destruct (before sort c d); [reflexivity|].
  rewrite IH. apply perm_swap.
Qed.

Lemma sortComments_perm (sort : SortOrder) (cs : list Comment.t) :
  Permutation (sortComments sort cs) cs.
Proof.
  unfold sortComments. induction cs as [|c cs IH]; cbn [fold_right];
    [reflexivity|].
  rewrite insertSorted_perm. now constructor.
Qed.

Lemma ratingLe_total (a b : option Z) :
  ratingLe a b = false -> ratingLe b a = true.
Proof.
  destruct a as [x|], b as [y|]; cbn; try easy.
  intros H. apply Z.leb_gt in H. apply Z.leb_le. lia.
Qed.

Lemma before_total (sort : SortOrder) (a b : Comment.t) :
  before sort a b = false -> before sort b a = true.
Proof.
  assert (Hz : forall x y : Z, (x <=? y)%Z = false -> (y <=? x)%Z = true).
  { intros x y H. apply Z.leb_gt in H. apply Z.leb_le. lia. }
  assert (Heq : ratingEq (Comment.rating b) (Comment.rating a)
                = ratingEq (Comment.rating a) (Comment.rating b))
    by (unfold ratingEq; apply andb_comm).
  destruct sort; cbn [before]; try apply Hz; rewrite Heq; clear Heq;
    destruct (ratingEq (Comment.rating a) (Comment.rating b));
    try apply Hz; apply ratingLe_total.
Qed.

Lemma insertSorted_sorted (sort : SortOrder) (c : Comment.t)
  (cs : list Comment.t) :
  Sorted (fun a b => before sort a b = true) cs ->
  Sorted (fun a b => before sort a b = true) (insertSorted sort c cs).
Proof.
  induction cs as [|d cs IH]; intros H; cbn [insertSorted].
  - repeat constructor.
  - destruct (before sort c d) eqn:E.
    + constructor; [exact H | now constructor].
    + inversion H as [|? ? Hs Hd]; subst. constructor; [now apply IH|].
      destruct cs as [|e cs]; cbn [insertSorted].
      * constructor. now apply before_total.
      * destruct (before sort c e); constructor;
          [now apply before_total | now inversion Hd].
Qed.

Lemma sortComments_sorted (sort : SortOrder) (cs : list Comment.t) :
  Sorted (fun a b => before sort a b = true) (sortComments sort cs).
Proof.
  unfold sortComments. induction cs as [|c cs IH]; cbn [fold_right];
    [constructor | now apply insertSorted_sorted].
Qed.

(** X19. The comment listing of a product returns the comments that reference it,
    each once and in the requested order. Star values restrict the listing
    to comments whose rating is one of those between 1 and 5; comments
    without a rating are then left out. When no star value is between 1 and
    5 the parameter has no effect at all. *)
Theorem listComments_selects :
  forall productId sort stars st,
    exists l,
      listComments (Some productId) sort stars st = Some l /\
      Sorted (fun a b => before sort a b = true) l /\
      (match stars with
       | None => Permutation l (matchProductId productId (comments st))
       | Some parsed =>
           (starFilters parsed = [] ->
            Permutation l (matchProductId productId (comments st))) /\
           (starFilters parsed <> [] ->
            Permutation l (filter (ratingIn (starFilters parsed))
                                  (matchProductId productId (comments st))) /\
            forall c, In c l ->
              exists (r : Z) (n : Q),
                Comment.rating c = Some r /\ In (Some n) parsed /\
                inject_Z r == n /\ 1 <= n /\ n <= 5)
       end).
Proof.
  intros productId sort stars st. unfold listComments. eexists.
  split; [reflexivity|]. split; [apply sortComments_sorted|].
  destruct stars as [parsed|]; [|apply sortComments_perm]. split.
  - intros ->. apply sortComments_perm.
  - intros Hne. destruct (starFilters parsed) as [|n0 ns] eqn:Ef;
      [now elim Hne|].
    split; [apply sortComments_perm|].
    intros c Hc.
    apply (Permutation_in _ (sortComments_perm _ _)) in Hc.
    apply filter_In in Hc as [_ Hc]. unfold ratingIn in Hc.
    destruct (Comment.rating c) as [r|]; [|discriminate].
    apply existsb_exists in Hc as [n [Hn Hq]]. apply Qeq_bool_iff in Hq.
    exists r, n. split; [reflexivity|]. rewrite <- Ef in Hn.
    unfold starFilters in Hn. apply in_flat_map in Hn as [v [Hv Hn]].
    destruct v as [m|]; [|destruct Hn].
    destruct (Qle_bool 1 m && Qle_bool m 5) eqn:Eb; [|destruct Hn].
    destruct Hn as [<-|[]]. apply andb_true_iff in Eb as [H1 H5].
    apply Qle_bool_iff in H1, H5. now repeat split.
Qed.

(** Stars "0,9" select nothing in range: all comments of the product are
    listed, the unrated one included. *)
Lemma listComments_selects_witness :
  exists l,
    listComments (Some 1%N) Newest (Some [Some 0; Some 9])
      (run Demo.traffic Sample.empty) = Some l /\
    Permutation l (matchProductId 1%N (comments (run Demo.traffic Sample.empty))).
Proof.
  destruct (listComments_selects 1%N Newest (Some [Some 0; Some 9])
              (run Demo.traffic Sample.empty)) as (l & Hl & _ & Hall & _).
  exists l. split; [exact Hl|]. apply Hall. reflexivity.
Defined.

(** ** The CSV export reads back *)

Module CsvFacts.

Import Csv.

Lemma includes_single (c : ascii) (s : string) :
  JS.includes s (single c) = occurs c s.
Proof.
  induction s as [|x s IH]; [reflexivity|].
  cbn [JS.includes occurs]. rewrite IH. f_equal.
  unfold single. cbn [String.prefix].
  destruct (ascii_dec c x) as [E|Hne].
  - subst x. rewrite (proj2 (Ascii.eqb_eq c c) eq_refl). now destruct s.
  - symmetry. apply Ascii.eqb_neq. congruence.
Qed.

Lemma puts_field (s f : string) (r : list string) (rs : list (list string)) :
  puts s (f, r, rs) = ((s ++ f)%string, r, rs).
Proof. induction s as [|c s IH]; cbn [puts]; [reflexivity | now rewrite IH]. Qed.

(** The text starts a separator or is empty: the field ends here. *)
Definition fieldEnd (rest : string) : Prop :=
  rest = EmptyString \/
  (exists t, rest = String comma t) \/ (exists t, rest = String newline t).

Lemma parse_fieldEnd (st : State) (rest : string) :
  fieldEnd rest -> st <> Quoted -> parse st rest = parse Plain rest.
Proof.
  intros [->|[[t ->]|[t ->]]] Hst; destruct st; try reflexivity; now elim Hst.
Qed.

Lemma parse_plain (s rest : string) :
  occurs comma s = false -> occurs newline s = false ->
  parse Plain (s ++ rest) = puts s (parse Plain rest).
Proof.
  induction s as [|c s IH]; intros Hc Hn; [reflexivity|].
  cbn [occurs] in Hc, Hn. apply orb_false_iff in Hc as [Hc Hc'].
  apply orb_false_iff in Hn as [Hn Hn'].
  cbn [append parse puts]. rewrite Hc, Hn. now rewrite IH.
Qed.

Lemma parse_quoted (s rest : string) :
  parse Quoted (doubleQuotes s ++ String quote rest)
  = puts s (parse QuoteSeen rest).
Proof.
  induction s as [|c s IH]; cbn [doubleQuotes append puts].
  - cbn [parse]. now rewrite Ascii.eqb_refl.
  - destruct (Ascii.eqb c quote) eqn:E.
    + apply Ascii.eqb_eq in E. subst c. cbn [append parse].
      rewrite !Ascii.eqb_refl. cbn [parse]. rewrite ?Ascii.eqb_refl.
      now rewrite IH.
    + cbn [append parse]. rewrite E. now rewrite IH.
Qed.

Lemma parse_cell (cell : option string) (rest : string) :
  fieldEnd rest ->
  parse FieldStart (escapeCsvCell cell ++ rest)
  = puts (text cell) (parse Plain rest).
Proof.
  intros Hrest. destruct cell as [s|]; cbn [escapeCsvCell text puts].
  2:{ apply parse_fieldEnd; [exact Hrest | discriminate]. }
  rewrite !includes_single.
  destruct (occurs comma s || occurs quote s || occurs newline s) eqn:E.
  - cbn [append parse]. rewrite Ascii.eqb_refl.
    rewrite append_assoc. cbn [single append].
    rewrite parse_quoted. f_equal.
    apply parse_fieldEnd; [exact Hrest | discriminate].
  - apply orb_false_iff in E as [E En]. apply orb_false_iff in E as [Ec Eq].
    destruct s as [|c s]; cbn [append puts].
    + apply parse_fieldEnd; [exact Hrest | discriminate].
    + cbn [occurs] in Ec, Eq, En.
      apply orb_false_iff in Ec as [Ec Ec'].
      apply orb_false_iff in Eq as [Eq Eq'].
      apply orb_false_iff in En as [En En'].
      cbn [parse]. rewrite Eq, Ec, En. f_equal. now apply parse_plain.
Qed.

Lemma join_cons (sep s : string) (t : string) (rest : list string) :
  join sep (s :: t :: rest) = (s ++ sep ++ join sep (t :: rest))%string.
Proof. reflexivity. Qed.

(** A row of cells, followed by the end of the text or by a line feed. *)
Lemma parse_row (c : option string) (cs : list (option string))
  (rest : string) (rs : list (list string)) :
  parse Plain rest = (EmptyString, [], rs) -> fieldEnd rest ->
  parse FieldStart (csvRow (c :: cs) ++ rest)
  = (text c, map text cs, rs).
Proof.
  intros Hrest Hend. revert c.
  induction cs as [|d cs IH]; intros c; unfold csvRow in *; cbn [map] in *.
  - cbn [join]. rewrite parse_cell; [|exact Hend].
    now rewrite Hrest, puts_field, append_nil_r.
  - rewrite join_cons, !append_assoc. cbn [single append].
    rewrite parse_cell; [|right; left; eauto].
    cbn [parse]. rewrite Ascii.eqb_refl.
    replace (Ascii.eqb comma newline) with false by reflexivity.
    rewrite (IH d). cbn [endField]. now rewrite puts_field, append_nil_r.
Qed.

Lemma parse_rows (c : option string) (cs : list (option string))
  (rows : list (list (option string))) :
  Forall (fun row => row <> []) rows ->
  parse FieldStart
        (join (single newline) (csvRow (c :: cs) :: map csvRow rows))
  = (text c, map text cs, map (map text) rows).
Proof.
  intros H. revert c cs. induction H as [|row rows Hrow _ IH]; intros c cs.
  - cbn [map join]. rewrite <- (append_nil_r (csvRow (c :: cs))).
    apply parse_row; [reflexivity | now left].
  - destruct row as [|d ds]; [now elim Hrow|].
    cbn [map]. rewrite join_cons. cbn [single append].
    apply parse_row; [|right; right; eauto].
    cbn [parse]. replace (Ascii.eqb newline comma) with false by reflexivity.
    rewrite Ascii.eqb_refl.
    change (map csvRow rows) with (map csvRow rows).
    now rewrite (IH d ds).
Qed.

Lemma escape_plain (s : string) :
  plainText s = true -> escapeCsvCell (Some s) = s.
Proof.
  unfold plainText. intros H. apply andb_true_iff in H as [H Hn].
  apply andb_true_iff in H as [Hc Hq].
  apply negb_true_iff in Hc, Hq, Hn.
  cbn [escapeCsvCell]. now rewrite !includes_single, Hc, Hq, Hn.
Qed.

Lemma join_plain (hs : list string) :
  Forall (fun h => plainText h = true) hs ->
  join (single comma) hs = csvRow (map Some hs).
Proof.
  unfold csvRow. intros H. f_equal. induction H as [|h hs Hh _ IH];
    [reflexivity|].
  cbn [map]. now rewrite escape_plain, <- IH.
Qed.

End CsvFacts.

(** X20. A reader of comma-separated text recovers from the exported file exactly
    the table that was written: the header row, then for every data row the
    texts of its cells, whatever commas, quotes or line feeds they contain.
    For the order export: one record of eight fields per order. *)
Theorem csv_export_reads_back :
  (forall (headers : list string) (rows : list (list (option string))),
      headers <> [] ->
      Forall (fun h => plainText h = true) headers ->
      Forall (fun row => row <> []) rows ->
      Csv.read (Csv.csvFile headers rows)
      = headers :: map (map Csv.text) rows) /\
  (forall (toISOString : Date -> string) (numberToString : Q -> string)
          (orders : list Order.t),
      orders <> [] ->
      exists file,
        Csv.exportOrders toISOString numberToString orders = Some file /\
        Csv.read file
        = Csv.headers
            :: map (fun order =>
                      map Csv.text
                          (Csv.orderRow toISOString numberToString order))
                   orders).
Proof.
  assert (Hgen : forall headers rows,
             headers <> [] ->
             Forall (fun h => plainText h = true) headers ->
             Forall (fun row => row <> []) rows ->
             Csv.read (Csv.csvFile headers rows)
             = headers :: map (map Csv.text) rows).
  { intros headers rows Hne Hplain Hrows.
    unfold Csv.read, Csv.csvFile. rewrite (CsvFacts.join_plain _ Hplain).
    destruct headers as [|h hs]; [now elim Hne|]. cbn [map].
    rewrite (CsvFacts.parse_rows _ _ _ Hrows). cbn [Csv.text].
    now rewrite map_map, map_id. }
  split; [exact Hgen|].
  intros toISOString numberToString orders Hne.
  destruct orders as [|o os]; [now elim Hne|].
  eexists. split; [reflexivity|].
  rewrite Hgen.
  - now rewrite map_map.
  - discriminate.
  - repeat constructor.
  - apply Forall_forall. intros row Hrow.
    apply in_map_iff in Hrow as [x [<- _]]. discriminate.
Qed.

(** A cell with a comma, a quote and a line feed in it. *)
Lemma csv_export_reads_back_witness :
  Csv.read
    (Csv.csvFile ["Name"%string; "Note"%string]
       [[Some "Das, Krishna"%string;
         Some (String Csv.quote ("ghee" ++ String Csv.quote
                 (String Csv.newline "2 jars")))%string]])
  = ["Name"%string; "Note"%string]
    :: [["Das, Krishna"%string;
         String Csv.quote ("ghee" ++ String Csv.quote
           (String Csv.newline "2 jars"))%string]].
Proof.
  apply (proj1 csv_export_reads_back ["Name"%string; "Note"%string]
           [[Some "Das, Krishna"%string;
             Some (String Csv.quote ("ghee" ++ String Csv.quote
                     (String Csv.newline "2 jars")))%string]]).
  - discriminate.
  - repeat constructor.
  - repeat constructor. discriminate.
Defined.

(** ** The frontend loader *)

Module FrontendFacts.

Import Frontend.

Lemma fold_Map_set (items : list CartItem.t) (m : CartMap) (k : Z)
  (item : CartItem.t) :
  fold_left Map_set items m k = Some item <->
  (exists pre post,
      items = pre ++ item :: post /\ CartItem.id item = k /\
      Forall (fun i => CartItem.id i <> k) post) \/
  (Forall (fun i => CartItem.id i <> k) items /\ m k = Some item).
Proof.
  revert m. induction items as [|i items IH]; intros m; cbn [fold_left].
  - split.
    + intros H. right. now split.
    + intros [(pre & post & H & _)|[_ H]]; [|exact H].
      destruct pre; discriminate.
  - rewrite IH. unfold Map_set. split.
    + intros [(pre & post & -> & Hk & Hpost)|[Hall Hm]].
      * left. now exists (i :: pre), post.
      * destruct (k =? CartItem.id i)%Z eqn:E.
        -- injection Hm as ->. apply Z.eqb_eq in E. left.
           now exists [], items.
        -- apply Z.eqb_neq in E. right. split; [|exact Hm].
           constructor; [congruence | exact Hall].
    + intros [(pre & post & H & Hk & Hpost)|[Hall Hm]].
      * destruct pre as [|x pre]; cbn [app] in H; injection H as -> ->.
        -- right. split; [exact Hpost|].
           now rewrite Hk, Z.eqb_refl.
        -- left. now exists pre, post.
      * inversion Hall as [|? ? Hi Hrest]; subst. right. split; [exact Hrest|].
        assert (E : (k =? CartItem.id i)%Z = false)
          by (apply Z.eqb_neq; congruence).
        now rewrite E.
Qed.

Lemma Map_new_Some (items : list CartItem.t) (k : Z) (item : CartItem.t) :
  Map_new items k = Some item <->
  exists pre post,
    items = pre ++ item :: post /\ CartItem.id item = k /\
    Forall (fun i => CartItem.id i <> k) post.
Proof.
  unfold Map_new. rewrite fold_Map_set. split.
  - intros [H|[_ H]]; [exact H | discriminate].
  - intros H. now left.
Qed.

Lemma last_occurrence (items : list CartItem.t) (k : Z) :
  In k (map CartItem.id items) ->
  exists pre item post,
    items = pre ++ item :: post /\ CartItem.id item = k /\
    Forall (fun i => CartItem.id i <> k) post.
Proof.
  induction items as [|i items IH]; intros Hin; [destruct Hin|].
  destruct (in_dec Z.eq_dec k (map CartItem.id items)) as [Hk|Hk].
  - destruct (IH Hk) as (pre & item & post & -> & Hid & Hpost).
    now exists (i :: pre), item, post.
  - destruct Hin as [Hi|Hin]; [|now elim Hk].
    exists [], i, items. repeat split; [exact Hi|].
    apply Forall_forall. intros x Hx E. apply Hk.
    apply in_map_iff. now exists x.
Qed.

Lemma Map_new_None (items : list CartItem.t) (k : Z) :
  Map_new items k = None <-> ~ In k (map CartItem.id items).
Proof.
  split.
  - intros H Hin.
    destruct (last_occurrence items k Hin) as (pre & item & post & Hd).
    assert (E : Map_new items k = Some item)
      by (apply Map_new_Some; now exists pre, post).
    rewrite E in H. discriminate.
  - intros H. destruct (Map_new items k) as [item|] eqn:E; [|reflexivity].
    exfalso. apply H. apply Map_new_Some in E as (pre & post & -> & Hk & _).
    rewrite map_app. apply in_or_app. right. now left.
Qed.

End FrontendFacts.

(** X21. Applying the cart state keeps the products and their order. A product
    is marked as in the cart exactly when the stored cart has an entry with
    its id; its quantity is then the quantity of the last such entry, and 0
    when there is none. A missing cart counts as empty. *)
Theorem applyCartState_merges :
  forall (stored : Frontend.Stored) (items : list Frontend.CartItem.t)
         (products : list ApiProduct.t),
    stored = Frontend.Entries items \/
    (stored = Frontend.NoEntry /\ items = []) ->
    exists l,
      Frontend.applyCartState stored products = Some l /\
      map Frontend.CartProduct.product l = products /\
      forall cp, In cp l ->
        let k := ApiProduct.id (Frontend.CartProduct.product cp) in
        (Frontend.CartProduct.inCart cp = true <->
         In k (map Frontend.CartItem.id items)) /\
        (Frontend.CartProduct.inCart cp = false ->
         Frontend.CartProduct.quantity cp = 0%Z) /\
        (Frontend.CartProduct.inCart cp = true ->
         exists pre item post,
           items = pre ++ item :: post /\
           Frontend.CartItem.id item = k /\
           Forall (fun i => Frontend.CartItem.id i <> k) post /\
           Frontend.CartProduct.quantity cp
             = Frontend.CartItem.quantity item).
Proof.
  intros stored items products Hstored.
  assert (Happly : Frontend.applyCartState stored products
                   = Some (map (fun product =>
                                  match Frontend.Map_new items
                                          (ApiProduct.id product) with
                                  | Some cartItem =>
                                      Frontend.CartProduct.mk product true
                                        (Frontend.CartItem.quantity cartItem)
                                  | None =>
                                      Frontend.CartProduct.mk product false 0%Z
                                  end) products)).
  { destruct Hstored as [->|[-> ->]]; reflexivity. }
  eexists. split; [exact Happly|]. split.
  - rewrite map_map. erewrite map_ext; [apply map_id|].
    intros p. now destruct (Frontend.Map_new items (ApiProduct.id p)).
  - intros cp Hcp. apply in_map_iff in Hcp as [p [<- _]].
    destruct (Frontend.Map_new items (ApiProduct.id p)) as [item|] eqn:E;
      cbn [Frontend.CartProduct.product Frontend.CartProduct.inCart
           Frontend.CartProduct.quantity].
    + pose proof (proj1 (FrontendFacts.Map_new_Some _ _ _) E)
        as (pre & post & Hitems & Hid & Hpost).
      split; [|split].
      * split; [|reflexivity]. intros _. rewrite Hitems, map_app.
        apply in_or_app. right. now left.
      * discriminate.
      * intros _. now exists pre, item, post.
    + apply FrontendFacts.Map_new_None in E. split; [|split].
      * split; [discriminate | intros H; now elim E].
      * reflexivity.
      * discriminate.
Qed.

(** Product 1 is twice in the cart: the later entry gives the quantity. *)
Lemma applyCartState_merges_witness :
  exists l,
    Frontend.applyCartState
      (Frontend.Entries [Frontend.CartItem.mk 1%Z 2%Z;
                         Frontend.CartItem.mk 1%Z 5%Z])
      [Demo.apiHoney; Demo.apiGhee] = Some l /\
    map Frontend.CartProduct.product l = [Demo.apiHoney; Demo.apiGhee].
Proof.
  destruct (applyCartState_merges
              (Frontend.Entries [Frontend.CartItem.mk 1%Z 2%Z;
                                 Frontend.CartItem.mk 1%Z 5%Z])
              [Frontend.CartItem.mk 1%Z 2%Z; Frontend.CartItem.mk 1%Z 5%Z]
              [Demo.apiHoney; Demo.apiGhee] (or_introl eq_refl))
    as (l & Hl & Hp & _).
  exists l. split; [exact Hl | exact Hp].
Defined.

Lemma loadProducts_miss (forceReload : bool) (now : Z)
  (stored : Frontend.Stored) (cache : Frontend.Cache) :
  forceReload = true \/
  (5000 <= now - Frontend.lastFetchTime cache)%Z \/
  Frontend.cachedProducts cache = [] ->
  negb forceReload && (now - Frontend.lastFetchTime cache <? 5000)%Z
  && (0 <? List.length (Frontend.cachedProducts cache))%nat = false.
Proof.
  intros [->|[H|H]].
  - reflexivity.
  - apply Z.ltb_ge in H. rewrite H. now rewrite andb_false_r.
  - rewrite H. now rewrite andb_false_r.
Qed.

(** X22. The loader serves a fetched product list for five seconds. After a call
    that went to the server at time [t] and received a list that is not
    empty, a call before [t + 5000] that does not force a reload makes no
    use of the server and returns that list, merged with the cart as it is
    stored at the time of this call; from [t + 5000] on, or when forced, the
    call goes to the server again. A fetched list that is empty is never
    served from the cache: every later call goes to the server. *)
Theorem loadProducts_cache :
  forall (forceReload : bool) (t : Z) (productsFromAPI : list ApiProduct.t)
         (stored : Frontend.Stored) (cache : Frontend.Cache),
    forceReload = true \/
    (5000 <= t - Frontend.lastFetchTime cache)%Z \/
    Frontend.cachedProducts cache = [] ->
    let cache1 :=
      fst (Frontend.loadProducts forceReload t
             (Frontend.Products productsFromAPI) stored cache) in
    cache1 = Frontend.mkCache productsFromAPI t /\
    (productsFromAPI <> [] ->
     forall t' fetched' stored',
       (t' - t < 5000)%Z ->
       Frontend.loadProducts false t' fetched' stored' cache1
       = (cache1,
          match Frontend.applyCartState stored' productsFromAPI with
          | Some r => Frontend.Resolved r
          | None => Frontend.Rejected
          end)) /\
    (forall reload' t' later stored',
        reload' = true \/ (5000 <= t' - t)%Z \/ productsFromAPI = [] ->
        fst (Frontend.loadProducts reload' t' (Frontend.Products later)
               stored' cache1)
        = Frontend.mkCache later t').
Proof.
  intros forceReload t productsFromAPI stored cache Hmiss cache1.
  assert (H1 : cache1 = Frontend.mkCache productsFromAPI t).
  { unfold cache1, Frontend.loadProducts.
    now rewrite (loadProducts_miss _ _ stored _ Hmiss). }
  split; [exact H1|]. rewrite H1. split.
  - intros Hne t' fetched' stored' Hlt. unfold Frontend.loadProducts.
    cbn [Frontend.lastFetchTime Frontend.cachedProducts negb andb].
    apply Z.ltb_lt in Hlt. rewrite Hlt.
    destruct productsFromAPI; [now elim Hne | reflexivity].
  - intros reload' t' later stored' Hmiss'. unfold Frontend.loadProducts.
    rewrite (loadProducts_miss reload' t' stored'
               (Frontend.mkCache productsFromAPI t)); [reflexivity|].
    exact Hmiss'.
Qed.

(** A forced fetch at time 1000, then a call at time 5999 while the server
    is down. *)
Lemma loadProducts_cache_witness :
  Frontend.loadProducts false 5999 Frontend.FetchFailed Frontend.NoEntry
    (Frontend.mkCache [Demo.apiHoney] 1000)
  = (Frontend.mkCache [Demo.apiHoney] 1000,
     Frontend.Resolved [Frontend.CartProduct.mk Demo.apiHoney false 0%Z]).
Proof.
  apply (proj1 (proj2 (loadProducts_cache true 1000 [Demo.apiHoney]
                         Frontend.NoEntry Frontend.initial
                         (or_introl eq_refl)))
           ltac:(discriminate) 5999%Z Frontend.FetchFailed Frontend.NoEntry
           eq_refl).
Defined.

(** X23. When the request fails the loader answers with the empty list and keeps
    its cache as it was. When the stored cart cannot be read, a call that is
    answered from the cache fails, while a call that fetches answers with
    the empty list although it has refreshed the cache. *)
Theorem loadProducts_failures :
  forall (forceReload : bool) (now : Z) (cache : Frontend.Cache),
    (forceReload = true \/
     (5000 <= now - Frontend.lastFetchTime cache)%Z \/
     Frontend.cachedProducts cache = [] ->
     (forall stored,
         Frontend.loadProducts forceReload now Frontend.FetchFailed stored cache
         = (cache, Frontend.Resolved [])) /\
     (forall productsFromAPI,
         Frontend.loadProducts forceReload now
           (Frontend.Products productsFromAPI) Frontend.Malformed cache
         = (Frontend.mkCache productsFromAPI now, Frontend.Resolved []))) /\
    (forceReload = false ->
     (now - Frontend.lastFetchTime cache < 5000)%Z ->
     Frontend.cachedProducts cache <> [] ->
     forall fetched,
       Frontend.loadProducts forceReload now fetched Frontend.Malformed cache
       = (cache, Frontend.Rejected)).
Proof.
  intros forceReload now cache. unfold Frontend.loadProducts. split.
  - intros Hmiss.
    assert (Hc : negb forceReload
                 && (now - Frontend.lastFetchTime cache <? 5000)%Z
                 && (0 <? List.length (Frontend.cachedProducts cache))%nat
                 = false).
    { destruct Hmiss as [->|[H|H]].
      - reflexivity.
      - apply Z.ltb_ge in H. rewrite H. now rewrite andb_false_r.
      - rewrite H. now rewrite andb_false_r. }
    rewrite Hc. split; reflexivity.
  - intros -> Hlt Hne fetched. apply Z.ltb_lt in Hlt. rewrite Hlt.
    destruct (Frontend.cachedProducts cache) as [|p ps] eqn:E;
      [now elim Hne | reflexivity].
Qed.

Lemma loadProducts_failures_witness :
  Frontend.loadProducts false 9000 Frontend.FetchFailed Frontend.NoEntry
    (Frontend.mkCache [Demo.apiHoney] 1000)
  = (Frontend.mkCache [Demo.apiHoney] 1000, Frontend.Resolved []).
Proof.
  apply (proj1 (loadProducts_failures false 9000
                  (Frontend.mkCache [Demo.apiHoney] 1000))).
  right. left. discriminate.
Defined.

(** ** Products in the store satisfy their schema *)

Lemma Product_create_stored (oid : ObjectId) (o : Product.init)
  (p : Product.t) :
  Product.create oid o = Some p -> ProductStored p.
Proof.
  unfold Product.create.
  destruct (Product.i_name o) as [n|]; [|discriminate].
  destruct (Product.i_price o) as [pr|]; [|discriminate].
  destruct (_ && _ && _ && _) eqn:E; [|discriminate].
  intros [= <-]. apply andb_true_iff in E as [E Hp].
  apply andb_true_iff in E as [E Hd]. apply andb_true_iff in E as [_ Hn].
  unfold Product.lengthBetween in Hn. apply andb_true_iff in Hn as [Hlo Hhi].
  apply Nat.leb_le in Hlo, Hhi. apply Qle_bool_iff in Hp.
  unfold ProductStored. cbn [Product.name Product.price Product.description].
  split; [now split|]. split; [apply trim_idempotent|]. split; [exact Hp|].
  intros d Hdesc. destruct (Product.i_description o) as [d0|];
    cbn [option_map] in Hdesc, Hd; [|discriminate].
  injection Hdesc as <-. unfold Product.lengthBetween in Hd.
  apply andb_true_iff in Hd as [_ Hd]. apply Nat.leb_le in Hd.
  split; [exact Hd | apply trim_idempotent].
Qed.

Lemma ProductStored_same (p q : Product.t) :
  sameButStats p q -> ProductStored p -> ProductStored q.
Proof.
  unfold sameButStats, ProductStored.
  intros (_ & _ & Hn & _ & _ & _ & Hd & _ & Hp & _).
  now rewrite Hn, Hd, Hp.
Qed.

(** X24. Whatever requests are served, every Product in the store has a trimmed
    name of 3 to 150 characters, a price that is not negative and, if it has
    a description, a trimmed one of at most 2000 characters; a creation
    request that does not meet this is answered with 400. *)
Theorem products_stay_well_formed :
  (forall (reqs : list Request) (st : Store),
      Forall ProductStored (products st) ->
      Forall ProductStored (products (run reqs st))) /\
  (forall now header query body st st' p,
      createProduct now header query body st = (st', Status201 p) ->
      exists n pr,
        ProductBody.name body = Some n /\ Product.name p = JS.trim n /\
        (3 <= String.length (JS.trim n) <= 150)%nat /\
        ProductBody.price body = Some pr /\ 0 <= pr).
Proof.
  split.
  - intros reqs st.
    apply (run_preserves (fun s => Forall ProductStored (products s))).
    + intros s s' Hw H. destruct (Write_products _ _ Hw)
        as (kept & newer & Hp & Hk).
      rewrite Hp. apply Forall_app. split.
      * apply Forall_forall. intros q Hq.
        destruct (Forall2_In_r _ _ _ _ Hk Hq) as [x [Hx Hsame]].
        rewrite Forall_forall in H.
        now apply (ProductStored_same x q Hsame), H.
      * destruct Hw as [o p0 s s' _ Hsave|cs p0 s _ _|p0 s|o s s' Hs].
        -- destruct (Product_save_created _ _ _ _ Hsave) as [oid E].
           apply Product_create_stored in E.
           apply Product_save_effect in Hsave as (-> & _ & _).
           cbn [products] in Hp.
           assert (Hlen : List.length kept = List.length (products s))
             by (symmetry; eapply Forall2_length; exact Hk).
           apply (f_equal (skipn (List.length (products s)))) in Hp.
           rewrite skipn_app, skipn_all, Nat.sub_diag in Hp.
           rewrite <- Hlen, skipn_app, skipn_all, Nat.sub_diag in Hp.
           cbn in Hp. subst newer. constructor; [exact E | constructor].
        -- cbn [products withComments] in Hp.
           assert (Hlen : List.length kept = List.length (products s))
             by (symmetry; eapply Forall2_length; exact Hk).
           apply (f_equal (@List.length _)) in Hp. rewrite length_app in Hp.
           destruct newer; [constructor | cbn in Hp; lia].
        -- assert (Hlen : List.length kept = List.length (products s))
             by (symmetry; eapply Forall2_length; exact Hk).
           apply (f_equal (@List.length _)) in Hp.
           rewrite length_app in Hp.
           unfold Product_update in Hp. cbn [products withProducts] in Hp.
           rewrite length_map in Hp.
           destruct newer; [constructor | cbn in Hp; lia].
        -- apply Order_save_effect in Hs as [-> _].
           cbn [products withOrders] in Hp.
           assert (Hlen : List.length kept = List.length (products s))
             by (symmetry; eapply Forall2_length; exact Hk).
           apply (f_equal (@List.length _)) in Hp. rewrite length_app in Hp.
           destruct newer; [constructor | cbn in Hp; lia].
    + intros header query id s H.
      destruct (deleteProduct_effect header query id s)
        as [->|(oid & d & l1 & l2 & _ & Hps & _ & _ & ->)]; [exact H|].
      cbn [products withProducts]. rewrite Hps in H.
      apply Forall_app in H as [H1 H2]. apply Forall_app. split; [exact H1|].
      now inversion H2.
  - intros now header query body st st' p H. unfold createProduct in H.
    destruct (adminAuth header query); cbn [negb] in H; [|discriminate].
    match type of H with context [Product_save ?o st] =>
      destruct (Product_save o st) as [[q st1]|] eqn:Hsave end;
      [|discriminate].
    injection H as _ <-.
    apply Product_save_created in Hsave as [oid H].
    unfold Product.create in H.
    cbn [Product.i_name Product.i_price] in H.
    destruct (ProductBody.name body) as [n|]; [|discriminate].
    destruct (ProductBody.price body) as [pr|]; [|discriminate].
    destruct (_ && _ && _ && _) eqn:E; [|discriminate].
    injection H as <-. apply andb_true_iff in E as [E Hp].
    apply andb_true_iff in E as [E _]. apply andb_true_iff in E as [_ Hn].
    unfold Product.lengthBetween in Hn. apply andb_true_iff in Hn as [Hlo Hhi].
    apply Nat.leb_le in Hlo, Hhi. apply Qle_bool_iff in Hp.
    exists n, pr. now repeat split.
Qed.

Lemma products_stay_well_formed_witness :
  Forall ProductStored (products (run Demo.traffic Sample.empty)).
Proof.
  apply (proj1 products_stay_well_formed Demo.traffic Sample.empty).
  constructor.
Defined.

(** ** From the store to the cart *)

(** X25. The product list served to the frontend carries the legacy id as [id],
    and the cart is matched on it: a Product of the store is shown as in the
    cart exactly when the stored cart has an entry for its legacy id. *)
Theorem cart_is_keyed_by_legacy_id :
  forall (st : Store) (items : list Frontend.CartItem.t),
    exists l,
      Frontend.applyCartState (Frontend.Entries items) (listProducts st)
      = Some l /\
      Forall2 (fun p cp =>
                 Frontend.CartProduct.product cp = formatProduct p /\
                 ApiProduct.id (Frontend.CartProduct.product cp)
                 = Product.legacyId p /\
                 (Frontend.CartProduct.inCart cp = true <->
                  In (Product.legacyId p) (map Frontend.CartItem.id items)))
              (products st) l.
Proof.
  intros st items. eexists. split; [reflexivity|].
  unfold listProducts. rewrite map_map.
  induction (products st) as [|p ps IH]; cbn [map]; constructor; [|exact IH].
  cbn [formatProduct ApiProduct.id].
  destruct (Frontend.Map_new items (Product.legacyId p)) as [item|] eqn:E;
    cbn [Frontend.CartProduct.product Frontend.CartProduct.inCart
         ApiProduct.id].
  - split; [reflexivity|]. split; [reflexivity|]. split; [|reflexivity].
    intros _. apply FrontendFacts.Map_new_Some in E
      as (pre & post & -> & Hid & _).
    rewrite map_app. apply in_or_app. right. now left.
  - apply FrontendFacts.Map_new_None in E.
    split; [reflexivity|]. split; [reflexivity|].
    split; [discriminate | intros H; now elim E].
Qed.
